(** * HR Nexus marketplace server: store, HTTP API and chat relay

    A shallow embedding of the Express / better-sqlite3 / Socket.IO server
    (the file that opens the database, declares the five tables and
    registers the routes and the socket handlers) together with the
    properties of its specification.

    - The SQLite file is a record of five tables, each a list of rows in
      rowid order (the order a table scan returns them in).
    - A handler is a computation in a small state-and-exception monad over
      the [world]: the store, the connected sockets and a trace of the
      observable effects in program order.
    - What the environment chooses (the clock, [crypto.randomUUID()], the
      reply of the hosted text model) is an input of the request.
    - A number is an IEEE 754 double: the products of the create-project
      handler are rounded as the engine rounds them. *)

From Stdlib Require Import List String Ascii ZArith Lia Bool Permutation Sorted.
From Stdlib Require Floats.SpecFloat.
Import ListNotations.
Open Scope string_scope.
Open Scope Z_scope.
Open Scope list_scope.

Set Implicit Arguments.

(** ** Values *)

(** A field of a JSON body in which the handlers expect text (an id, a name,
    an email ...): a string, [null], or missing ([undefined] after the
    destructuring of [req.body]).  Bodies that put another kind of JSON value
    in such a field are outside the model. *)
Inductive jstext : Type :=
| TUndefined
| TNull
| TString (s : string).

(** *** Numbers

    A JavaScript number is an IEEE 754 double.  [Finite m e] is the number
    [m * 2^e]; the doubles are the values with [|m| < 2^53] and
    [-1074 <= e <= 971] and every operation below returns one of them.  The
    sign of a zero is not kept: no handler tells -0 from 0 and an INTEGER
    column stores both as the integer 0. *)
Inductive number : Type :=
| NaN
| Infinity (negative : bool)
| Finite (m e : Z).

(** The double nearest to [m * 2^e], a tie going to the even mantissa: the
    53 leading bits are kept, fewer where the result is subnormal, and a
    magnitude of 2^1024 or more is an infinity. *)
Definition round_to_double (m e : Z) : number :=
  let a := Z.abs m in
  let s := Z.max (Z.log2 a + 1 - 53) (-1074 - e) in
  let q := if s <=? 0 then a
           else
             let q := a / 2 ^ s in
             let r := a mod 2 ^ s in
             let half := 2 ^ (s - 1) in
             if (half <? r) || ((r =? half) && Z.odd q) then q + 1 else q in
  let e' := if s <=? 0 then e else e + s in
  if q =? 0 then Finite 0 0
  else if 1024 <? Z.log2 q + 1 + e' then Infinity (m <? 0)
  else Finite (Z.sgn m * q) e'.

(** [x * y] *)
Definition times (x y : number) : number :=
  match x, y with
  | NaN, _ | _, NaN => NaN
  | Finite m1 e1, Finite m2 e2 => round_to_double (m1 * m2) (e1 + e2)
  | Infinity s, Finite m _ | Finite m _, Infinity s =>
      if m =? 0 then NaN else Infinity (xorb s (m <? 0))
  | Infinity s1, Infinity s2 => Infinity (xorb s1 s2)
  end.

(** [Math.floor(x)] *)
Definition Math_floor (x : number) : number :=
  match x with
  | Finite m e => if 0 <=? e then Finite m e else Finite (m / 2 ^ (- e)) 0
  | _ => x
  end.

(** The number an integer literal denotes. *)
Definition integer (n : Z) : number := round_to_double n 0.
Coercion integer : Z >-> number.

(** The literals [0.2] and [0.4] are [fifths 1] and [fifths 2]: the doubles
    nearest to one fifth and to two fifths, 7205759403792794 * 2^-55 and
    7205759403792794 * 2^-54. *)
Definition fifths (k : Z) : number := Finite (k * 3602879701896397) (-54).

(** The same number in the Standard Library's specification of IEEE 754
    arithmetic, at the precision and the exponent range of binary64. *)
Definition binary64 (x : number) : SpecFloat.spec_float :=
  match x with
  | NaN => SpecFloat.S754_nan
  | Infinity s => SpecFloat.S754_infinity s
  | Finite m e => SpecFloat.binary_normalize 53 1024 m e false
  end.

(** [x == y] of IEEE 754: equal numbers, the two zeros being equal. *)
Definition same_double (x y : SpecFloat.spec_float) : bool :=
  match SpecFloat.SFcompare x y with
  | Some Eq => true
  | _ => false
  end.

(** What an INTEGER-affinity column holds. *)
Inductive sqlval : Type :=
| SNull
| SInteger (n : Z)
| SReal (x : number)
| SText (s : string).

(** A value where the handlers expect a number ([budget_min], [budget_max],
    [amount]): a number, [null], missing, or a string.  A JSON body cannot
    carry NaN; the arithmetic of the handlers can produce it.  What a string
    converts to is decided by library code, the number parser of the
    JavaScript engine and the numeric affinity of SQLite; like the clock and
    the UUIDs, the two results come with the request: [number] is
    ToNumber of the string (NaN when it is no numeric literal) and [column]
    is what a column of INTEGER affinity stores for the text (the integer or
    the real it looks like, else the text itself). *)
Inductive jsnumeric : Type :=
| NUndefined
| NNull
| NNumber (x : number)
| NString (s : string) (number : number) (column : sqlval).

Inductive table : Type := Users | Projects | Bids | Messages | Milestones.

(** [err.message] of what a statement or the gateway throws. *)
Inductive error : Type :=
| NotNullFailed (t : table) (col : string) (* NOT NULL constraint failed: t.col *)
| CheckFailed (t : table)                (* CHECK constraint failed *)
| UniqueFailed (t : table) (col : string)  (* UNIQUE constraint failed: t.col *)
| ForeignKeyFailed                       (* FOREIGN KEY constraint failed *)
| GatewayFailed (msg : string).          (* the hosted model call rejected *)

Inductive outcome (A : Type) : Type :=
| Returned (a : A)
| Thrown (e : error).
Arguments Returned {A} a.
Arguments Thrown {A} e.

Definition string_eqb_opt (a : option string) (b : string) : bool :=
  match a with
  | Some s => String.eqb s b
  | None => false
  end.

(** ECMAScript ToNumber, as the operand of [*]. *)
Definition ToNumber (v : jsnumeric) : number :=
  match v with
  | NUndefined => NaN
  | NNull => Finite 0 0
  | NNumber x => x
  | NString _ x _ => x
  end.

(** [Math.floor(v * 0.2)] is [floor_share 1 v] and [Math.floor(v * 0.4)] is
    [floor_share 2 v]. *)
Definition floor_share (k : Z) (v : jsnumeric) : jsnumeric :=
  NNumber (Math_floor (times (ToNumber v) (fifths k))).

(** ** The store *)

(** Rows.  A TEXT column is a [string] when it is declared NOT NULL and an
    [option string] otherwise ([None] is NULL); a TEXT PRIMARY KEY that is not
    declared NOT NULL may hold NULL in SQLite.  Timestamps are seconds, standing
    for the 'YYYY-MM-DD HH:MM:SS' text of CURRENT_TIMESTAMP, whose text order
    is the time order. *)
Record user_row : Type := mk_user {
  u_id : option string;
  u_name : string;
  u_email : string;
  u_role : string;
  u_bio : option string;
  u_avatar : option string
}.

Record project_row : Type := mk_project {
  p_id : option string;
  p_buyer_id : string;
  p_title : string;
  p_description : string;
  p_budget_min : sqlval;
  p_budget_max : sqlval;
  p_status : option string;
  p_created_at : Z
}.

Record bid_row : Type := mk_bid {
  b_id : option string;
  b_project_id : string;
  b_seller_id : string;
  b_amount : sqlval;
  b_proposal : string;
  b_status : option string;
  b_created_at : Z
}.

Record message_row : Type := mk_message {
  m_id : Z;
  m_sender_id : string;
  m_receiver_id : string;
  m_content : string;
  m_timestamp : Z
}.

Record milestone_row : Type := mk_milestone {
  ms_id : option string;
  ms_project_id : string;
  ms_title : string;
  ms_amount : sqlval;
  ms_status : option string
}.

(** The database file.  [foreign_keys] is the connection's foreign_keys
    pragma (the driver opens connections with it on); [messages_seq] is the
    AUTOINCREMENT counter of [messages]. *)
Record store : Type := mk_store {
  foreign_keys : bool;
  users : list user_row;
  projects : list project_row;
  bids : list bid_row;
  messages : list message_row;
  messages_seq : Z;
  milestones : list milestone_row
}.

Definition set_users (db : store) (l : list user_row) : store :=
  mk_store (foreign_keys db) l (projects db) (bids db) (messages db)
           (messages_seq db) (milestones db).

Definition set_projects (db : store) (l : list project_row) : store :=
  mk_store (foreign_keys db) (users db) l (bids db) (messages db)
           (messages_seq db) (milestones db).

Definition set_bids (db : store) (l : list bid_row) : store :=
  mk_store (foreign_keys db) (users db) (projects db) l (messages db)
           (messages_seq db) (milestones db).

Definition set_messages (db : store) (l : list message_row) (seq : Z) : store :=
  mk_store (foreign_keys db) (users db) (projects db) (bids db) l
           seq (milestones db).

Definition set_milestones (db : store) (l : list milestone_row) : store :=
  mk_store (foreign_keys db) (users db) (projects db) (bids db) (messages db)
           (messages_seq db) l.

(** *** Binding parameters *)

(** The driver binds a string as TEXT and both [null] and [undefined] as
    NULL. *)
Definition bind_text (v : jstext) : outcome (option string) :=
  match v with
  | TUndefined => Returned None
  | TNull => Returned None
  | TString s => Returned (Some s)
  end.

(** The integer a number is, when it is one. *)
Definition whole (x : number) : option Z :=
  match x with
  | Finite m e =>
      if 0 <=? e then Some (m * 2 ^ e)
      else if m mod 2 ^ (- e) =? 0 then Some (m / 2 ^ (- e))
      else None
  | _ => None
  end.

(** A number bound to a column of INTEGER affinity: NaN is stored as NULL, a
    whole number of magnitude below 2^63 as that integer, any other number
    as the REAL it is. *)
Definition integer_affinity (x : number) : sqlval :=
  match x with
  | NaN => SNull
  | _ =>
      match whole x with
      | Some n => if Z.abs n <? 2 ^ 63 then SInteger n else SReal x
      | None => SReal x
      end
  end.

Definition bind_numeric (v : jsnumeric) : outcome sqlval :=
  match v with
  | NUndefined => Returned SNull
  | NNull => Returned SNull
  | NNumber x => Returned (integer_affinity x)
  | NString _ _ v => Returned v
  end.

(** *** Key lookups *)

Definition has_key {A : Type} (key : A -> option string) (l : list A)
    (k : string) : bool :=
  existsb (fun x => string_eqb_opt (key x) k) l.

Definition has_user (db : store) : string -> bool := has_key u_id (users db).
Definition has_project (db : store) : string -> bool := has_key p_id (projects db).
Definition has_bid (db : store) : string -> bool := has_key b_id (bids db).
Definition has_milestone (db : store) : string -> bool := has_key ms_id (milestones db).

(** A primary key conflicts only when it is not NULL. *)
Definition key_taken (has : string -> bool) (id : option string) : bool :=
  match id with
  | Some i => has i
  | None => false
  end.

(** A child key passes when foreign keys are off or the parent exists. *)
Definition fk_holds (db : store) (has : string -> bool) (key : string) : bool :=
  negb (foreign_keys db) || has key.

(** *** Statements

    Each prepared statement is a function from the store and the bound
    parameters to the new store or the error SQLite raises.  SQLite checks
    NOT NULL first, then CHECK, then the primary key and UNIQUE indexes, then
    the foreign keys.  A failed statement leaves the store as it was. *)

Definition obind {A B : Type} (o : outcome A) (k : A -> outcome B) : outcome B :=
  match o with
  | Returned a => k a
  | Thrown e => Thrown e
  end.

Definition omap {A B : Type} (f : A -> B) (o : outcome A) : outcome B :=
  match o with
  | Returned a => Returned (f a)
  | Thrown e => Thrown e
  end.

Notation "'let!' x ':=' o 'in' k" := (obind o (fun x => k))
  (at level 10, x name, o at level 100, k at level 200).

Definition not_null (table : table) (col : string) (v : option string) : outcome string :=
  match v with
  | Some s => Returned s
  | None => Thrown (NotNullFailed table col)
  end.

Definition not_null_value (table : table) (col : string) (v : sqlval) : outcome sqlval :=
  match v with
  | SNull => Thrown (NotNullFailed table col)
  | _ => Returned v
  end.

(** INSERT INTO projects (id, buyer_id, title, description, budget_min,
    budget_max) VALUES (?, ?, ?, ?, ?, ?); status and created_at take their
    defaults. *)
Definition insert_project (db : store)
    (id buyer_id title description : option string)
    (budget_min budget_max : sqlval) (now : Z) : outcome store :=
  let! buyer := not_null Projects "buyer_id" buyer_id in
  let! ttl := not_null Projects "title" title in
  let! descr := not_null Projects "description" description in
  if key_taken (has_project db) id then Thrown (UniqueFailed Projects "id")
  else if fk_holds db (has_user db) buyer then
    Returned (set_projects db
      (projects db ++
       [mk_project id buyer ttl descr budget_min budget_max (Some "open") now]))
  else Thrown ForeignKeyFailed.

(** INSERT INTO bids (id, project_id, seller_id, amount, proposal)
    VALUES (?, ?, ?, ?, ?). *)
Definition insert_bid (db : store)
    (id project_id seller_id : option string) (amount : sqlval)
    (proposal : option string) (now : Z) : outcome store :=
  let! pid := not_null Bids "project_id" project_id in
  let! sid := not_null Bids "seller_id" seller_id in
  let! amt := not_null_value Bids "amount" amount in
  let! prop := not_null Bids "proposal" proposal in
  if key_taken (has_bid db) id then Thrown (UniqueFailed Bids "id")
  else if fk_holds db (has_project db) pid && fk_holds db (has_user db) sid then
    Returned (set_bids db
      (bids db ++ [mk_bid id pid sid amt prop (Some "pending") now]))
  else Thrown ForeignKeyFailed.

(** INSERT INTO milestones (id, project_id, title, amount)
    VALUES (?, ?, ?, ?). *)
Definition insert_milestone (db : store)
    (id project_id title : option string) (amount : sqlval) : outcome store :=
  let! pid := not_null Milestones "project_id" project_id in
  let! ttl := not_null Milestones "title" title in
  let! amt := not_null_value Milestones "amount" amount in
  if key_taken (has_milestone db) id then Thrown (UniqueFailed Milestones "id")
  else if fk_holds db (has_project db) pid then
    Returned (set_milestones db
      (milestones db ++ [mk_milestone id pid ttl amt (Some "pending")]))
  else Thrown ForeignKeyFailed.

(** INSERT INTO messages (sender_id, receiver_id, content) VALUES (?, ?, ?);
    the id is the next AUTOINCREMENT value. *)
Definition insert_message (db : store)
    (sender_id receiver_id content : option string) (now : Z) : outcome store :=
  let! sender := not_null Messages "sender_id" sender_id in
  let! receiver := not_null Messages "receiver_id" receiver_id in
  let! text := not_null Messages "content" content in
  let id := messages_seq db + 1 in
  Returned (set_messages db
    (messages db ++ [mk_message id sender receiver text now]) id).

(** CHECK(role IN ('buyer', 'seller')). *)
Definition role_ok (role : string) : bool :=
  String.eqb role "buyer" || String.eqb role "seller".

(** The rows an INSERT OR REPLACE of [(id, email)] removes: the row holding
    the same primary key and the row holding the same email. *)
Definition replaced_by (id : option string) (email : string) (u : user_row) : bool :=
  match id with
  | Some i => string_eqb_opt (u_id u) i
  | None => false
  end || String.eqb (u_email u) email.

(** A child row whose parent was removed and is not back at the end of the
    statement. *)
Definition orphaned (removed kept : list user_row) (key : string) : bool :=
  has_key u_id removed key && negb (has_key u_id kept key).

(** INSERT OR REPLACE INTO users (id, name, email, role, bio, avatar)
    VALUES (?, ?, ?, ?, ?, ?).  REPLACE resolves the primary key and the
    UNIQUE conflicts by deleting the rows in the way; NOT NULL (no column
    has a default) and CHECK abort as usual.  The foreign keys that point at
    [users] are checked when the statement ends. *)
Definition replace_user (db : store)
    (id name email role bio avatar : option string) : outcome store :=
  let! nm := not_null Users "name" name in
  let! em := not_null Users "email" email in
  let! rl := not_null Users "role" role in
  if negb (role_ok rl) then Thrown (CheckFailed Users)
  else
    let removed := filter (replaced_by id em) (users db) in
    let kept := filter (fun u => negb (replaced_by id em u)) (users db) in
    let users' := kept ++ [mk_user id nm em rl bio avatar] in
    if foreign_keys db &&
       (existsb (fun p => orphaned removed users' (p_buyer_id p)) (projects db) ||
        existsb (fun b => orphaned removed users' (b_seller_id b)) (bids db))
    then Thrown ForeignKeyFailed
    else Returned (set_users db users').

(** *** Running a statement

    [.run(a, b, ...)] binds its arguments, then executes. *)

Definition run_insert_project (s : store) (id buyer_id title description : jstext)
    (budget_min budget_max : jsnumeric) (now : Z) : outcome store :=
  let! i := bind_text id in
  let! b := bind_text buyer_id in
  let! t := bind_text title in
  let! d := bind_text description in
  let! lo := bind_numeric budget_min in
  let! hi := bind_numeric budget_max in
  insert_project s i b t d lo hi now.

Definition run_insert_bid (s : store) (id project_id seller_id : jstext)
    (amount : jsnumeric) (proposal : jstext) (now : Z) : outcome store :=
  let! i := bind_text id in
  let! p := bind_text project_id in
  let! u := bind_text seller_id in
  let! a := bind_numeric amount in
  let! t := bind_text proposal in
  insert_bid s i p u a t now.

Definition run_insert_milestone (s : store) (id project_id title : jstext)
    (amount : jsnumeric) : outcome store :=
  let! i := bind_text id in
  let! p := bind_text project_id in
  let! t := bind_text title in
  let! a := bind_numeric amount in
  insert_milestone s i p t a.

Definition run_insert_message (s : store) (sender_id receiver_id content : jstext)
    (now : Z) : outcome store :=
  let! f := bind_text sender_id in
  let! t := bind_text receiver_id in
  let! c := bind_text content in
  insert_message s f t c now.

Definition run_replace_user (s : store) (id name email role bio avatar : jstext)
    : outcome store :=
  let! i := bind_text id in
  let! n := bind_text name in
  let! e := bind_text email in
  let! r := bind_text role in
  let! b := bind_text bio in
  let! a := bind_text avatar in
  replace_user s i n e r b a.

(** *** Queries *)

(** SELECT * FROM users WHERE id = ? (first row). *)
Definition select_user (db : store) (id : string) : option user_row :=
  find (fun u => string_eqb_opt (u_id u) id) (users db).

(** SELECT * FROM projects WHERE id = ? (first row). *)
Definition select_project (db : store) (id : string) : option project_row :=
  find (fun p => string_eqb_opt (p_id p) id) (projects db).

(** SELECT * FROM users WHERE role = 'seller'. *)
Definition select_sellers (db : store) : list user_row :=
  filter (fun u => String.eqb (u_role u) "seller") (users db).

(** SELECT * FROM milestones WHERE project_id = ?. *)
Definition select_milestones (db : store) (project_id : string) : list milestone_row :=
  filter (fun m => String.eqb (ms_project_id m) project_id) (milestones db).

(** A row of [projects] with the buyer's name. *)
Record project_listing : Type := mk_project_listing {
  pl_project : project_row;
  pl_buyer_name : string
}.

(** A row of [bids] with the seller's name. *)
Record bid_listing : Type := mk_bid_listing {
  bl_bid : bid_row;
  bl_seller_name : string
}.

(** projects JOIN users ON projects.buyer_id = users.id, in table order. *)
Definition join_buyers (db : store) : list project_listing :=
  flat_map (fun p =>
    map (fun u => mk_project_listing p (u_name u))
        (filter (fun u => string_eqb_opt (u_id u) (p_buyer_id p)) (users db)))
    (projects db).

(** ORDER BY created_at DESC; rows with the same created_at stay in the
    order of the scan. *)
Fixpoint insert_desc (x : project_listing) (l : list project_listing) : list project_listing :=
  match l with
  | [] => [x]
  | y :: rest =>
      if p_created_at (pl_project y) <=? p_created_at (pl_project x)
      then x :: l
      else y :: insert_desc x rest
  end.

Fixpoint order_by_created_desc (l : list project_listing) : list project_listing :=
  match l with
  | [] => []
  | x :: rest => insert_desc x (order_by_created_desc rest)
  end.

(** SELECT projects.*, users.name as buyer_name FROM projects JOIN users
    ON projects.buyer_id = users.id ORDER BY created_at DESC. *)
Definition select_projects (db : store) : list project_listing :=
  order_by_created_desc (join_buyers db).

(** SELECT bids.*, users.name as seller_name FROM bids JOIN users
    ON bids.seller_id = users.id WHERE project_id = ?. *)
Definition select_bids (db : store) (project_id : string) : list bid_listing :=
  flat_map (fun b =>
    map (fun u => mk_bid_listing b (u_name u))
        (filter (fun u => string_eqb_opt (u_id u) (b_seller_id b)) (users db)))
    (filter (fun b => String.eqb (b_project_id b) project_id) (bids db)).

(** ** The world and the handler monad *)

(** A connected socket: its id and the rooms it joined.  Socket.IO also puts
    every socket in the room named by its own id. *)
Record socket : Type := mk_socket {
  socket_id : string;
  rooms : list string
}.

(** The payload of send_message, forwarded unchanged as receive_message. *)
Record message_data : Type := mk_message_data {
  md_sender_id : jstext;
  md_receiver_id : jstext;
  md_content : jstext
}.

(** What the trace records, in program order: a statement that wrote a table,
    a receive_message packet sent to a socket, a call of
    [getMatchmakingAdvice]. *)
Inductive event : Type :=
| Wrote (t : table)
| Received (sid : string) (data : message_data)
| AskedAdvice (description : string) (bios : list string).

Record world : Type := mk_world {
  db : store;
  sockets : list socket;
  trace : list event
}.

(** A computation runs on a world and returns or throws; what it did to the
    world before throwing stays done. *)
Definition M (A : Type) : Type := world -> outcome A * world.

Definition ret {A : Type} (a : A) : M A := fun w => (Returned a, w).

Definition bind {A B : Type} (m : M A) (k : A -> M B) : M B :=
  fun w =>
    match m w with
    | (Returned a, w') => k a w'
    | (Thrown e, w') => (Thrown e, w')
    end.

Definition try_catch {A : Type} (body : M A) (handler : error -> M A) : M A :=
  fun w =>
    match body w with
    | (Returned a, w') => (Returned a, w')
    | (Thrown e, w') => handler e w'
    end.

Notation "x <- m ;; k" := (bind m (fun x => k))
  (at level 61, m at next level, right associativity).
Notation "m ;; k" := (bind m (fun _ => k))
  (at level 61, right associativity).

(** The settling of an awaited promise. *)
Definition settle {A : Type} (o : outcome A) : M A := fun w => (o, w).

Definition log (evs : list event) : M unit :=
  fun w => (Returned tt, mk_world (db w) (sockets w) (trace w ++ evs)).

(** [.run()] of a writing statement on table [t]. *)
Definition exec (t : table) (stmt : store -> outcome store) : M unit :=
  fun w =>
    match stmt (db w) with
    | Returned db' =>
        (Returned tt, mk_world db' (sockets w) (trace w ++ [Wrote t]))
    | Thrown e => (Thrown e, w)
    end.

(** [.get()] or [.all()] of a SELECT. *)
Definition query {A : Type} (q : store -> A) : M A :=
  fun w => (Returned (q (db w)), w).

Fixpoint for_each {A : Type} (l : list A) (body : A -> M unit) : M unit :=
  match l with
  | [] => ret tt
  | x :: rest => body x ;; for_each rest body
  end.

(** ** The HTTP API *)

Record project_body : Type := mk_project_body {
  pb_id : jstext;
  pb_buyer_id : jstext;
  pb_title : jstext;
  pb_description : jstext;
  pb_budget_min : jsnumeric;
  pb_budget_max : jsnumeric
}.

Record user_body : Type := mk_user_body {
  ub_id : jstext;
  ub_name : jstext;
  ub_email : jstext;
  ub_role : jstext;
  ub_bio : jstext;
  ub_avatar : jstext
}.

Record bid_body : Type := mk_bid_body {
  bb_id : jstext;
  bb_project_id : jstext;
  bb_seller_id : jstext;
  bb_amount : jsnumeric;
  bb_proposal : jstext
}.

Record milestone_body : Type := mk_milestone_body {
  mb_id : jstext;
  mb_project_id : jstext;
  mb_title : jstext;
  mb_amount : jsnumeric
}.

Inductive body : Type :=
| Success                              (* { success: true } *)
| ErrorMessage (e : error)             (* { error: err.message } *)
| ErrorText (msg : string)             (* { error: "..." } *)
| ProjectList (rows : list project_listing)
| UserRecord (u : user_row)
| BidList (rows : list bid_listing)
| MilestoneList (rows : list milestone_row)
| Advice (text : string).              (* { advice } *)

Record response : Type := mk_response {
  status : Z;
  payload : body
}.

(** [res.json(x)] answers 200; [res.status(c).json(x)] answers [c]. *)
Definition json (x : body) : M response := ret (mk_response 200 x).
Definition status_json (c : Z) (x : body) : M response := ret (mk_response c x).

(** One entry of the [milestones] array of the create-project handler. *)
Record new_milestone : Type := mk_new_milestone {
  nm_id : string;
  nm_project_id : jstext;
  nm_title : string;
  nm_amount : jsnumeric
}.

(** [insertMilestone.run(m.id, m.project_id, m.title, m.amount)] *)
Definition insertMilestone (m : new_milestone) : M unit :=
  exec Milestones (fun s =>
    run_insert_milestone s (TString (nm_id m)) (nm_project_id m)
                         (TString (nm_title m)) (nm_amount m)).

(** app.get("/api/projects") *)
Definition get_api_projects : M response :=
  projects <- query select_projects ;;
  json (ProjectList projects).

(** app.post("/api/projects"); the three [crypto.randomUUID()] results and
    the clock are inputs. *)
Definition post_api_projects (rq : project_body) (uuid1 uuid2 uuid3 : string)
    (now : Z) : M response :=
  try_catch
    (exec Projects (fun s =>
       run_insert_project s (pb_id rq) (pb_buyer_id rq) (pb_title rq)
         (pb_description rq) (pb_budget_min rq) (pb_budget_max rq) now) ;;
     let milestones :=
       [ mk_new_milestone uuid1 (pb_id rq) "Project Kickoff & Strategy"
           (floor_share 1 (pb_budget_min rq));
         mk_new_milestone uuid2 (pb_id rq) "Initial Talent Sourcing"
           (floor_share 2 (pb_budget_min rq));
         mk_new_milestone uuid3 (pb_id rq) "Final Placement & Onboarding"
           (floor_share 2 (pb_budget_min rq)) ] in
     for_each milestones insertMilestone ;;
     status_json 201 Success)
    (fun err => status_json 500 (ErrorMessage err)).

(** app.get("/api/users/:id") *)
Definition get_api_user (id : string) : M response :=
  user <- query (fun s => select_user s id) ;;
  match user with
  | Some u => json (UserRecord u)
  | None => status_json 404 (ErrorText "User not found")
  end.

(** app.post("/api/users") *)
Definition post_api_users (rq : user_body) : M response :=
  try_catch
    (exec Users (fun s =>
       run_replace_user s (ub_id rq) (ub_name rq) (ub_email rq) (ub_role rq)
         (ub_bio rq) (ub_avatar rq)) ;;
     status_json 201 Success)
    (fun err => status_json 500 (ErrorMessage err)).

(** app.get("/api/projects/:id/bids") *)
Definition get_api_bids (id : string) : M response :=
  bids <- query (fun s => select_bids s id) ;;
  json (BidList bids).

(** app.post("/api/bids") *)
Definition post_api_bids (rq : bid_body) (now : Z) : M response :=
  try_catch
    (exec Bids (fun s =>
       run_insert_bid s (bb_id rq) (bb_project_id rq) (bb_seller_id rq)
         (bb_amount rq) (bb_proposal rq) now) ;;
     status_json 201 Success)
    (fun err => status_json 500 (ErrorMessage err)).

(** app.get("/api/projects/:id/milestones") *)
Definition get_api_milestones (id : string) : M response :=
  milestones <- query (fun s => select_milestones s id) ;;
  json (MilestoneList milestones).

(** app.post("/api/milestones") *)
Definition post_api_milestones (rq : milestone_body) : M response :=
  try_catch
    (exec Milestones (fun s =>
       run_insert_milestone s (mb_id rq) (mb_project_id rq) (mb_title rq)
         (mb_amount rq)) ;;
     status_json 201 Success)
    (fun err => status_json 500 (ErrorMessage err)).

(** The template [`${s.name}: ${s.bio}`]; a NULL bio prints as "null". *)
Definition seller_line (s : user_row) : string :=
  (u_name s ++ ": " ++ match u_bio s with Some b => b | None => "null" end)%string.

(** [await getMatchmakingAdvice(description, bios)]: the call is recorded and
    resolves to the text of the hosted model or rejects, as [reply] says. *)
Definition getMatchmakingAdvice (reply : outcome string)
    (projectDescription : string) (consultantBios : list string) : M string :=
  log [AskedAdvice projectDescription consultantBios] ;;
  settle reply.

(** app.get("/api/projects/:id/matchmaking") *)
Definition get_api_matchmaking (id : string) (reply : outcome string) : M response :=
  try_catch
    (project <- query (fun s => select_project s id) ;;
     sellers <- query select_sellers ;;
     match project with
     | None => status_json 404 (ErrorText "Project not found")
     | Some p =>
         advice <- getMatchmakingAdvice reply (p_description p)
                     (map seller_line sellers) ;;
         json (Advice advice)
     end)
    (fun err => status_json 500 (ErrorMessage err)).

Inductive request : Type :=
| GetProjects
| PostProjects (rq : project_body) (uuid1 uuid2 uuid3 : string) (now : Z)
| GetUser (id : string)
| PostUsers (rq : user_body)
| GetBids (id : string)
| PostBids (rq : bid_body) (now : Z)
| GetMilestones (id : string)
| PostMilestones (rq : milestone_body)
| GetMatchmaking (id : string) (reply : outcome string).

Definition handle (r : request) : M response :=
  match r with
  | GetProjects => get_api_projects
  | PostProjects rq u1 u2 u3 now => post_api_projects rq u1 u2 u3 now
  | GetUser id => get_api_user id
  | PostUsers rq => post_api_users rq
  | GetBids id => get_api_bids id
  | PostBids rq now => post_api_bids rq now
  | GetMilestones id => get_api_milestones id
  | PostMilestones rq => post_api_milestones rq
  | GetMatchmaking id reply => get_api_matchmaking id reply
  end.

Definition is_write (r : request) : bool :=
  match r with
  | PostProjects _ _ _ _ _ | PostUsers _ | PostBids _ _ | PostMilestones _ => true
  | _ => false
  end.

(** ** The chat relay *)

Definition in_room (room : string) (s : socket) : bool :=
  String.eqb (socket_id s) room || existsb (String.eqb room) (rooms s).

(** [socket.join(room)]: rooms are a set. *)
Definition join_room (sid room : string) (s : socket) : socket :=
  if String.eqb (socket_id s) sid && negb (existsb (String.eqb room) (rooms s))
  then mk_socket (socket_id s) (room :: rooms s)
  else s.

(** [io.to(room).emit("receive_message", data)]: one packet to each socket of
    the room.  A room that is not a string has no member. *)
Definition io_to_emit (room : jstext) (data : message_data) : M unit :=
  fun w =>
    match room with
    | TString r =>
        log (map (fun s => Received (socket_id s) data)
                 (filter (in_room r) (sockets w))) w
    | _ => (Returned tt, w)
    end.

(** [socket.emit("receive_message", data)] *)
Definition socket_emit (sid : string) (data : message_data) : M unit :=
  log [Received sid data].

(** io.on("connection") *)
Definition on_connection (sid : string) : M unit :=
  fun w => (Returned tt, mk_world (db w) (sockets w ++ [mk_socket sid []]) (trace w)).

(** socket.on("join") *)
Definition on_join (sid userId : string) : M unit :=
  fun w => (Returned tt,
            mk_world (db w) (map (join_room sid userId) (sockets w)) (trace w)).

(** socket.on("send_message"); an exception leaves the handler uncaught. *)
Definition on_send_message (sid : string) (data : message_data) (now : Z) : M unit :=
  exec Messages (fun s =>
    run_insert_message s (md_sender_id data) (md_receiver_id data)
      (md_content data) now) ;;
  io_to_emit (md_receiver_id data) data ;;
  socket_emit sid data.

(** socket.on("disconnect"): the socket leaves its rooms. *)
Definition on_disconnect (sid : string) : M unit :=
  fun w => (Returned tt,
            mk_world (db w)
              (filter (fun s => negb (String.eqb (socket_id s) sid)) (sockets w))
              (trace w)).

(** ** The database at start-up *)

Definition seed_users : list user_row :=
  [ mk_user (Some "buyer_1") "Acme Corp HR" "hr@acme.com" "buyer"
      (Some "Fast-growing tech startup looking for HR expertise.")
      (Some "https://api.dicebear.com/7.x/avataaars/svg?seed=Acme");
    mk_user (Some "seller_1") "Sarah Jenkins" "sarah@hrconsulting.com" "seller"
      (Some "Senior HR Consultant with 10 years experience in tech recruitment and organizational design.")
      (Some "https://api.dicebear.com/7.x/avataaars/svg?seed=Sarah") ].

Definition seed_projects (now : Z) : list project_row :=
  [ mk_project (Some "p1") "buyer_1" "Technical Recruitment for Engineering Team"
      "We are looking for a specialized recruiter to help us hire 5 senior software engineers and 2 product managers over the next 3 months."
      (SInteger 5000) (SInteger 15000) (Some "open") now;
    mk_project (Some "p2") "buyer_1" "Organizational Culture Audit"
      "Need an HR expert to conduct a full culture audit and provide recommendations for improving employee engagement in a remote-first environment."
      (SInteger 3000) (SInteger 8000) (Some "open") now ].

(** The file after the first start-up: the schema and the seed rows. *)
Definition seeded (fk : bool) (now : Z) : store :=
  mk_store fk seed_users (seed_projects now) [] [] 0 [].

Definition start (fk : bool) (now : Z) : world :=
  mk_world (seeded fk now) [] [].

(** ** Invariants and observations *)

(** The non-NULL keys of a table, in table order. *)
Definition ids {A : Type} (key : A -> option string) (l : list A) : list string :=
  flat_map (fun x => match key x with Some k => [k] | None => [] end) l.

(** PRIMARY KEY: no two rows share a non-NULL key. *)
Definition keys_unique {A : Type} (key : A -> option string) (l : list A) : Prop :=
  NoDup (ids key l).

(** Every child row has its parent. *)
Definition references_hold (db : store) : Prop :=
  (forall p, In p (projects db) -> has_user db (p_buyer_id p) = true) /\
  (forall b, In b (bids db) ->
     has_project db (b_project_id b) = true /\ has_user db (b_seller_id b) = true) /\
  (forall m, In m (milestones db) -> has_project db (ms_project_id m) = true).

(** What the schema guarantees of a store: the primary keys, the UNIQUE
    email and, when the foreign keys are enforced, the references. *)
Record store_ok (db : store) : Prop := mk_store_ok {
  ok_users : keys_unique u_id (users db);
  ok_emails : NoDup (map u_email (users db));
  ok_projects : keys_unique p_id (projects db);
  ok_bids : keys_unique b_id (bids db);
  ok_milestones : keys_unique ms_id (milestones db);
  ok_references : foreign_keys db = true -> references_hold db
}.

(** Socket ids are unique among the connected sockets. *)
Definition sockets_ok (w : world) : Prop := NoDup (map socket_id (sockets w)).

(** What a run appended to the trace. *)
Definition emitted (before after : world) : list event :=
  skipn (List.length (trace before)) (trace after).

Definition is_packet_for (sid : string) (e : event) : bool :=
  match e with
  | Received s _ => String.eqb s sid
  | _ => false
  end.

(** The number of receive_message packets sent to socket [sid]. *)
Definition copies (sid : string) (evs : list event) : nat :=
  List.length (filter (is_packet_for sid) evs).

Definition is_packet (e : event) : bool :=
  match e with
  | Received _ _ => true
  | _ => false
  end.

Definition is_advice_call (e : event) : bool :=
  match e with
  | AskedAdvice _ _ => true
  | _ => false
  end.

(** A computation keeps a property of the store, whatever it returns. *)
Definition preserves {A : Type} (P : store -> Prop) (m : M A) : Prop :=
  forall w, P (db w) -> P (db (snd (m w))).

Definition newer_first (a b : project_listing) : Prop :=
  p_created_at (pl_project b) <= p_created_at (pl_project a).

(** A user id that a project or a bid points at. *)
Definition referenced (s : store) (k : string) : bool :=
  existsb (fun p => String.eqb (p_buyer_id p) k) (projects s) ||
  existsb (fun b => String.eqb (b_seller_id b) k) (bids s).



Definition rows_with_id (s : store) (id : string) : list user_row :=
  filter (fun u => string_eqb_opt (u_id u) id) (users s).

(** ** Start-up, the event loop *)

(** INSERT OR IGNORE skips a row that collides on the primary key or on a
    UNIQUE column. *)
Definition user_conflicts (l : list user_row) (r : user_row) : bool :=
  key_taken (has_key u_id l) (u_id r) ||
  existsb (fun u => String.eqb (u_email u) (u_email r)) l.

Definition insert_or_ignore_user (l : list user_row) (r : user_row) : list user_row :=
  if user_conflicts l r then l else l ++ [r].

Definition project_conflicts (l : list project_row) (p : project_row) : bool :=
  key_taken (has_key p_id l) (p_id p).

Definition insert_or_ignore_project (l : list project_row) (p : project_row)
    : list project_row :=
  if project_conflicts l p then l else l ++ [p].

(** INSERT OR IGNORE INTO users (...) VALUES (buyer_1 ...), (seller_1 ...). *)
Definition seed_users_statement (s : store) : outcome store :=
  Returned (set_users s (fold_left insert_or_ignore_user seed_users (users s))).

(** INSERT OR IGNORE INTO projects (...) VALUES (p1 ...), (p2 ...).  IGNORE
    does not cover the foreign keys: a row that was inserted without its
    buyer fails the statement. *)
Definition seed_projects_statement (now : Z) (s : store) : outcome store :=
  let rows := fold_left insert_or_ignore_project (seed_projects now) (projects s) in
  let added := skipn (List.length (projects s)) rows in
  if foreign_keys s && existsb (fun p => negb (has_user s (p_buyer_id p))) added
  then Thrown ForeignKeyFailed
  else Returned (set_projects s rows).

(** [db.exec(...)] at start-up: CREATE TABLE IF NOT EXISTS changes nothing
    once the tables are there; then the two seed statements. *)
Definition initialize (now : Z) : M unit :=
  exec Users seed_users_statement ;;
  exec Projects (seed_projects_statement now).

Definition empty_store (fk : bool) : store := mk_store fk [] [] [] [] 0 [].

(** What a connected client can send over its socket. *)
Inductive socket_event : Type :=
| Connection (sid : string)
| Join (sid userId : string)
| SendMessage (sid : string) (data : message_data) (now : Z)
| Disconnect (sid : string).

Definition relay (e : socket_event) : M unit :=
  match e with
  | Connection sid => on_connection sid
  | Join sid userId => on_join sid userId
  | SendMessage sid data now => on_send_message sid data now
  | Disconnect sid => on_disconnect sid
  end.

Inductive input : Type :=
| Http (r : request)
| Socket (e : socket_event).

Definition step (i : input) : M unit :=
  match i with
  | Http r => handle r ;; ret tt
  | Socket e => relay e
  end.

(** The server handles its inputs one after the other; an exception that no
    handler catches ends the process. *)
Fixpoint run_inputs (l : list input) (w : world) : world :=
  match l with
  | [] => w
  | i :: rest =>
      match step i w with
      | (Returned _, w') => run_inputs rest w'
      | (Thrown _, w') => w'
      end
  end.

(** The worlds the server can be in: after the first start-up on an empty
    file, after an input, after a restart (the file stays, the connections
    are gone). *)
Inductive reachable (fk : bool) : world -> Prop :=
| reach_boot (now : Z) :
    reachable fk (snd (initialize now (mk_world (empty_store fk) [] [])))
| reach_step (w : world) (i : input) :
    reachable fk w -> reachable fk (snd (step i w))
| reach_restart (w : world) (now : Z) :
    reachable fk w ->
    reachable fk (snd (initialize now (mk_world (db w) [] (trace w)))).

(** [l'] is [l] with rows added at the end. *)
Definition extends {A : Type} (l l' : list A) : Prop :=
  exists added, l' = l ++ added.

(** AUTOINCREMENT: the ids of [messages] grow and none is above the counter. *)
Definition messages_ok (s : store) : Prop :=
  StronglySorted Z.lt (map m_id (messages s)) /\
  Forall (fun m => m_id m <= messages_seq s) (messages s).

(** What a request of the HTTP API may do to the store: rows added to
    [projects], [bids] and [milestones], any change of [users], and nothing
    else. *)
Definition written_by_api (s s' : store) : Prop :=
  foreign_keys s' = foreign_keys s /\
  messages s' = messages s /\ messages_seq s' = messages_seq s /\
  extends (projects s) (projects s') /\
  extends (bids s) (bids s') /\
  extends (milestones s) (milestones s').

(** What an event of the relay may do to the store: rows added to
    [messages], and nothing else. *)
Definition written_by_relay (s s' : store) : Prop :=
  foreign_keys s' = foreign_keys s /\
  users s' = users s /\ projects s' = projects s /\
  bids s' = bids s /\ milestones s' = milestones s /\
  extends (messages s) (messages s').

(** Four of the five tables only ever grow. *)
Definition grows (s s' : store) : Prop :=
  extends (projects s) (projects s') /\
  extends (bids s) (bids s') /\
  extends (milestones s) (milestones s') /\
  extends (messages s) (messages s').

(** A field that is bound as NULL: missing or [null] (and the number
    NaN). *)
Definition absent (v : jstext) : bool :=
  match v with
  | TString _ => false
  | _ => true
  end.

Definition absent_number (v : jsnumeric) : bool :=
  match v with
  | NUndefined | NNull | NNumber NaN => true
  | _ => false
  end.

(** A write request whose body lacks a field that its table declares
    NOT NULL. *)
Definition lacks_required_field (r : request) : bool :=
  match r with
  | PostProjects rq _ _ _ _ =>
      absent (pb_buyer_id rq) || absent (pb_title rq) || absent (pb_description rq)
  | PostUsers rq =>
      absent (ub_name rq) || absent (ub_email rq) || absent (ub_role rq)
  | PostBids rq _ =>
      absent (bb_project_id rq) || absent (bb_seller_id rq) ||
      absent_number (bb_amount rq) || absent (bb_proposal rq)
  | PostMilestones rq =>
      absent (mb_project_id rq) || absent (mb_title rq) ||
      absent_number (mb_amount rq)
  | _ => false
  end.

(** The table a write request writes first. *)
Definition table_of (r : request) : table :=
  match r with
  | PostProjects _ _ _ _ _ => Projects
  | PostBids _ _ => Bids
  | PostMilestones _ => Milestones
  | _ => Users
  end.



Definition sum_amounts (l : list milestone_row) : Z :=
  fold_right (fun m acc =>
    match ms_amount m with SInteger n => n + acc | _ => acc end) 0 l.

(** ** Sample requests *)

(** The project of the end-to-end scenario, posted as buyer_1. *)
Definition sample_project (budget_min : jsnumeric) : project_body :=
  mk_project_body (TString "X") (TString "buyer_1") (TString "X")
    (TString "A sample project") budget_min (NNumber 2000).

(** The string "abc": no number to JavaScript, kept as text by SQLite. *)
Definition not_a_number : jsnumeric := NString "abc" NaN (SText "abc").

Definition sample_user (id name email role : string) : user_body :=
  mk_user_body (TString id) (TString name) (TString email) (TString role)
    TNull TNull.

(** Two connected sockets; the first joined the room of "alice". *)
Definition sample_chat : world :=
  snd (on_join "s1" "alice"
        (snd (on_connection "s2" (snd (on_connection "s1" (start true 0)))))).

(** * Properties *)

#[local] Arguments Z.mul : simpl never.
#[local] Arguments Z.div : simpl never.
#[local] Arguments Z.add : simpl never.

(** ** Numbers *)

(** The mantissa of [0.2] times five is [2^54 + 1].  These two lemmas are
    about the quotient of a multiple of that mantissa by a power of two,
    rounded to the nearest integer: for five times [t] it is [t] units, for
    five times [t] plus a remainder it lies strictly between [t] and [t + 1]
    units. *)
Lemma quotient_of_multiple (P D q r t : Z) :
  0 < P -> 0 < D -> P * D = 2 ^ 54 ->
  0 <= t ->
  5 * t * 3602879701896397 = q * P + r -> 0 <= r < P ->
  5 * t * 3602879701896397 < P * 2 ^ 53 ->
  q = t * D /\ r = t /\ 2 * t < P.
Proof.
  intros HP HD HT Ht Ha Hr Hlt.
  assert (H54 : 2 ^ 54 = 18014398509481984) by reflexivity.
  assert (H53 : 2 ^ 53 = 9007199254740992) by reflexivity.
  rewrite H54 in HT. rewrite H53 in Hlt.
  assert (HtT : t * D * P = t * 18014398509481984) by (rewrite <- HT; ring).
  assert (Hsmall : 2 * t < P) by lia.
  assert (H1 : (q - t * D) * P = t - r) by lia.
  assert (Hq : q = t * D).
  { destruct (Z.lt_trichotomy q (t * D)) as [Hlt'|[Heq|Hgt]]; [|exact Heq|].
    - assert (q - t * D <= -1) by lia. nia.
    - assert (1 <= q - t * D) by lia. nia. }
  split; [exact Hq|]. split; [|exact Hsmall].
  rewrite Hq in H1. lia.
Qed.

Lemma quotient_of_other (P D half q r t rho : Z) :
  0 < half -> P = 2 * half -> P <= 2 ^ 51 \/ P = 2 ^ 52 ->
  0 < D -> P * D = 2 ^ 54 ->
  0 <= t -> 1 <= rho < 5 -> 5 * t + rho < 3 * 2 ^ 51 ->
  (5 * t + rho) * 3602879701896397 = q * P + r -> 0 <= r < P ->
  (5 * t + rho) * 3602879701896397 < P * 2 ^ 53 ->
  let q' := if (half <? r) || ((r =? half) && Z.odd q) then q + 1 else q in
  t * D + 1 <= q' <= (t + 1) * D - 1.
Proof.
  intros Hhalf HP2 HPs HD HT Ht Hrho Hn Ha Hr Hlt.
  change (2 ^ 54) with 18014398509481984 in HT.
  change (2 ^ 53) with 9007199254740992 in Hlt.
  change (2 ^ 51) with 2251799813685248 in *.
  change (2 ^ 52) with 4503599627370496 in HPs.
  assert (HtT : t * D * P = t * 18014398509481984) by (rewrite <- HT; ring).
  assert (HDP : D * P = 18014398509481984) by lia.
  set (q0 := q - t * D).
  assert (Hq0 : q0 * P + r = t + rho * 3602879701896397)
    by (unfold q0; rewrite Z.mul_sub_distr_r; lia).
  assert (Hq0lo : 0 <= q0).
  { destruct (Z_lt_le_dec q0 0) as [Hneg|Hpos]; [|exact Hpos]. exfalso.
    assert (q0 * P <= -1 * P) by (apply Z.mul_le_mono_nonneg_r; lia). lia. }
  assert (Hy : 2 * (t + rho * 3602879701896397) + P < 2 * 18014398509481984)
    by lia.
  assert (Hq0hi : q0 <= D - 1).
  { destruct (Z_lt_le_dec (D - 1) q0) as [Hbig|Hok]; [|exact Hok]. exfalso.
    assert (D * P <= q0 * P) by (apply Z.mul_le_mono_nonneg_r; lia). lia. }
  cbv zeta.
  destruct (half <? r) eqn:E1; [apply Z.ltb_lt in E1|apply Z.ltb_ge in E1].
  - cbn [orb]. split; [lia|].
    destruct (Z.eq_dec q0 (D - 1)) as [Heq|Hne]; [|lia]. exfalso.
    rewrite Heq in Hq0. rewrite Z.mul_sub_distr_r in Hq0. lia.
  - cbn [orb].
    assert (Hq1 : 1 <= q0).
    { destruct (Z.eq_dec q0 0) as [H0|Hn0]; [|lia]. exfalso.
      rewrite H0 in Hq0. lia. }
    destruct ((r =? half) && Z.odd q) eqn:E2; [|lia].
    apply andb_prop in E2. destruct E2 as [E2 _]. apply Z.eqb_eq in E2.
    split; [lia|].
    destruct (Z.eq_dec q0 (D - 1)) as [Heq|Hne]; [|lia]. exfalso.
    rewrite Heq in Hq0. rewrite Z.mul_sub_distr_r in Hq0. lia.
Qed.

(** On the integers of magnitude below 3 * 2^51 the double product with
    [0.2] has the floor of the exact fifth. *)
Lemma floor_of_fifths (b : Z) :
  Z.abs b < 3 * 2 ^ 51 ->
  Math_floor (round_to_double (b * 3602879701896397) (-54)) = Finite (b / 5) 0.
Proof.
  intros Hb.
  change (2 ^ 51) with 2251799813685248 in Hb.
  destruct (Z_le_gt_dec (Z.abs b) 2) as [Hsmall|Hbig].
  { assert (Hcases : b = -2 \/ b = -1 \/ b = 0 \/ b = 1 \/ b = 2) by lia.
    destruct Hcases as [->|[->|[->|[->| ->]]]]; reflexivity. }
  set (n := Z.abs b) in *.
  set (c := 3602879701896397) in *.
  assert (Ha : Z.abs (b * c) = n * c) by (rewrite Z.abs_mul; reflexivity).
  assert (Hnc : 0 < n * c) by (unfold c; lia).
  pose proof (Z.log2_spec (n * c) Hnc) as [Hlo Hhi].
  set (L := Z.log2 (n * c)) in *.
  assert (HL53 : 53 <= L).
  { destruct (Z_lt_le_dec L 53) as [Hlt|Hge]; [|exact Hge]. exfalso.
    assert (H1 : 2 ^ Z.succ L <= 2 ^ 53) by (apply Z.pow_le_mono_r; lia).
    change (2 ^ 53) with 9007199254740992 in H1. unfold c in Hhi. lia. }
  assert (HL104 : L <= 104).
  { destruct (Z_lt_le_dec 104 L) as [Hlt|Hge]; [|exact Hge]. exfalso.
    assert (H1 : 2 ^ 105 <= 2 ^ L) by (apply Z.pow_le_mono_r; lia).
    change (2 ^ 105) with 40564819207303340847894502572032 in H1.
    unfold c in Hlo. lia. }
  set (s := L - 52).
  assert (Hs : 1 <= s <= 52) by (unfold s; lia).
  set (P := 2 ^ s). set (D := 2 ^ (54 - s)).
  assert (HP : 0 < P) by (apply Z.pow_pos_nonneg; lia).
  assert (HD : 0 < D) by (apply Z.pow_pos_nonneg; lia).
  assert (HPD : P * D = 2 ^ 54).
  { unfold P, D. rewrite <- Z.pow_add_r by lia. f_equal. lia. }
  assert (HPs : P <= 2 ^ 51 \/ P = 2 ^ 52).
  { destruct (Z.eq_dec s 52) as [E|E].
    - right. unfold P. now rewrite E.
    - left. apply Z.pow_le_mono_r; lia. }
  assert (Hhalf : P = 2 * 2 ^ (s - 1)).
  { unfold P. replace s with (Z.succ (s - 1)) at 1 by lia.
    apply Z.pow_succ_r. lia. }
  assert (Hhalf0 : 0 < 2 ^ (s - 1)) by (apply Z.pow_pos_nonneg; lia).
  assert (HloP : P * 2 ^ 52 <= n * c).
  { unfold P. rewrite <- Z.pow_add_r by lia.
    replace (s + 52) with L by (unfold s; lia). exact Hlo. }
  assert (HhiP : n * c < P * 2 ^ 53).
  { unfold P. rewrite <- Z.pow_add_r by lia.
    replace (s + 53) with (Z.succ L) by (unfold s; lia). exact Hhi. }
  pose proof (Z.div_mod (n * c) P ltac:(lia)) as Hdm.
  pose proof (Z.mod_pos_bound (n * c) P HP) as Hr.
  set (q := n * c / P) in *. set (r := (n * c) mod P) in *.
  assert (Hq52 : 2 ^ 52 <= q).
  { destruct (Z_lt_le_dec q (2 ^ 52)) as [Hlt|Hge]; [|exact Hge]. exfalso.
    assert (q + 1 <= 2 ^ 52) by lia.
    assert (P * (q + 1) <= P * 2 ^ 52) by (apply Z.mul_le_mono_nonneg_l; lia).
    lia. }
  assert (Hq53 : q < 2 ^ 53).
  { destruct (Z_lt_le_dec q (2 ^ 53)) as [Hlt|Hge]; [exact Hlt|]. exfalso.
    assert (P * 2 ^ 53 <= P * q) by (apply Z.mul_le_mono_nonneg_l; lia).
    lia. }
  pose proof (Z.div_mod n 5 ltac:(lia)) as Hn5.
  pose proof (Z.mod_pos_bound n 5 ltac:(lia)) as Hrho.
  set (t := n / 5) in *. set (rho := n mod 5) in *.
  assert (Ht : 0 <= t) by (unfold t; apply Z.div_pos; lia).
  clearbody t rho.
  set (q' := if (2 ^ (s - 1) <? r) || ((r =? 2 ^ (s - 1)) && Z.odd q)
             then q + 1 else q).
  assert (Hfloor : rho = 0 /\ q' = t * D \/
                   1 <= rho /\ t * D + 1 <= q' <= (t + 1) * D - 1).
  { destruct (Z.eq_dec rho 0) as [H0|Hn0].
    - left. split; [exact H0|].
      destruct (@quotient_of_multiple P D q r t HP HD HPD) as [Hq [Hrt Hlt]];
        try lia.
      unfold q'.
      assert (E1 : (2 ^ (s - 1) <? r) = false) by (apply Z.ltb_ge; lia).
      assert (E2 : (r =? 2 ^ (s - 1)) = false) by (apply Z.eqb_neq; lia).
      rewrite E1, E2. exact Hq.
    - right. split; [lia|].
      apply (@quotient_of_other P D (2 ^ (s - 1)) q r t rho); lia. }
  assert (Hq'range : q <= q' <= q + 1).
  { unfold q'. destruct ((2 ^ (s - 1) <? r) || ((r =? 2 ^ (s - 1)) && Z.odd q)); lia. }
  unfold round_to_double. rewrite Ha.
  fold L.
  replace (Z.max (L + 1 - 53) (-1074 - -54)) with s by (unfold s; lia).
  assert (Es : (s <=? 0) = false) by (apply Z.leb_gt; lia).
  rewrite Es. fold P. fold q. fold r. fold q'.
  assert (Eq0 : (q' =? 0) = false) by (apply Z.eqb_neq; lia).
  rewrite Eq0.
  assert (Eover : (1024 <? Z.log2 q' + 1 + (-54 + s)) = false).
  { apply Z.ltb_ge.
    assert (Z.log2 q' < 54).
    { apply Z.log2_lt_pow2; [lia|].
      change (2 ^ 54) with (2 * 2 ^ 53). lia. }
    lia. }
  rewrite Eover. unfold Math_floor.
  assert (Ee : (0 <=? -54 + s) = false) by (apply Z.leb_gt; lia).
  rewrite Ee.
  replace (- (-54 + s)) with (54 - s) by lia. fold D.
  f_equal.
  destruct (Z_lt_le_dec b 0) as [Hneg|Hpos].
  - assert (Hbn : b = - n) by (unfold n; lia).
    assert (Esg : Z.sgn (b * c) = -1).
    { apply Z.sgn_neg. unfold c. lia. }
    rewrite Esg.
    destruct Hfloor as [[H0 Hq']|[H1 [H2 H3]]].
    + assert (Eb : b / 5 = - t).
      { symmetry. apply Z.div_unique with (r := 0); lia. }
      rewrite Eb, Hq'. replace (-1 * (t * D)) with (- t * D) by ring.
      apply Z.div_mul. lia.
    + assert (Eb : b / 5 = - t - 1).
      { symmetry. apply Z.div_unique with (r := 5 - rho); lia. }
      rewrite Eb. symmetry.
      apply Z.div_unique with (r := -1 * q' - D * (- t - 1)); [left; nia | ring].
  - assert (Hbn : b = n) by (unfold n; lia).
    assert (Esg : Z.sgn (b * c) = 1).
    { apply Z.sgn_pos. unfold c. lia. }
    rewrite Esg.
    assert (Eb : b / 5 = t).
    { symmetry. apply Z.div_unique with (r := rho); lia. }
    rewrite Eb. symmetry.
    apply Z.div_unique with (r := 1 * q' - D * t); [left|ring].
    destruct Hfloor as [[H0 Hq']|[H1 [H2 H3]]]; nia.
Qed.

(** [fifths 1] and [fifths 2] are the doubles 0x3FC999999999999A and
    0x3FD999999999999A that the literals denote: five times the mantissa is
    within half a unit of the last place of 2^55 and of 2^56. *)
Example fifths_are_the_literals :
  binary64 (fifths 1) = SpecFloat.S754_finite false 7205759403792794 (-55) /\
  binary64 (fifths 2) = SpecFloat.S754_finite false 7205759403792794 (-54) /\
  2 * Z.abs (5 * 7205759403792794 - 2 ^ 55) <= 5 /\
  Z.log2 7205759403792794 = 52.
Proof. repeat split. vm_compute. discriminate. Qed.

(** [times] agrees with the multiplication of the Standard Library's
    IEEE 754 specification on these operands: small and large integers,
    fractions, a subnormal result, an underflow to zero, the largest
    double. *)
Example times_agrees_with_ieee :
  forallb
    (fun x =>
       same_double (binary64 (times x (fifths 1)))
         (SpecFloat.SFmul 53 1024 (binary64 x) (binary64 (fifths 1))) &&
       same_double (binary64 (times x (fifths 2)))
         (SpecFloat.SFmul 53 1024 (binary64 x) (binary64 (fifths 2))) &&
       same_double (binary64 (times x x))
         (SpecFloat.SFmul 53 1024 (binary64 x) (binary64 x)))
    [ integer 0; integer 1; integer 3; integer 1000; integer (-5);
      integer 8103143796597289; integer 3377721306334957;
      integer 9007199254740991; integer (-8103143796597289);
      Finite 25 (-1); Finite (15 * 2 ^ 49 - 1) (-49); Finite (-3) (-1074);
      Finite (-1) (-1074); Finite 1 (-1050); Finite (2 ^ 53 - 1) 971;
      Finite (-(2 ^ 53 - 1)) 971; Finite 7 800; Infinity false; Infinity true ]
  = true.
Proof. vm_compute. reflexivity. Qed.

Lemma integer_exact (n : Z) : Z.abs n < 2 ^ 53 -> integer n = Finite n 0.
Proof.
  intros Hn. unfold integer, round_to_double.
  destruct (Z.eq_dec n 0) as [->|Hn0]; [reflexivity|].
  assert (Hlog : Z.log2 (Z.abs n) < 53) by (apply Z.log2_lt_pow2; lia).
  assert (Es : (Z.max (Z.log2 (Z.abs n) + 1 - 53) (-1074 - 0) <=? 0) = true)
    by (apply Z.leb_le; lia).
  rewrite Es.
  assert (E0 : (Z.abs n =? 0) = false) by (apply Z.eqb_neq; lia).
  assert (E1 : (1024 <? Z.log2 (Z.abs n) + 1 + 0) = false) by (apply Z.ltb_ge; lia).
  rewrite E0, E1. f_equal. rewrite Z.mul_comm. apply Z.abs_sgn.
Qed.

Lemma round_to_double_not_NaN (m e : Z) : round_to_double m e <> NaN.
Proof.
  unfold round_to_double.
  repeat match goal with |- context [if ?c then _ else _] => destruct c end;
    discriminate.
Qed.


Lemma times_fifths_not_NaN (x : number) (k : Z) :
  k = 1 \/ k = 2 -> x <> NaN -> times x (fifths k) <> NaN.
Proof.
  intros Hk Hx. destruct x as [|neg|m e]; [congruence| |].
  - destruct Hk as [->| ->]; discriminate.
  - apply round_to_double_not_NaN.
Qed.


Lemma Math_floor_not_NaN (x : number) : x <> NaN -> Math_floor x <> NaN.
Proof.
  destruct x as [|neg|m e]; simpl; [congruence|discriminate|].
  destruct (0 <=? e); discriminate.
Qed.


Ltac case_if :=
  match goal with |- context [if ?c then _ else _] => destruct c eqn:? end.

Lemma integer_affinity_not_null (x : number) : x <> NaN -> integer_affinity x <> SNull.
Proof.
  destruct x as [|neg|m e]; [congruence|discriminate|].
  intros _. unfold integer_affinity.
  destruct (whole _); [case_if|]; discriminate.
Qed.



Lemma integer_affinity_of_integer (n : Z) :
  Z.abs n < 2 ^ 63 -> integer_affinity (Finite n 0) = SInteger n.
Proof.
  intros Hn. unfold integer_affinity, whole.
  change (0 <=? 0) with true. cbv iota. rewrite Z.pow_0_r, Z.mul_1_r.
  apply Z.ltb_lt in Hn. rewrite Hn. reflexivity.
Qed.

(** [Math.floor(n * 0.2)] and [Math.floor(n * 0.4)] on an integer of
    magnitude below 3 * 2^50 are the exact floors of [n / 5] and
    [2 n / 5]. *)
Lemma floor_share_of_integer (k n : Z) :
  k = 1 \/ k = 2 -> Z.abs n < 3 * 2 ^ 50 ->
  floor_share k (NNumber n) = NNumber (Finite (k * n / 5) 0).
Proof.
  intros Hk Hn. change (2 ^ 50) with 1125899906842624 in Hn.
  unfold floor_share, ToNumber.
  rewrite integer_exact by (change (2 ^ 53) with 9007199254740992; lia).
  unfold times, fifths.
  replace (n * (k * 3602879701896397)) with (k * n * 3602879701896397) by ring.
  change (0 + -54) with (-54).
  rewrite floor_of_fifths; [reflexivity|].
  change (2 ^ 51) with 2251799813685248. destruct Hk as [->| ->]; lia.
Qed.

(** ** Keys *)

Section Keys.
Context {A : Type} (key : A -> option string).

Lemma has_key_exists (l : list A) (k : string) :
  has_key key l k = true <-> exists x, In x l /\ key x = Some k.
Proof.
  unfold has_key. rewrite existsb_exists. split.
  - intros [x [Hin Heq]]. exists x. split; [exact Hin|].
    destruct (key x) as [s|]; simpl in Heq; [|discriminate].
    apply String.eqb_eq in Heq. now subst.
  - intros [x [Hin Heq]]. exists x. split; [exact Hin|].
    rewrite Heq. simpl. apply String.eqb_refl.
Qed.

Lemma in_ids (l : list A) (k : string) :
  In k (ids key l) <-> exists x, In x l /\ key x = Some k.
Proof.
  unfold ids. rewrite in_flat_map. split.
  - intros [x [Hin Hk]]. exists x. split; [exact Hin|].
    destruct (key x); simpl in Hk; [|contradiction].
    destruct Hk as [->|[]]. reflexivity.
  - intros [x [Hin Hk]]. exists x. split; [exact Hin|].
    rewrite Hk. now left.
Qed.

Lemma has_key_ids (l : list A) (k : string) :
  has_key key l k = true <-> In k (ids key l).
Proof. rewrite has_key_exists, in_ids. reflexivity. Qed.

Lemma has_key_false (l : list A) (k : string) :
  has_key key l k = false <-> ~ In k (ids key l).
Proof.
  rewrite <- has_key_ids. destruct (has_key key l k); split; intros; easy.
Qed.

Lemma ids_app (l1 l2 : list A) : ids key (l1 ++ l2) = ids key l1 ++ ids key l2.
Proof. unfold ids. apply flat_map_app. Qed.

Lemma has_key_app (l1 l2 : list A) (k : string) :
  has_key key (l1 ++ l2) k = has_key key l1 k || has_key key l2 k.
Proof. unfold has_key. apply existsb_app. Qed.

Lemma ids_filter_incl (f : A -> bool) (l : list A) (k : string) :
  In k (ids key (filter f l)) -> In k (ids key l).
Proof.
  rewrite !in_ids. intros [x [Hin Hk]]. apply filter_In in Hin.
  exists x. tauto.
Qed.

Lemma keys_unique_filter (f : A -> bool) (l : list A) :
  keys_unique key l -> keys_unique key (filter f l).
Proof.
  unfold keys_unique. induction l as [|x l IH]; simpl; intros Hnd; [constructor|].
  assert (Hl : NoDup (ids key l)).
  { destruct (key x); simpl in Hnd; [now inversion Hnd | exact Hnd]. }
  destruct (f x); simpl; [|now apply IH].
  destruct (key x) as [k|] eqn:Hk; simpl in *; [|now apply IH].
  inversion Hnd as [|? ? Hnotin Hrest]; subst.
  constructor; [|now apply IH].
  intro Hin. apply Hnotin. eapply ids_filter_incl. exact Hin.
Qed.

Lemma keys_unique_snoc (l : list A) (x : A) :
  keys_unique key l ->
  key_taken (has_key key l) (key x) = false ->
  keys_unique key (l ++ [x]).
Proof.
  unfold keys_unique. intros Hnd Hfree. rewrite ids_app.
  unfold ids at 2. simpl. rewrite app_nil_r.
  destruct (key x) as [k|]; simpl in *.
  - apply has_key_false in Hfree.
    apply NoDup_app; [exact Hnd | repeat constructor; intros [] | ].
    intros a Ha [->|[]]. contradiction.
  - now rewrite app_nil_r.
Qed.

(** With unique keys a key selects exactly the row that holds it. *)
Lemma filter_key_one (l : list A) (x : A) (k : string) :
  keys_unique key l -> In x l -> key x = Some k ->
  filter (fun y => string_eqb_opt (key y) k) l = [x].
Proof.
  unfold keys_unique. induction l as [|y l IH]; simpl; intros Hnd Hin Hk; [contradiction|].
  destruct Hin as [->|Hin].
  - rewrite Hk in *. simpl in *. rewrite String.eqb_refl. f_equal.
    inversion Hnd as [|? ? Hnotin _]; subst.
    clear - Hnotin. induction l as [|z l IH]; simpl; [reflexivity|].
    destruct (string_eqb_opt (key z) k) eqn:Hz.
    + exfalso. apply Hnotin. apply in_ids. exists z. split; [now left|].
      destruct (key z); simpl in Hz; [|discriminate].
      apply String.eqb_eq in Hz. now subst.
    + apply IH. intro H. apply Hnotin. apply in_ids in H.
      destruct H as [u [Hu Hku]]. apply in_ids. exists u. split; [now right|exact Hku].
  - destruct (key y) as [k'|] eqn:Hy; simpl in *.
    + inversion Hnd as [|? ? Hnotin Hrest]; subst.
      destruct (String.eqb k' k) eqn:Hkk.
      * apply String.eqb_eq in Hkk. subst k'. exfalso. apply Hnotin.
        apply in_ids. now exists x.
      * now apply IH.
    + now apply IH.
Qed.

Lemma find_key_in (l : list A) (x : A) (k : string) :
  find (fun y => string_eqb_opt (key y) k) l = Some x ->
  In x l /\ key x = Some k.
Proof.
  intros H. apply find_some in H. destruct H as [Hin Heq]. split; [exact Hin|].
  destruct (key x); simpl in Heq; [|discriminate].
  apply String.eqb_eq in Heq. now subst.
Qed.

Lemma find_key_none (l : list A) (k : string) :
  find (fun y => string_eqb_opt (key y) k) l = None <-> has_key key l k = false.
Proof.
  unfold has_key. induction l as [|y l IH]; simpl; [tauto|].
  destruct (string_eqb_opt (key y) k); simpl; [split; discriminate | exact IH].
Qed.
End Keys.

(** ** Statements *)

Ltac split_outcome H :=
  repeat match type of H with
  | obind ?o _ = _ =>
      let E := fresh "E" in destruct o eqn:E; simpl in H; [|discriminate H]
  | (if ?b then _ else _) = _ =>
      let E := fresh "E" in destruct b eqn:E; try discriminate H
  end.

Lemma not_null_returned (t : table) (col : string) (v : option string) (s : string) :
  not_null t col v = Returned s -> v = Some s.
Proof. destruct v; simpl; congruence. Qed.

Lemma not_null_value_returned (t : table) (col : string) (v a : sqlval) :
  not_null_value t col v = Returned a -> a = v /\ v <> SNull.
Proof. destruct v; simpl; intros H; inversion H; split; congruence. Qed.

Lemma insert_project_returned db i b t d lo hi now db' :
  insert_project db i b t d lo hi now = Returned db' ->
  exists buyer ttl descr,
    b = Some buyer /\ t = Some ttl /\ d = Some descr /\
    key_taken (has_project db) i = false /\
    fk_holds db (has_user db) buyer = true /\
    db' = set_projects db
            (projects db ++ [mk_project i buyer ttl descr lo hi (Some "open") now]).
Proof.
  unfold insert_project. intros H. split_outcome H.
  apply not_null_returned in E, E0, E1. subst.
  inversion H; subst. eauto 10.
Qed.

Lemma insert_bid_returned db i p u a t now db' :
  insert_bid db i p u a t now = Returned db' ->
  exists pid sid prop,
    p = Some pid /\ u = Some sid /\ t = Some prop /\ a <> SNull /\
    key_taken (has_bid db) i = false /\
    fk_holds db (has_project db) pid = true /\
    fk_holds db (has_user db) sid = true /\
    db' = set_bids db (bids db ++ [mk_bid i pid sid a prop (Some "pending") now]).
Proof.
  unfold insert_bid. intros H. split_outcome H.
  apply not_null_returned in E, E0, E2. apply not_null_value_returned in E1.
  destruct E1 as [-> Hnn]. subst. apply andb_true_iff in E4. destruct E4.
  inversion H; subst. eauto 12.
Qed.

Lemma insert_milestone_returned db i p t a db' :
  insert_milestone db i p t a = Returned db' ->
  exists pid ttl,
    p = Some pid /\ t = Some ttl /\ a <> SNull /\
    key_taken (has_milestone db) i = false /\
    fk_holds db (has_project db) pid = true /\
    db' = set_milestones db
            (milestones db ++ [mk_milestone i pid ttl a (Some "pending")]).
Proof.
  unfold insert_milestone. intros H. split_outcome H.
  apply not_null_returned in E, E0. apply not_null_value_returned in E1.
  destruct E1 as [-> Hnn]. subst.
  inversion H; subst. eauto 10.
Qed.

Lemma insert_message_returned db f t c now db' :
  insert_message db f t c now = Returned db' ->
  exists sender receiver text,
    f = Some sender /\ t = Some receiver /\ c = Some text /\
    db' = set_messages db
            (messages db ++
             [mk_message (messages_seq db + 1) sender receiver text now])
            (messages_seq db + 1).
Proof.
  unfold insert_message. intros H. split_outcome H.
  apply not_null_returned in E, E0, E1. subst.
  inversion H; subst. eauto 10.
Qed.

Lemma replace_user_returned db i n e r b a db' :
  replace_user db i n e r b a = Returned db' ->
  exists nm em rl,
    n = Some nm /\ e = Some em /\ r = Some rl /\ role_ok rl = true /\
    let removed := filter (replaced_by i em) (users db) in
    let users' := filter (fun u => negb (replaced_by i em u)) (users db) ++
                  [mk_user i nm em rl b a] in
    db' = set_users db users' /\
    (foreign_keys db = true ->
     (forall p, In p (projects db) -> orphaned removed users' (p_buyer_id p) = false) /\
     (forall x, In x (bids db) -> orphaned removed users' (b_seller_id x) = false)).
Proof.
  unfold replace_user. intros H. split_outcome H.
  apply not_null_returned in E, E0, E1. subst.
  apply negb_false_iff in E2.
  inversion H; subst. do 3 eexists.
  do 3 (split; [reflexivity|]). split; [assumption|]. cbv zeta.
  split; [reflexivity|]. intros Hon. rewrite Hon in E3. simpl in E3.
  apply orb_false_iff in E3. destruct E3 as [Ep Eb].
  split; intros x Hin.
  - destruct (orphaned _ _ (p_buyer_id x)) eqn:Ho; [|reflexivity].
    rewrite <- Ep. symmetry. apply existsb_exists. eauto.
  - destruct (orphaned _ _ (b_seller_id x)) eqn:Ho; [|reflexivity].
    rewrite <- Eb. symmetry. apply existsb_exists. eauto.
Qed.

Lemma bind_text_returned (v : jstext) (o : option string) :
  bind_text v = Returned o ->
  match o with Some s => v = TString s | None => v = TNull \/ v = TUndefined end.
Proof. destruct v; simpl; intros H; inversion H; auto. Qed.

(** *** The statements keep the schema's guarantees *)

Lemma fk_holds_on (db : store) (has : string -> bool) (k : string) :
  foreign_keys db = true -> fk_holds db has k = true -> has k = true.
Proof. unfold fk_holds. intros ->. simpl. auto. Qed.

Lemma insert_project_ok db i b t d lo hi now db' :
  store_ok db -> insert_project db i b t d lo hi now = Returned db' -> store_ok db'.
Proof.
  intros [Hu He Hp Hb Hm Hr] H.
  apply insert_project_returned in H.
  destruct H as (buyer & ttl & descr & -> & -> & -> & Hfree & Hfk & ->).
  constructor; simpl; try assumption.
  - now apply keys_unique_snoc.
  - intros Hon. destruct (Hr Hon) as (Rp & Rb & Rm).
    unfold references_hold, has_user, has_project in *. simpl.
    repeat split.
    + intros p Hin. apply in_app_or in Hin. destruct Hin as [Hin|[<-|[]]]; [auto|].
      simpl. eapply fk_holds_on; eauto.
    + rewrite has_key_app. destruct (Rb _ H) as [-> _]. reflexivity.
    + now apply Rb.
    + intros m Hin. rewrite has_key_app, (Rm _ Hin). reflexivity.
Qed.

Lemma insert_bid_ok db i p u a t now db' :
  store_ok db -> insert_bid db i p u a t now = Returned db' -> store_ok db'.
Proof.
  intros [Hu He Hp Hb Hm Hr] H.
  apply insert_bid_returned in H.
  destruct H as (pid & sid & prop & -> & -> & -> & Hnn & Hfree & Hfp & Hfu & ->).
  constructor; simpl; try assumption.
  - now apply keys_unique_snoc.
  - intros Hon. destruct (Hr Hon) as (Rp & Rb & Rm).
    unfold references_hold, has_user, has_project in *. simpl.
    repeat split; auto.
    + apply in_app_or in H. destruct H as [Hin|[<-|[]]]; [now apply Rb|].
      simpl. eapply (fk_holds_on db); eauto.
    + apply in_app_or in H. destruct H as [Hin|[<-|[]]]; [now apply Rb|].
      simpl. eapply (fk_holds_on db); eauto.
Qed.

Lemma insert_milestone_ok db i p t a db' :
  store_ok db -> insert_milestone db i p t a = Returned db' -> store_ok db'.
Proof.
  intros [Hu He Hp Hb Hm Hr] H.
  apply insert_milestone_returned in H.
  destruct H as (pid & ttl & -> & -> & Hnn & Hfree & Hfp & ->).
  constructor; simpl; try assumption.
  - now apply keys_unique_snoc.
  - intros Hon. destruct (Hr Hon) as (Rp & Rb & Rm).
    unfold references_hold, has_user, has_project in *. simpl.
    repeat split; auto; try now apply Rb.
    intros m Hin. apply in_app_or in Hin. destruct Hin as [Hin|[<-|[]]]; [auto|].
    simpl. eapply (fk_holds_on db); eauto.
Qed.

Lemma insert_message_ok db f t c now db' :
  store_ok db -> insert_message db f t c now = Returned db' -> store_ok db'.
Proof.
  intros [Hu He Hp Hb Hm Hr] H.
  apply insert_message_returned in H.
  destruct H as (sender & receiver & text & -> & -> & -> & ->).
  constructor; simpl; assumption.
Qed.

Lemma has_key_partition {A : Type} (key : A -> option string) (f : A -> bool)
    (l : list A) (k : string) :
  has_key key l k =
  has_key key (filter f l) k || has_key key (filter (fun x => negb (f x)) l) k.
Proof.
  unfold has_key. induction l as [|x l IH]; simpl; [reflexivity|].
  rewrite IH. destruct (f x); simpl;
    destruct (string_eqb_opt (key x) k); simpl; auto using orb_true_r.
Qed.

Lemma NoDup_map_filter {A B : Type} (f : A -> B) (g : A -> bool) (l : list A) :
  NoDup (map f l) -> NoDup (map f (filter g l)).
Proof.
  induction l as [|x l IH]; simpl; intros Hnd; [constructor|].
  inversion Hnd as [|? ? Hnotin Hrest]; subst.
  destruct (g x); simpl; [|auto].
  constructor; [|auto].
  intro Hin. apply Hnotin. apply in_map_iff in Hin.
  destruct Hin as [y [Hy Hin]]. apply filter_In in Hin.
  apply in_map_iff. exists y. tauto.
Qed.

Lemma kept_lacks_id (i : option string) (em : string) (l : list user_row) :
  key_taken (has_key u_id (filter (fun u => negb (replaced_by i em u)) l)) i = false.
Proof.
  destruct i as [k|]; simpl; [|reflexivity].
  apply not_true_iff_false. intro H. apply has_key_exists in H.
  destruct H as [u [Hin Hk]]. apply filter_In in Hin. destruct Hin as [_ Hf].
  unfold replaced_by in Hf. rewrite Hk in Hf. simpl in Hf.
  rewrite String.eqb_refl in Hf. discriminate.
Qed.

Lemma kept_lacks_email (i : option string) (em : string) (l : list user_row) :
  ~ In em (map u_email (filter (fun u => negb (replaced_by i em u)) l)).
Proof.
  intro H. apply in_map_iff in H. destruct H as [u [He Hin]].
  apply filter_In in Hin. destruct Hin as [_ Hf].
  unfold replaced_by in Hf. rewrite He, String.eqb_refl, orb_true_r in Hf.
  discriminate.
Qed.

Lemma replace_user_ok db i n e r b a db' :
  store_ok db -> replace_user db i n e r b a = Returned db' -> store_ok db'.
Proof.
  intros [Hu He Hp Hb Hm Hr] H.
  apply replace_user_returned in H.
  destruct H as (nm & em & rl & -> & -> & -> & Hrole & Hdb & Hfk). subst db'.
  constructor; simpl; try assumption.
  - apply keys_unique_snoc; [now apply keys_unique_filter|]. apply kept_lacks_id.
  - rewrite map_app. simpl. apply NoDup_app.
    + now apply NoDup_map_filter.
    + repeat constructor. intros [].
    + intros x Hx [<-|[]]. eapply kept_lacks_email. exact Hx.
  - intros Hon. destruct (Hr Hon) as (Rp & Rb & Rm). destruct (Hfk Hon) as [Fp Fb].
    assert (Hback : forall k, has_key u_id (users db) k = true ->
              orphaned (filter (replaced_by i em) (users db))
                (filter (fun u => negb (replaced_by i em u)) (users db) ++
                 [mk_user i nm em rl b a]) k = false ->
              has_key u_id
                (filter (fun u => negb (replaced_by i em u)) (users db) ++
                 [mk_user i nm em rl b a]) k = true).
    { intros k Hk Ho. unfold orphaned in Ho.
      rewrite (has_key_partition u_id (replaced_by i em)) in Hk.
      rewrite has_key_app in *.
      destruct (has_key u_id (filter (replaced_by i em) (users db)) k);
        simpl in *.
      - now apply negb_false_iff in Ho.
      - rewrite Hk. reflexivity. }
    unfold references_hold, has_user, has_project in *. simpl.
    split; [|split].
    + intros p Hin. apply Hback; auto.
    + intros x Hin. split; [now apply Rb|]. apply Hback; [now apply Rb | auto].
    + exact Rm.
Qed.

(** Binding first does not change what a statement guarantees. *)
Lemma run_insert_project_ok db i b t d lo hi now db' :
  store_ok db -> run_insert_project db i b t d lo hi now = Returned db' -> store_ok db'.
Proof.
  unfold run_insert_project. intros Hok H. split_outcome H.
  eapply insert_project_ok; eauto.
Qed.

Lemma run_insert_bid_ok db i p u a t now db' :
  store_ok db -> run_insert_bid db i p u a t now = Returned db' -> store_ok db'.
Proof.
  unfold run_insert_bid. intros Hok H. split_outcome H.
  eapply insert_bid_ok; eauto.
Qed.

Lemma run_insert_milestone_ok db i p t a db' :
  store_ok db -> run_insert_milestone db i p t a = Returned db' -> store_ok db'.
Proof.
  unfold run_insert_milestone. intros Hok H. split_outcome H.
  eapply insert_milestone_ok; eauto.
Qed.

Lemma run_insert_message_ok db f t c now db' :
  store_ok db -> run_insert_message db f t c now = Returned db' -> store_ok db'.
Proof.
  unfold run_insert_message. intros Hok H. split_outcome H.
  eapply insert_message_ok; eauto.
Qed.

Lemma run_replace_user_ok db i n e r b a db' :
  store_ok db -> run_replace_user db i n e r b a = Returned db' -> store_ok db'.
Proof.
  unfold run_replace_user. intros Hok H. split_outcome H.
  eapply replace_user_ok; eauto.
Qed.

(** ** What each handler does *)

Ltac run_handler :=
  cbv beta iota delta
    [try_catch bind ret exec query log settle json status_json for_each
     insertMilestone io_to_emit socket_emit getMatchmakingAdvice].

Lemma post_api_users_run (rq : user_body) (w : world) :
  post_api_users rq w =
  match run_replace_user (db w) (ub_id rq) (ub_name rq) (ub_email rq)
          (ub_role rq) (ub_bio rq) (ub_avatar rq) with
  | Returned s =>
      (Returned (mk_response 201 Success),
       mk_world s (sockets w) (trace w ++ [Wrote Users]))
  | Thrown e => (Returned (mk_response 500 (ErrorMessage e)), w)
  end.
Proof.
  unfold post_api_users. run_handler.
  destruct (run_replace_user _ _ _ _ _ _ _); reflexivity.
Qed.

Lemma post_api_bids_run (rq : bid_body) (now : Z) (w : world) :
  post_api_bids rq now w =
  match run_insert_bid (db w) (bb_id rq) (bb_project_id rq) (bb_seller_id rq)
          (bb_amount rq) (bb_proposal rq) now with
  | Returned s =>
      (Returned (mk_response 201 Success),
       mk_world s (sockets w) (trace w ++ [Wrote Bids]))
  | Thrown e => (Returned (mk_response 500 (ErrorMessage e)), w)
  end.
Proof.
  unfold post_api_bids. run_handler.
  destruct (run_insert_bid _ _ _ _ _ _ _); reflexivity.
Qed.

Lemma post_api_milestones_run (rq : milestone_body) (w : world) :
  post_api_milestones rq w =
  match run_insert_milestone (db w) (mb_id rq) (mb_project_id rq) (mb_title rq)
          (mb_amount rq) with
  | Returned s =>
      (Returned (mk_response 201 Success),
       mk_world s (sockets w) (trace w ++ [Wrote Milestones]))
  | Thrown e => (Returned (mk_response 500 (ErrorMessage e)), w)
  end.
Proof.
  unfold post_api_milestones. run_handler.
  destruct (run_insert_milestone _ _ _ _ _); reflexivity.
Qed.

(** The create-project handler runs up to four statements and answers 500
    with the error of the first that throws; what ran before stays. *)
Lemma post_api_projects_run (rq : project_body) (u1 u2 u3 : string) (now : Z)
    (w : world) :
  post_api_projects rq u1 u2 u3 now w =
  match run_insert_project (db w) (pb_id rq) (pb_buyer_id rq) (pb_title rq)
          (pb_description rq) (pb_budget_min rq) (pb_budget_max rq) now with
  | Thrown e => (Returned (mk_response 500 (ErrorMessage e)), w)
  | Returned s0 =>
    let t0 := trace w ++ [Wrote Projects] in
    match run_insert_milestone s0 (TString u1) (pb_id rq)
            (TString "Project Kickoff & Strategy")
            (floor_share 1 (pb_budget_min rq)) with
    | Thrown e =>
        (Returned (mk_response 500 (ErrorMessage e)), mk_world s0 (sockets w) t0)
    | Returned s1 =>
      let t1 := t0 ++ [Wrote Milestones] in
      match run_insert_milestone s1 (TString u2) (pb_id rq)
              (TString "Initial Talent Sourcing")
              (floor_share 2 (pb_budget_min rq)) with
      | Thrown e =>
          (Returned (mk_response 500 (ErrorMessage e)), mk_world s1 (sockets w) t1)
      | Returned s2 =>
        let t2 := t1 ++ [Wrote Milestones] in
        match run_insert_milestone s2 (TString u3) (pb_id rq)
                (TString "Final Placement & Onboarding")
                (floor_share 2 (pb_budget_min rq)) with
        | Thrown e =>
            (Returned (mk_response 500 (ErrorMessage e)),
             mk_world s2 (sockets w) t2)
        | Returned s3 =>
            (Returned (mk_response 201 Success),
             mk_world s3 (sockets w) (t2 ++ [Wrote Milestones]))
        end
      end
    end
  end.
Proof.
  unfold post_api_projects. run_handler. simpl.
  destruct (run_insert_project _ _ _ _ _ _ _ _) as [s0|]; [|reflexivity].
  simpl. destruct (run_insert_milestone s0 _ _ _ _) as [s1|]; [|reflexivity].
  simpl. destruct (run_insert_milestone s1 _ _ _ _) as [s2|]; [|reflexivity].
  simpl. destruct (run_insert_milestone s2 _ _ _ _) as [s3|]; reflexivity.
Qed.

Lemma get_api_matchmaking_run (id : string) (reply : outcome string) (w : world) :
  get_api_matchmaking id reply w =
  match select_project (db w) id with
  | None => (Returned (mk_response 404 (ErrorText "Project not found")), w)
  | Some p =>
      let w' := mk_world (db w) (sockets w)
                  (trace w ++ [AskedAdvice (p_description p)
                                 (map seller_line (select_sellers (db w)))]) in
      match reply with
      | Returned advice => (Returned (mk_response 200 (Advice advice)), w')
      | Thrown e => (Returned (mk_response 500 (ErrorMessage e)), w')
      end
  end.
Proof.
  unfold get_api_matchmaking. run_handler.
  destruct (select_project (db w) id); [|reflexivity].
  destruct reply; reflexivity.
Qed.

Lemma on_send_message_run (sid : string) (data : message_data) (now : Z)
    (w : world) :
  on_send_message sid data now w =
  match run_insert_message (db w) (md_sender_id data) (md_receiver_id data)
          (md_content data) now with
  | Thrown e => (Thrown e, w)
  | Returned s =>
      let t0 := trace w ++ [Wrote Messages] in
      let t1 :=
        match md_receiver_id data with
        | TString r =>
            t0 ++ map (fun x => Received (socket_id x) data)
                      (filter (in_room r) (sockets w))
        | _ => t0
        end in
      (Returned tt, mk_world s (sockets w) (t1 ++ [Received sid data]))
  end.
Proof.
  unfold on_send_message. run_handler.
  destruct (run_insert_message _ _ _ _ _); [|reflexivity].
  simpl. destruct (md_receiver_id data); reflexivity.
Qed.

(** A stored message has a sender, a receiver and a content that are strings. *)
Lemma run_insert_message_returned db f t c now db' :
  run_insert_message db f t c now = Returned db' ->
  exists sender receiver text,
    f = TString sender /\ t = TString receiver /\ c = TString text /\
    db' = set_messages db
            (messages db ++
             [mk_message (messages_seq db + 1) sender receiver text now])
            (messages_seq db + 1).
Proof.
  unfold run_insert_message. intros H. split_outcome H.
  apply insert_message_returned in H.
  destruct H as (sender & receiver & text & -> & -> & -> & ->).
  apply bind_text_returned in E, E0, E1. eauto 10.
Qed.

(** ** The schema's guarantees hold in every reachable store *)

Lemma seeded_ok (fk : bool) (now : Z) : store_ok (seeded fk now).
Proof.
  constructor; unfold keys_unique; simpl;
    try (repeat constructor; simpl; intuition discriminate).
  intros _. unfold references_hold. simpl. split; [|split].
  - intros p [<-|[<-|[]]]; reflexivity.
  - intros b [].
  - intros m [].
Qed.

Lemma handle_preserves_store_ok (r : request) : preserves store_ok (handle r).
Proof.
  intros w Hok. destruct r; simpl; try exact Hok.
  - rewrite post_api_projects_run.
    destruct (run_insert_project _ _ _ _ _ _ _ _) as [s0|] eqn:E0; [|exact Hok].
    apply run_insert_project_ok in E0; [|exact Hok]. cbv zeta.
    destruct (run_insert_milestone s0 _ _ _ _) as [s1|] eqn:E1; [|exact E0].
    apply run_insert_milestone_ok in E1; [|exact E0].
    destruct (run_insert_milestone s1 _ _ _ _) as [s2|] eqn:E2; [|exact E1].
    apply run_insert_milestone_ok in E2; [|exact E1].
    destruct (run_insert_milestone s2 _ _ _ _) as [s3|] eqn:E3; [|exact E2].
    apply run_insert_milestone_ok in E3; [|exact E2]. exact E3.
  - unfold get_api_user. run_handler.
    destruct (select_user (db w) id); exact Hok.
  - rewrite post_api_users_run.
    destruct (run_replace_user _ _ _ _ _ _ _) eqn:E; [|exact Hok].
    eapply run_replace_user_ok; eauto.
  - rewrite post_api_bids_run.
    destruct (run_insert_bid _ _ _ _ _ _ _) eqn:E; [|exact Hok].
    eapply run_insert_bid_ok; eauto.
  - rewrite post_api_milestones_run.
    destruct (run_insert_milestone _ _ _ _ _) eqn:E; [|exact Hok].
    eapply run_insert_milestone_ok; eauto.
  - rewrite get_api_matchmaking_run.
    destruct (select_project (db w) id); [destruct reply|]; exact Hok.
Qed.

Lemma on_send_message_preserves_store_ok sid data now :
  preserves store_ok (on_send_message sid data now).
Proof.
  intros w Hok. rewrite on_send_message_run.
  destruct (run_insert_message _ _ _ _ _) eqn:E; [|exact Hok].
  eapply run_insert_message_ok; eauto.
Qed.

(** ** Creating a project *)

Lemma run_insert_project_returned s i b t d lo hi now s' :
  run_insert_project s i b t d lo hi now = Returned s' ->
  exists oi buyer ttl descr vlo vhi,
    bind_text i = Returned oi /\ b = TString buyer /\ t = TString ttl /\
    d = TString descr /\ bind_numeric lo = Returned vlo /\
    bind_numeric hi = Returned vhi /\
    key_taken (has_project s) oi = false /\
    fk_holds s (has_user s) buyer = true /\
    s' = set_projects s
           (projects s ++ [mk_project oi buyer ttl descr vlo vhi (Some "open") now]).
Proof.
  unfold run_insert_project. intros H. split_outcome H.
  apply insert_project_returned in H.
  destruct H as (buyer & ttl & descr & -> & -> & -> & Hfree & Hfk & ->).
  apply bind_text_returned in E0, E1, E2. eauto 15.
Qed.

Lemma run_insert_milestone_returned s i p t a s' :
  run_insert_milestone s i p t a = Returned s' ->
  exists oi pid ttl v,
    bind_text i = Returned oi /\ p = TString pid /\ t = TString ttl /\
    bind_numeric a = Returned v /\ v <> SNull /\
    key_taken (has_milestone s) oi = false /\
    fk_holds s (has_project s) pid = true /\
    s' = set_milestones s
           (milestones s ++ [mk_milestone oi pid ttl v (Some "pending")]).
Proof.
  unfold run_insert_milestone. intros H. split_outcome H.
  apply insert_milestone_returned in H.
  destruct H as (pid & ttl & -> & -> & Hnn & Hfree & Hfk & ->).
  apply bind_text_returned in E0, E1. eauto 15.
Qed.

(** With the references enforced, a project that is not there has no
    milestone. *)
Lemma no_milestone_without_project (s : store) (id : string) :
  store_ok s -> foreign_keys s = true -> has_project s id = false ->
  select_milestones s id = [].
Proof.
  intros Hok Hon Hno. destruct (ok_references Hok Hon) as (_ & _ & Rm).
  unfold select_milestones.
  induction (milestones s) as [|m l IH]; simpl; [reflexivity|].
  destruct (String.eqb (ms_project_id m) id) eqn:Heq.
  - apply String.eqb_eq in Heq. subst id.
    rewrite (Rm m (or_introl eq_refl)) in Hno. discriminate.
  - apply IH. intros m' Hin. apply Rm. now right.
Qed.

(** The rows an accepted create-project request adds to [milestones]. *)
Lemma accepted_creation_rows
    (w w' : world) (rq : project_body) (u1 u2 u3 : string) (now : Z) :
  post_api_projects rq u1 u2 u3 now w = (Returned (mk_response 201 Success), w') ->
  exists i,
    pb_id rq = TString i /\ has_project (db w) i = false /\
    milestones (db w') = milestones (db w) ++
      [ mk_milestone (Some u1) i "Project Kickoff & Strategy"
          (integer_affinity (Math_floor (times (ToNumber (pb_budget_min rq)) (fifths 1))))
          (Some "pending");
        mk_milestone (Some u2) i "Initial Talent Sourcing"
          (integer_affinity (Math_floor (times (ToNumber (pb_budget_min rq)) (fifths 2))))
          (Some "pending");
        mk_milestone (Some u3) i "Final Placement & Onboarding"
          (integer_affinity (Math_floor (times (ToNumber (pb_budget_min rq)) (fifths 2))))
          (Some "pending") ].
Proof.
  intros H. rewrite post_api_projects_run in H.
  destruct (run_insert_project _ _ _ _ _ _ _ _) as [s0|] eqn:E0; [|discriminate H].
  cbv zeta in H.
  destruct (run_insert_milestone s0 _ _ _ _) as [s1|] eqn:E1; [|discriminate H].
  destruct (run_insert_milestone s1 _ _ _ _) as [s2|] eqn:E2; [|discriminate H].
  destruct (run_insert_milestone s2 _ _ _ _) as [s3|] eqn:E3; [|discriminate H].
  inversion H; subst w'; clear H. cbn [db].
  apply run_insert_project_returned in E0.
  destruct E0 as (oi & buyer & ttl & descr & vlo & vhi & Hi & _ & _ & _ & _ & _
                  & Hfree & _ & ->).
  apply run_insert_milestone_returned in E1, E2, E3.
  destruct E1 as (o1 & pid & t1 & v1 & B1 & Hpid & T1 & V1 & _ & _ & _ & ->).
  destruct E2 as (o2 & pid2 & t2 & v2 & B2 & Hpid2 & T2 & V2 & _ & _ & _ & ->).
  destruct E3 as (o3 & pid3 & t3 & v3 & B3 & Hpid3 & T3 & V3 & _ & _ & _ & ->).
  rewrite Hpid in Hpid2, Hpid3, Hi.
  inversion Hpid2; inversion Hpid3; subst pid2 pid3.
  cbn [bind_text] in Hi, B1, B2, B3.
  unfold floor_share in V1, V2, V3. cbn [bind_numeric] in V1, V2, V3.
  inversion Hi; inversion B1; inversion B2; inversion B3; inversion T1;
    inversion T2; inversion T3; inversion V1; inversion V2; inversion V3.
  subst. exists pid. split; [exact Hpid|]. split; [exact Hfree|].
  cbn [milestones set_milestones set_projects].
  rewrite <- !app_assoc. reflexivity.
Qed.


(** What the driver stores for a number that is not NaN is not NULL. *)
Lemma run_insert_milestone_accepts (s : store) (u pid ttl : string) (x : number) :
  x <> NaN ->
  has_milestone s u = false ->
  fk_holds s (has_project s) pid = true ->
  run_insert_milestone s (TString u) (TString pid) (TString ttl) (NNumber x) =
  Returned (set_milestones s
    (milestones s ++
     [mk_milestone (Some u) pid ttl (integer_affinity x) (Some "pending")])).
Proof.
  intros Hx Hfree Hfk. unfold run_insert_milestone, insert_milestone.
  cbn [bind_text bind_numeric obind not_null key_taken].
  pose proof (integer_affinity_not_null Hx) as Hnn.
  destruct (integer_affinity x) eqn:Ex; [congruence|..];
    cbn [not_null_value obind]; rewrite Hfree, Hfk; reflexivity.
Qed.

(** A request that meets the constraints of the schema is accepted: the
    NOT NULL text fields are strings, the project id is a fresh string, the
    buyer exists when the references are enforced, budget_min reads as a
    number (so that the amounts are not NaN), and the three UUIDs are fresh
    and distinct.  budget_max may be anything. *)
Lemma post_api_projects_accepts
    (w : world) (rq : project_body) (u1 u2 u3 : string) (now : Z)
    (i b t d : string) :
  pb_id rq = TString i -> pb_buyer_id rq = TString b ->
  pb_title rq = TString t -> pb_description rq = TString d ->
  ToNumber (pb_budget_min rq) <> NaN ->
  has_project (db w) i = false ->
  fk_holds (db w) (has_user (db w)) b = true ->
  has_milestone (db w) u1 = false ->
  has_milestone (db w) u2 = false ->
  has_milestone (db w) u3 = false ->
  u1 <> u2 -> u1 <> u3 -> u2 <> u3 ->
  fst (post_api_projects rq u1 u2 u3 now w) = Returned (mk_response 201 Success).
Proof.
  intros Hi Hb Ht Hd HB Hfree Hfk F1 F2 F3 N12 N13 N23.
  rewrite post_api_projects_run.
  assert (Hlo : exists lo, bind_numeric (pb_budget_min rq) = Returned lo)
    by (destruct (pb_budget_min rq); simpl; eauto).
  assert (Hhi : exists hi, bind_numeric (pb_budget_max rq) = Returned hi)
    by (destruct (pb_budget_max rq); simpl; eauto).
  destruct Hlo as [lo Hlo]. destruct Hhi as [hi Hhi].
  unfold run_insert_project, insert_project.
  rewrite Hi, Hb, Ht, Hd, Hlo, Hhi.
  cbn [bind_text obind not_null key_taken]. rewrite Hfree, Hfk. cbv zeta.
  unfold floor_share.
  assert (Hp : forall s, projects s = projects (db w) ++
             [mk_project (Some i) b t d lo hi (Some "open") now] ->
             fk_holds s (has_project s) i = true).
  { intros s Hs. unfold fk_holds, has_project. rewrite Hs, has_key_app. simpl.
    rewrite String.eqb_refl. now rewrite !orb_true_r. }
  assert (X1 : Math_floor (times (ToNumber (pb_budget_min rq)) (fifths 1)) <> NaN)
    by (apply Math_floor_not_NaN, times_fifths_not_NaN; auto).
  assert (X2 : Math_floor (times (ToNumber (pb_budget_min rq)) (fifths 2)) <> NaN)
    by (apply Math_floor_not_NaN, times_fifths_not_NaN; auto).
  apply String.eqb_neq in N12, N13, N23.
  rewrite run_insert_milestone_accepts; [|exact X1|exact F1|now apply Hp].
  rewrite run_insert_milestone_accepts;
    [|exact X2|unfold has_milestone in *; simpl; rewrite has_key_app, F2; simpl;
      now rewrite N12|now apply Hp].
  rewrite run_insert_milestone_accepts;
    [reflexivity|exact X2| |now apply Hp].
  unfold has_milestone in *. simpl. rewrite !has_key_app, F3. simpl.
  now rewrite N13, N23.
Qed.



(** Whatever the answer, a project row that was inserted stays: nothing
    undoes it when a milestone insert throws, and then fewer than three
    milestone rows were added. *)
Lemma failed_creation_keeps_project
    (w w' : world) (rq : project_body) (u1 u2 u3 : string) (now : Z)
    (s0 : store) (e : error) :
  run_insert_project (db w) (pb_id rq) (pb_buyer_id rq) (pb_title rq)
    (pb_description rq) (pb_budget_min rq) (pb_budget_max rq) now = Returned s0 ->
  post_api_projects rq u1 u2 u3 now w =
    (Returned (mk_response 500 (ErrorMessage e)), w') ->
  projects (db w') = projects s0 /\
  (List.length (milestones (db w')) < List.length (milestones (db w)) + 3)%nat.
Proof.
  intros E0 H. rewrite post_api_projects_run, E0 in H. cbv zeta in H.
  pose proof E0 as P0. apply run_insert_project_returned in P0.
  destruct P0 as (oi & buyer & ttl & descr & vlo & vhi & _ & _ & _ & _ & _ & _
                  & _ & _ & Hs0).
  assert (M0 : milestones s0 = milestones (db w)) by (subst s0; reflexivity).
  destruct (run_insert_milestone s0 _ _ _ _) as [s1|] eqn:E1.
  - apply run_insert_milestone_returned in E1.
    destruct E1 as (o1 & p1 & t1 & v1 & _ & _ & _ & _ & _ & _ & _ & Hs1).
    destruct (run_insert_milestone s1 _ _ _ _) as [s2|] eqn:E2.
    + apply run_insert_milestone_returned in E2.
      destruct E2 as (o2 & p2 & t2 & v2 & _ & _ & _ & _ & _ & _ & _ & Hs2).
      destruct (run_insert_milestone s2 _ _ _ _) as [s3|] eqn:E3;
        inversion H; subst; simpl.
      rewrite !length_app. simpl. split; [reflexivity|lia].
    + inversion H; subst; simpl. rewrite !length_app. simpl.
      split; [reflexivity|lia].
  - inversion H; subst; simpl. split; [reflexivity|lia].
Qed.

(** C9: creating a project is not atomic.  There is an execution (a
    budget_min that is not a number makes the amount NaN, which is bound as
    NULL) in which the project insert succeeds, the first milestone insert
    throws, the answer is the 500 branch, and the store is left with the
    project row and none of its milestones; and in every execution that
    inserted the project and answered 500 the project row stays while fewer
    than three milestone rows were added. *)
Theorem create_project_not_atomic :
  (exists (w : world) (rq : project_body) (u1 u2 u3 i : string) (now : Z)
          (s0 : store) (e : error),
     pb_id rq = TString i /\
     run_insert_project (db w) (pb_id rq) (pb_buyer_id rq) (pb_title rq)
       (pb_description rq) (pb_budget_min rq) (pb_budget_max rq) now
       = Returned s0 /\
     run_insert_milestone s0 (TString u1) (pb_id rq)
       (TString "Project Kickoff & Strategy")
       (floor_share 1 (pb_budget_min rq)) = Thrown e /\
     post_api_projects rq u1 u2 u3 now w =
       (Returned (mk_response 500 (ErrorMessage e)),
        mk_world s0 (sockets w) (trace w ++ [Wrote Projects])) /\
     has_project (db w) i = false /\
     has_project s0 i = true /\
     select_milestones s0 i = []) /\
  (forall (w w' : world) (rq : project_body) (u1 u2 u3 : string) (now : Z)
          (s0 : store) (e : error),
     run_insert_project (db w) (pb_id rq) (pb_buyer_id rq) (pb_title rq)
       (pb_description rq) (pb_budget_min rq) (pb_budget_max rq) now
       = Returned s0 ->
     post_api_projects rq u1 u2 u3 now w =
       (Returned (mk_response 500 (ErrorMessage e)), w') ->
     projects (db w') = projects s0 /\
     (List.length (milestones (db w')) < List.length (milestones (db w)) + 3)%nat).
Proof.
  split.
  - exists (start true 0), (sample_project not_a_number), "m1", "m2", "m3", "X", 1.
    eexists. exists (NotNullFailed Milestones "amount").
    split; [reflexivity|]. split; [reflexivity|].
    repeat split.
  - intros. eapply failed_creation_keeps_project; eauto.
Qed.

Lemma create_project_not_atomic_witness :
  projects (db (snd (post_api_projects (sample_project not_a_number)
                       "m1" "m2" "m3" 1 (start true 0)))) =
  seed_projects 0 ++
  [mk_project (Some "X") "buyer_1" "X" "A sample project" (SText "abc")
     (SInteger 2000) (Some "open") 1].
Proof.
  exact (proj1 (proj2 create_project_not_atomic (start true 0)
                  (snd (post_api_projects (sample_project not_a_number)
                          "m1" "m2" "m3" 1 (start true 0)))
                  (sample_project not_a_number) "m1" "m2" "m3" 1
                  _ (NotNullFailed Milestones "amount") eq_refl eq_refl)).
Defined.

(** A body without budget_min does the same: the project row is written
    with a NULL budget_min, then the first milestone fails. *)
Example missing_budget_leaves_project :
  let run := post_api_projects (sample_project NUndefined)
               "m1" "m2" "m3" 1 (start true 0) in
  fst run =
    Returned (mk_response 500 (ErrorMessage (NotNullFailed Milestones "amount"))) /\
  map p_budget_min (projects (db (snd run))) =
    [SInteger 5000; SInteger 3000; SNull] /\
  select_milestones (db (snd run)) "X" = [].
Proof. repeat split. Qed.

(** A colliding UUID stops the sequence later: two milestones are left. *)
Example uuid_collision_leaves_two :
  let run := post_api_projects (sample_project (NNumber 1000))
               "m1" "m2" "m1" 1 (start true 0) in
  fst run = Returned (mk_response 500 (ErrorMessage (UniqueFailed Milestones "id"))) /\
  has_project (db (snd run)) "X" = true /\
  map ms_id (select_milestones (db (snd run)) "X") = [Some "m1"; Some "m2"].
Proof. repeat split. Qed.

(** ** Upserting a user *)

Lemma run_replace_user_returned s i n e r b a s' :
  run_replace_user s i n e r b a = Returned s' ->
  exists oi nm em rl ob oa,
    bind_text i = Returned oi /\ n = TString nm /\ e = TString em /\
    r = TString rl /\ bind_text b = Returned ob /\ bind_text a = Returned oa /\
    role_ok rl = true /\
    s' = set_users s
           (filter (fun u => negb (replaced_by oi em u)) (users s) ++
            [mk_user oi nm em rl ob oa]).
Proof.
  unfold run_replace_user. intros H. split_outcome H.
  apply replace_user_returned in H.
  destruct H as (nm & em & rl & -> & -> & -> & Hrole & Hs & _).
  apply bind_text_returned in E0, E1, E2. eauto 15.
Qed.


Lemma bind_text_total (v : jstext) :
  exists o, bind_text v = Returned o /\ (absent v = true -> o = None).
Proof. destruct v; simpl; eauto. eexists. split; [reflexivity|discriminate]. Qed.

Lemma bind_numeric_total (v : jsnumeric) :
  exists x, bind_numeric v = Returned x /\ (absent_number v = true -> x = SNull).
Proof.
  destruct v as [| |x|s x v]; simpl; eauto;
    [destruct x; simpl; eauto|];
    eexists; (split; [reflexivity|discriminate]).
Qed.

Ltac bound_fields :=
  repeat match goal with
  | |- context [bind_text ?v] =>
      let o := fresh "o" in let B := fresh "B" in let N := fresh "N" in
      destruct (bind_text_total v) as (o & B & N); rewrite B; clear B
  | |- context [bind_numeric ?v] =>
      let o := fresh "x" in let B := fresh "B" in let N := fresh "N" in
      destruct (bind_numeric_total v) as (o & B & N); rewrite B; clear B
  end;
  cbn [obind].

Lemma referenced_false (s : store) (k : string) :
  referenced s k = false ->
  (forall p, In p (projects s) -> p_buyer_id p <> k) /\
  (forall b, In b (bids s) -> b_seller_id b <> k).
Proof.
  unfold referenced. intros H. apply orb_false_iff in H. destruct H as [Hp Hb].
  split; intros x Hin Heq.
  - rewrite <- not_true_iff_false in Hp. apply Hp. apply existsb_exists.
    exists x. split; [exact Hin|]. now apply String.eqb_eq.
  - rewrite <- not_true_iff_false in Hb. apply Hb. apply existsb_exists.
    exists x. split; [exact Hin|]. now apply String.eqb_eq.
Qed.

(** An upsert whose row satisfies NOT NULL and CHECK is accepted, provided
    that, when the references are enforced, no project or bid points at a
    row it removes other than the row of its own id. *)
Lemma run_replace_user_accepts (s : store) (i n e r b a : jstext)
    (oi ob oa : option string) (nm em rl : string) :
  bind_text i = Returned oi -> n = TString nm -> e = TString em ->
  r = TString rl -> role_ok rl = true ->
  bind_text b = Returned ob -> bind_text a = Returned oa ->
  (foreign_keys s = true ->
   forall u k, In u (users s) -> replaced_by oi em u = true ->
     u_id u = Some k -> oi <> Some k -> referenced s k = false) ->
  run_replace_user s i n e r b a =
  Returned (set_users s
    (filter (fun u => negb (replaced_by oi em u)) (users s) ++
     [mk_user oi nm em rl ob oa])).
Proof.
  intros Hi -> -> -> Hrole Hb Ha Hfk.
  unfold run_replace_user, replace_user. rewrite Hi, Hb, Ha. simpl.
  rewrite Hrole. simpl.
  destruct (foreign_keys s) eqn:Hon; simpl; [|reflexivity].
  specialize (Hfk eq_refl).
  assert (Hno : forall k, (exists x, In x (projects s) /\ p_buyer_id x = k) \/
                          (exists x, In x (bids s) /\ b_seller_id x = k) ->
            orphaned (filter (replaced_by oi em) (users s))
              (filter (fun u => negb (replaced_by oi em u)) (users s) ++
               [mk_user oi nm em rl ob oa]) k = false).
  { intros k Href. unfold orphaned.
    destruct (has_key u_id (filter (replaced_by oi em) (users s)) k) eqn:Hrem;
      [|reflexivity].
    simpl. apply negb_false_iff. rewrite has_key_app.
    apply has_key_exists in Hrem. destruct Hrem as [u [Hin Hk]].
    apply filter_In in Hin. destruct Hin as [Hin Hrep].
    destruct oi as [k'|].
    - destruct (String.eqb k' k) eqn:Hkk.
      + apply String.eqb_eq in Hkk. subst k'. simpl.
        rewrite String.eqb_refl. apply orb_true_r.
      + exfalso. apply String.eqb_neq in Hkk.
        assert (Hr : referenced s k = false)
          by (apply (Hfk u k Hin Hrep Hk); congruence).
        apply referenced_false in Hr. destruct Hr as [Hp Hbd].
        destruct Href as [[x [Hx <-]]|[x [Hx <-]]]; [eapply Hp|eapply Hbd]; eauto.
    - exfalso.
      assert (Hr : referenced s k = false)
        by (apply (Hfk u k Hin Hrep Hk); congruence).
      apply referenced_false in Hr. destruct Hr as [Hp Hbd].
      destruct Href as [[x [Hx <-]]|[x [Hx <-]]]; [eapply Hp|eapply Hbd]; eauto. }
  match goal with |- (if ?c then _ else _) = _ => destruct c eqn:Hc end;
    [|reflexivity].
  exfalso. apply orb_true_iff in Hc. destruct Hc as [Hc|Hc];
    apply existsb_exists in Hc; destruct Hc as [x [Hx Ho]];
    rewrite Hno in Ho; try discriminate; eauto.
Qed.

Lemma NoDup_map_injective {A B : Type} (f : A -> B) (l : list A) (x y : A) :
  NoDup (map f l) -> In x l -> In y l -> f x = f y -> x = y.
Proof.
  induction l as [|z l IH]; simpl; intros Hnd Hx Hy Heq; [contradiction|].
  inversion Hnd as [|? ? Hnotin Hrest]; subst.
  destruct Hx as [->|Hx], Hy as [->|Hy]; auto.
  - exfalso. apply Hnotin. rewrite Heq. now apply in_map.
  - exfalso. apply Hnotin. rewrite <- Heq. now apply in_map.
Qed.

Lemma keys_unique_injective {A : Type} (key : A -> option string) (l : list A)
    (x y : A) (k : string) :
  keys_unique key l -> In x l -> In y l -> key x = Some k -> key y = Some k ->
  x = y.
Proof.
  intros Hu Hx Hy Kx Ky.
  pose proof (@filter_key_one _ key l x k Hu Hx Kx) as Hone.
  assert (Hin : In y (filter (fun z => string_eqb_opt (key z) k) l)).
  { apply filter_In. split; [exact Hy|]. rewrite Ky. simpl. apply String.eqb_refl. }
  rewrite Hone in Hin. destruct Hin as [->|[]]. reflexivity.
Qed.

Lemma find_app_none {A : Type} (f : A -> bool) (l1 l2 : list A) :
  find f l1 = None -> find f (l1 ++ l2) = find f l2.
Proof.
  induction l1 as [|x l1 IH]; simpl; [reflexivity|].
  destruct (f x); [discriminate|exact IH].
Qed.

Lemma select_user_after_upsert (s : store) (i em : string) (row : user_row) :
  u_id row = Some i ->
  select_user
    (set_users s
       (filter (fun u => negb (replaced_by (Some i) em u)) (users s) ++ [row])) i
  = Some row.
Proof.
  intros Hid. unfold select_user. simpl. rewrite find_app_none.
  - simpl. rewrite Hid. simpl. now rewrite String.eqb_refl.
  - apply find_key_none. exact (kept_lacks_id (Some i) em (users s)).
Qed.

(** C4 (as amended): an upsert with id i and email e whose name, email and
    role satisfy NOT NULL and CHECK, sent while another row (id other than i)
    holds the email e, is accepted (201) and removes that row, as long as no
    project or bid points at that row when the references are enforced; the
    emails of [users] stay pairwise distinct, as they do under every request
    of the API. *)
Theorem upsert_removes_email_holder
    (w : world) (rq : user_body) (i e nm rl : string) (uj : user_row) :
  store_ok (db w) ->
  ub_id rq = TString i -> ub_email rq = TString e ->
  ub_name rq = TString nm -> ub_role rq = TString rl -> role_ok rl = true ->
  In uj (users (db w)) -> u_email uj = e -> u_id uj <> Some i ->
  (foreign_keys (db w) = true ->
   forall k, u_id uj = Some k -> referenced (db w) k = false) ->
  let after := db (snd (post_api_users rq w)) in
  fst (post_api_users rq w) = Returned (mk_response 201 Success) /\
  ~ In uj (users after) /\
  (forall k, u_id uj = Some k -> has_user after k = false) /\
  (exists row, select_user after i = Some row /\
               u_email row = e /\ u_name row = nm) /\
  NoDup (map u_email (users after)) /\
  (forall (r : request) (w0 : world),
     store_ok (db w0) -> NoDup (map u_email (users (db (snd (handle r w0)))))).
Proof.
  intros Hok Hi He Hn Hr Hrole Hin Hem Hid Hfk.
  destruct (bind_text_total (ub_bio rq)) as (ob & Bb & _).
  destruct (bind_text_total (ub_avatar rq)) as (oa & Ba & _).
  assert (Hrep : replaced_by (Some i) e uj = true).
  { unfold replaced_by. rewrite Hem, String.eqb_refl. apply orb_true_r. }
  assert (Hrun : run_replace_user (db w) (ub_id rq) (ub_name rq) (ub_email rq)
                   (ub_role rq) (ub_bio rq) (ub_avatar rq) =
                 Returned (set_users (db w)
                   (filter (fun u => negb (replaced_by (Some i) e u)) (users (db w)) ++
                    [mk_user (Some i) nm e rl ob oa]))).
  { apply run_replace_user_accepts; auto.
    - rewrite Hi. reflexivity.
    - intros Hon u k Hu Hur Hk Hne.
      assert (u = uj).
      { apply (@NoDup_map_injective _ _ u_email (users (db w))); auto.
        - apply (ok_emails Hok).
        - unfold replaced_by in Hur. rewrite Hk in Hur. simpl in Hur.
          apply orb_true_iff in Hur. destruct Hur as [Hur|Hur].
          + apply String.eqb_eq in Hur. congruence.
          + apply String.eqb_eq in Hur. congruence. }
      subst u. now apply Hfk. }
  cbv zeta. rewrite post_api_users_run, Hrun. simpl.
  split; [reflexivity|]. split; [|split; [|split; [|split]]].
  - intros Hafter. apply in_app_or in Hafter. destruct Hafter as [Hk|[Hnew|[]]].
    + apply filter_In in Hk. destruct Hk as [_ Hk]. rewrite Hrep in Hk. discriminate.
    + apply Hid. rewrite <- Hnew. reflexivity.
  - intros k Hk. unfold has_user. simpl. rewrite has_key_app. simpl.
    assert (Hne : String.eqb i k = false).
    { apply String.eqb_neq. intros ->. now apply Hid. }
    rewrite Hne. simpl. rewrite orb_false_r.
    apply not_true_iff_false. intros Hhas. apply has_key_exists in Hhas.
    destruct Hhas as [u [Hu Hku]]. apply filter_In in Hu. destruct Hu as [Hu Hkept].
    assert (u = uj)
      by (apply (@keys_unique_injective _ u_id (users (db w)) u uj k);
          auto; apply (ok_users Hok)).
    subst u. rewrite Hrep in Hkept. discriminate.
  - eexists. split; [apply select_user_after_upsert; reflexivity|].
    split; reflexivity.
  - assert (Hok' : store_ok (set_users (db w)
                     (filter (fun u => negb (replaced_by (Some i) e u)) (users (db w)) ++
                      [mk_user (Some i) nm e rl ob oa])))
      by (eapply run_replace_user_ok; eauto).
    exact (ok_emails Hok').
  - intros r w0 Hok0. apply ok_emails. now apply handle_preserves_store_ok.
Qed.

Lemma upsert_removes_email_holder_witness :
  fst (post_api_users (sample_user "u2" "N" "sarah@hrconsulting.com" "seller")
         (start true 0)) = Returned (mk_response 201 Success) /\
  has_user (db (snd (post_api_users
                       (sample_user "u2" "N" "sarah@hrconsulting.com" "seller")
                       (start true 0)))) "seller_1" = false.
Proof.
  destruct (@upsert_removes_email_holder (start true 0)
              (sample_user "u2" "N" "sarah@hrconsulting.com" "seller")
              "u2" "sarah@hrconsulting.com" "N" "seller"
              (nth 1 seed_users (mk_user None "" "" "" None None))
              (seeded_ok true 0) eq_refl eq_refl eq_refl eq_refl eq_refl
              ltac:(right; left; reflexivity) eq_refl ltac:(discriminate)
              ltac:(intros _ k Hk; inversion Hk; reflexivity))
    as (H201 & _ & Hgone & _).
  split; [exact H201|]. apply Hgone. reflexivity.
Defined.

(** The claim of C4 as it was stated fails when the row violates CHECK: the
    email of seller_1 is sent under another id with a role that is neither
    buyer nor seller; the answer is 500 and seller_1 stays. *)
Lemma upsert_with_bad_role_is_refused :
  let rq := sample_user "u2" "N" "sarah@hrconsulting.com" "admin" in
  let w := start true 0 in
  (exists uj, In uj (users (db w)) /\ u_id uj = Some "seller_1" /\
              TString (u_email uj) = ub_email rq /\ TString "seller_1" <> ub_id rq) /\
  fst (post_api_users rq w) =
    Returned (mk_response 500 (ErrorMessage (CheckFailed Users))) /\
  has_user (db (snd (post_api_users rq w))) "seller_1" = true.
Proof.
  cbv zeta. split; [|split; reflexivity].
  eexists. split; [right; left; reflexivity|].
  split; [reflexivity|]. split; [reflexivity|discriminate].
Qed.

(** With the references enforced, the email of a user that owns projects
    cannot be taken over: the statement fails and nothing changes.  Without
    them the owner is removed and its projects are left without a buyer. *)
Example upsert_blocked_by_reference :
  let rq := sample_user "u2" "N" "hr@acme.com" "buyer" in
  post_api_users rq (start true 0) =
    (Returned (mk_response 500 (ErrorMessage ForeignKeyFailed)), start true 0) /\
  fst (post_api_users rq (start false 0)) = Returned (mk_response 201 Success) /\
  has_user (db (snd (post_api_users rq (start false 0)))) "buyer_1" = false.
Proof. repeat split. Qed.

(** An upsert whose name, email and role satisfy NOT NULL and CHECK is
    accepted, whether or not its id or its email is already in the table,
    as long as no project or bid points at a row of another id that holds
    its email when the references are enforced. *)
Lemma post_api_users_accepts (w : world) (rq : user_body) (nm em rl : string) :
  ub_name rq = TString nm -> ub_email rq = TString em ->
  ub_role rq = TString rl -> role_ok rl = true ->
  (foreign_keys (db w) = true ->
   forall u k, In u (users (db w)) -> u_email u = em -> u_id u = Some k ->
               ub_id rq <> TString k -> referenced (db w) k = false) ->
  exists oi ob oa,
    bind_text (ub_id rq) = Returned oi /\ bind_text (ub_bio rq) = Returned ob /\
    bind_text (ub_avatar rq) = Returned oa /\
    post_api_users rq w =
    (Returned (mk_response 201 Success),
     mk_world
       (set_users (db w)
          (filter (fun u => negb (replaced_by oi em u)) (users (db w)) ++
           [mk_user oi nm em rl ob oa]))
       (sockets w) (trace w ++ [Wrote Users])).
Proof.
  intros Hn He Hr Hrole Hfk.
  destruct (bind_text_total (ub_id rq)) as (oi & Bi & _).
  destruct (bind_text_total (ub_bio rq)) as (ob & Bb & _).
  destruct (bind_text_total (ub_avatar rq)) as (oa & Ba & _).
  exists oi, ob, oa. split; [exact Bi|]. split; [exact Bb|]. split; [exact Ba|].
  rewrite post_api_users_run.
  erewrite run_replace_user_accepts; eauto.
  intros Hon u k Hu Hrep Hk Hne.
  assert (Hid : ub_id rq <> TString k).
  { intros Hid. rewrite Hid in Bi. simpl in Bi. congruence. }
  unfold replaced_by in Hrep. rewrite Hk in Hrep.
  apply orb_true_iff in Hrep. destruct Hrep as [Hrep|Hrep].
  - exfalso. destruct oi as [i'|]; [|discriminate]. simpl in Hrep.
    apply String.eqb_eq in Hrep. congruence.
  - apply String.eqb_eq in Hrep. now apply (Hfk Hon u k).
Qed.

(** C8 (as amended): an upsert under an id that is already in [users]
    leaves exactly one row with that id, whatever the answer; when it is
    accepted (201) the row stored under that id carries the name of the
    request; when it is refused (500) nothing changed, so the old name
    stays; and it is accepted whenever its name, email and role satisfy
    NOT NULL and CHECK and, with the references enforced, no project or bid
    points at another row that holds its email. *)
Theorem upsert_updates_name (w : world) (rq : user_body) (i : string)
    (old : user_row) :
  store_ok (db w) ->
  ub_id rq = TString i ->
  select_user (db w) i = Some old ->
  let after := db (snd (post_api_users rq w)) in
  List.length (rows_with_id after i) = 1%nat /\
  (fst (post_api_users rq w) = Returned (mk_response 201 Success) ->
   exists name row,
     ub_name rq = TString name /\
     rows_with_id after i = [row] /\
     select_user after i = Some row /\
     u_name row = name) /\
  (forall e,
     fst (post_api_users rq w) = Returned (mk_response 500 (ErrorMessage e)) ->
     snd (post_api_users rq w) = w /\ select_user after i = Some old) /\
  (forall name em rl,
     ub_name rq = TString name -> ub_email rq = TString em ->
     ub_role rq = TString rl -> role_ok rl = true ->
     (foreign_keys (db w) = true ->
      forall u k, In u (users (db w)) -> u_email u = em -> u_id u = Some k ->
                  k <> i -> referenced (db w) k = false) ->
     fst (post_api_users rq w) = Returned (mk_response 201 Success)).
Proof.
  intros Hok Hi Hold. cbv zeta. pose proof Hold as Hsel.
  apply find_key_in in Hold. destruct Hold as [Hin Hkey].
  split; [|split; [|split]].
  - rewrite post_api_users_run.
    destruct (run_replace_user _ _ _ _ _ _ _) as [s|e] eqn:Hrun; simpl.
    + pose proof (run_replace_user_ok _ _ _ _ _ _ Hok Hrun) as Hok'.
      apply run_replace_user_returned in Hrun.
      destruct Hrun as (oi & nm & em & rl & ob & oa & Bi & Hn & He & Hr & Bb & Ba
                        & Hrole & Hs).
      rewrite Hi in Bi. simpl in Bi. inversion Bi; subst oi.
      assert (Hnew : In (mk_user (Some i) nm em rl ob oa) (users s))
        by (subst s; simpl; apply in_or_app; right; now left).
      unfold rows_with_id.
      now rewrite (@filter_key_one _ u_id (users s) _ i (ok_users Hok') Hnew eq_refl).
    + unfold rows_with_id.
      now rewrite (@filter_key_one _ u_id (users (db w)) _ i (ok_users Hok) Hin Hkey).
  - rewrite post_api_users_run.
    destruct (run_replace_user _ _ _ _ _ _ _) as [s|e] eqn:Hrun; simpl;
      [|discriminate].
    pose proof (run_replace_user_ok _ _ _ _ _ _ Hok Hrun) as Hok'.
    apply run_replace_user_returned in Hrun.
    destruct Hrun as (oi & nm & em & rl & ob & oa & Bi & Hn & He & Hr & Bb & Ba
                      & Hrole & Hs).
    rewrite Hi in Bi. simpl in Bi. inversion Bi; subst oi.
    assert (Hnew : In (mk_user (Some i) nm em rl ob oa) (users s))
      by (subst s; simpl; apply in_or_app; right; now left).
    intros _. exists nm. eexists. split; [exact Hn|]. split.
    + unfold rows_with_id.
      exact (@filter_key_one _ u_id (users s) _ i (ok_users Hok') Hnew eq_refl).
    + split; [|reflexivity]. subst s. apply select_user_after_upsert. reflexivity.
  - intros e. rewrite post_api_users_run.
    destruct (run_replace_user _ _ _ _ _ _ _) as [s|e'] eqn:Hrun; simpl;
      [discriminate|].
    intros _. split; [reflexivity|exact Hsel].
  - intros name em rl Hn He Hr Hrole Hfk.
    destruct (@post_api_users_accepts w rq name em rl Hn He Hr Hrole)
      as (oi & ob & oa & _ & _ & _ & ->); [|reflexivity].
    intros Hon u k Hu Hem Hk Hne. apply (Hfk Hon u k Hu Hem Hk).
    intros ->. apply Hne. exact Hi.
Qed.

Lemma upsert_updates_name_witness :
  exists row,
    select_user
      (db (snd (post_api_users
                  (sample_user "buyer_1" "Acme People" "hr@acme.com" "buyer")
                  (start true 0)))) "buyer_1" = Some row /\
    u_name row = "Acme People".
Proof.
  destruct (@upsert_updates_name (start true 0)
              (sample_user "buyer_1" "Acme People" "hr@acme.com" "buyer")
              "buyer_1" (nth 0 seed_users (mk_user None "" "" "" None None))
              (seeded_ok true 0) eq_refl eq_refl) as (_ & Hname & _).
  destruct (Hname eq_refl) as (name & row & Hn & _ & Hsel & Hrow).
  exists row. split; [exact Hsel|]. rewrite Hrow. inversion Hn. reflexivity.
Defined.

(** The claim of C8 as it was stated fails when the store refuses the
    upsert.  With the references enforced, seller_1 renamed under the email
    of buyer_1, who owns the seeded projects: the statement fails on the
    foreign key, the answer is 500 and the old name stays.  With or without
    them, a role that is neither buyer nor seller: 500 and the old name
    stays. *)
Lemma refused_upsert_keeps_old_name :
  let stored (rq : user_body) (w : world) :=
    (fst (post_api_users rq w),
     map u_name (rows_with_id (db (snd (post_api_users rq w))) "seller_1")) in
  map u_name (rows_with_id (seeded true 0) "seller_1") = ["Sarah Jenkins"] /\
  stored (sample_user "seller_1" "Sarah J" "hr@acme.com" "seller") (start true 0) =
    (Returned (mk_response 500 (ErrorMessage ForeignKeyFailed)), ["Sarah Jenkins"]) /\
  stored (sample_user "seller_1" "Sarah J" "sarah@hrconsulting.com" "admin")
         (start false 0) =
    (Returned (mk_response 500 (ErrorMessage (CheckFailed Users))), ["Sarah Jenkins"]).
Proof. repeat split. Qed.

(** ** Status codes *)

Lemma handle_returns (r : request) (w : world) :
  exists resp, fst (handle r w) = Returned resp /\
    (status resp = 200 \/ status resp = 201 \/ status resp = 404 \/
     status resp = 500).
Proof.
  destruct r; simpl.
  - eexists. split; [reflexivity|]. simpl. auto.
  - rewrite post_api_projects_run.
    destruct (run_insert_project _ _ _ _ _ _ _ _) as [s0|];
      [|eexists; split; [reflexivity|simpl; auto]].
    cbv zeta.
    destruct (run_insert_milestone s0 _ _ _ _) as [s1|];
      [|eexists; split; [reflexivity|simpl; auto]].
    destruct (run_insert_milestone s1 _ _ _ _) as [s2|];
      [|eexists; split; [reflexivity|simpl; auto]].
    destruct (run_insert_milestone s2 _ _ _ _) as [s3|];
      eexists; (split; [reflexivity|simpl; auto]).
  - unfold get_api_user. run_handler.
    destruct (select_user (db w) id); eexists; (split; [reflexivity|simpl; auto]).
  - rewrite post_api_users_run.
    destruct (run_replace_user _ _ _ _ _ _ _);
      eexists; (split; [reflexivity|simpl; auto]).
  - eexists. split; [reflexivity|]. simpl. auto.
  - rewrite post_api_bids_run.
    destruct (run_insert_bid _ _ _ _ _ _ _);
      eexists; (split; [reflexivity|simpl; auto]).
  - eexists. split; [reflexivity|]. simpl. auto.
  - rewrite post_api_milestones_run.
    destruct (run_insert_milestone _ _ _ _ _);
      eexists; (split; [reflexivity|simpl; auto]).
  - rewrite get_api_matchmaking_run.
    destruct (select_project (db w) id); [destruct reply|];
      eexists; (split; [reflexivity|simpl; auto]).
Qed.

Lemma write_answers (r : request) (w : world) :
  is_write r = true ->
  fst (handle r w) = Returned (mk_response 201 Success) \/
  exists e, fst (handle r w) = Returned (mk_response 500 (ErrorMessage e)).
Proof.
  destruct r; simpl; try discriminate; intros _.
  - rewrite post_api_projects_run.
    destruct (run_insert_project _ _ _ _ _ _ _ _) as [s0|]; [|simpl; eauto].
    cbv zeta.
    destruct (run_insert_milestone s0 _ _ _ _) as [s1|]; [|simpl; eauto].
    destruct (run_insert_milestone s1 _ _ _ _) as [s2|]; [|simpl; eauto].
    destruct (run_insert_milestone s2 _ _ _ _) as [s3|]; simpl; eauto.
  - rewrite post_api_users_run.
    destruct (run_replace_user _ _ _ _ _ _ _); simpl; eauto.
  - rewrite post_api_bids_run.
    destruct (run_insert_bid _ _ _ _ _ _ _); simpl; eauto.
  - rewrite post_api_milestones_run.
    destruct (run_insert_milestone _ _ _ _ _); simpl; eauto.
Qed.






(** A plain INSERT does report its conflict. *)
Example duplicate_project_id_is_refused :
  handle (PostProjects (mk_project_body (TString "p1") (TString "buyer_1")
            (TString "t") (TString "d") (NNumber 10) (NNumber 20))
            "m1" "m2" "m3" 1) (start true 0) =
  (Returned (mk_response 500 (ErrorMessage (UniqueFailed Projects "id"))),
   start true 0).
Proof. reflexivity. Qed.

(** ** Missing ids *)

Lemma no_bid_without_project (s : store) (id : string) :
  store_ok s -> foreign_keys s = true -> has_project s id = false ->
  select_bids s id = [].
Proof.
  intros Hok Hon Hno. destruct (ok_references Hok Hon) as (_ & Rb & _).
  unfold select_bids.
  assert (Hnone : filter (fun b => String.eqb (b_project_id b) id) (bids s) = []).
  { induction (bids s) as [|b l IH]; simpl; [reflexivity|].
    destruct (String.eqb (b_project_id b) id) eqn:Heq.
    - apply String.eqb_eq in Heq. subst id.
      destruct (Rb b (or_introl eq_refl)) as [Hp _].
      rewrite Hp in Hno. discriminate.
    - apply IH. intros b' Hin. apply Rb. now right. }
  rewrite Hnone. reflexivity.
Qed.

Lemma not_found_only_for_lookups (r : request) (w : world) (resp : response) :
  fst (handle r w) = Returned resp -> status resp = 404 ->
  (exists id, r = GetUser id /\ select_user (db w) id = None) \/
  (exists id reply, r = GetMatchmaking id reply /\ select_project (db w) id = None).
Proof.
  destruct r; simpl.
  - intros H; inversion H; subst; simpl; discriminate.
  - intros H Hs. destruct (write_answers (PostProjects rq uuid1 uuid2 uuid3 now) w eq_refl)
      as [Hw|[e Hw]]; simpl in Hw; rewrite Hw in H; inversion H; subst;
      simpl in Hs; discriminate.
  - unfold get_api_user. run_handler.
    destruct (select_user (db w) id) eqn:Hsel; intros H; inversion H; subst;
      simpl; [discriminate|]. intros _. left. eauto.
  - intros H Hs. destruct (write_answers (PostUsers rq) w eq_refl)
      as [Hw|[e Hw]]; simpl in Hw; rewrite Hw in H; inversion H; subst;
      simpl in Hs; discriminate.
  - intros H; inversion H; subst; simpl; discriminate.
  - intros H Hs. destruct (write_answers (PostBids rq now) w eq_refl)
      as [Hw|[e Hw]]; simpl in Hw; rewrite Hw in H; inversion H; subst;
      simpl in Hs; discriminate.
  - intros H; inversion H; subst; simpl; discriminate.
  - intros H Hs. destruct (write_answers (PostMilestones rq) w eq_refl)
      as [Hw|[e Hw]]; simpl in Hw; rewrite Hw in H; inversion H; subst;
      simpl in Hs; discriminate.
  - rewrite get_api_matchmaking_run.
    destruct (select_project (db w) id) eqn:Hsel.
    + destruct reply; intros H; inversion H; subst; simpl; discriminate.
    + intros _ _. right. eauto.
Qed.

(** C5 (as amended): a 404 is answered by two lookups and by nothing else:
    the matchmaking lookup for a project id that is not in the store, and
    GET /api/users/:id for a user id that is not.  Every other endpoint
    answers an unknown id without a 404; with the references enforced, the
    bids and the milestones of an unknown project id are the empty list. *)
Theorem not_found_answers :
  (forall (r : request) (w : world) (resp : response),
     fst (handle r w) = Returned resp -> status resp = 404 ->
     (exists id, r = GetUser id /\ select_user (db w) id = None) \/
     (exists id reply,
        r = GetMatchmaking id reply /\ select_project (db w) id = None)) /\
  (forall (w : world) (id : string),
     select_user (db w) id = None ->
     handle (GetUser id) w =
       (Returned (mk_response 404 (ErrorText "User not found")), w)) /\
  (forall (w : world) (id : string),
     store_ok (db w) -> foreign_keys (db w) = true ->
     has_project (db w) id = false ->
     handle (GetBids id) w = (Returned (mk_response 200 (BidList [])), w) /\
     handle (GetMilestones id) w =
       (Returned (mk_response 200 (MilestoneList [])), w)).
Proof.
  split; [exact not_found_only_for_lookups|]. split.
  - intros w id Hsel. simpl. unfold get_api_user. run_handler.
    now rewrite Hsel.
  - intros w id Hok Hon Hno. simpl. unfold get_api_bids, get_api_milestones.
    run_handler.
    rewrite (no_bid_without_project id Hok Hon Hno).
    rewrite (no_milestone_without_project id Hok Hon Hno). split; reflexivity.
Qed.

Lemma not_found_answers_witness :
  handle (GetBids "ghost") (start true 0) =
    (Returned (mk_response 200 (BidList [])), start true 0) /\
  handle (GetMilestones "ghost") (start true 0) =
    (Returned (mk_response 200 (MilestoneList [])), start true 0).
Proof.
  exact (proj2 (proj2 not_found_answers) (start true 0) "ghost"
           (seeded_ok true 0) eq_refl eq_refl).
Defined.

(** The claim of C5 as it was stated fails on the user lookup, which is not
    the matchmaking lookup and answers 404 for an id that is not there. *)
Lemma unknown_user_is_404 :
  select_user (db (start true 0)) "nobody" = None /\
  handle (GetUser "nobody") (start true 0) =
    (Returned (mk_response 404 (ErrorText "User not found")), start true 0).
Proof. split; reflexivity. Qed.

Lemma emitted_nothing (w : world) : emitted w w = [].
Proof. unfold emitted. apply skipn_all. Qed.

Lemma emitted_app (w w' : world) (evs : list event) :
  trace w' = trace w ++ evs -> emitted w w' = evs.
Proof.
  intros H. unfold emitted. rewrite H.
  rewrite skipn_app, skipn_all, Nat.sub_diag. reflexivity.
Qed.

(** C6: the matchmaking lookup for a project id that is not in the store
    answers 404 and leaves the world as it was: [getMatchmakingAdvice] is not
    called. *)
Theorem matchmaking_unknown_project (w : world) (id : string)
    (reply : outcome string) :
  has_project (db w) id = false ->
  handle (GetMatchmaking id reply) w =
    (Returned (mk_response 404 (ErrorText "Project not found")), w) /\
  filter is_advice_call
    (emitted w (snd (handle (GetMatchmaking id reply) w))) = [].
Proof.
  intros Hno. simpl. rewrite get_api_matchmaking_run.
  apply find_key_none in Hno. unfold select_project. rewrite Hno.
  split; [reflexivity|]. simpl. now rewrite emitted_nothing.
Qed.

Lemma matchmaking_unknown_project_witness :
  handle (GetMatchmaking "ghost" (Returned "advice")) (start true 0) =
    (Returned (mk_response 404 (ErrorText "Project not found")), start true 0).
Proof.
  exact (proj1 (@matchmaking_unknown_project (start true 0) "ghost"
                  (Returned "advice") eq_refl)).
Defined.

(** For a project that is in the store the gateway is called exactly once. *)
Lemma matchmaking_known_project (w : world) (id : string) (p : project_row)
    (reply : outcome string) :
  select_project (db w) id = Some p ->
  emitted w (snd (handle (GetMatchmaking id reply) w)) =
    [AskedAdvice (p_description p) (map seller_line (select_sellers (db w)))].
Proof.
  intros Hsel. simpl. rewrite get_api_matchmaking_run, Hsel. cbv zeta.
  destruct reply; simpl; apply emitted_app; reflexivity.
Qed.

(** ** Listing the projects *)

Lemma insert_desc_perm (x : project_listing) (l : list project_listing) :
  Permutation (insert_desc x l) (x :: l).
Proof.
  induction l as [|y l IH]; simpl; [reflexivity|].
  destruct (p_created_at (pl_project y) <=? p_created_at (pl_project x)).
  - reflexivity.
  - rewrite IH. apply perm_swap.
Qed.

Lemma order_by_created_desc_perm (l : list project_listing) :
  Permutation (order_by_created_desc l) l.
Proof.
  induction l as [|x l IH]; simpl; [reflexivity|].
  rewrite insert_desc_perm. now constructor.
Qed.

Lemma insert_desc_sorted (x : project_listing) (l : list project_listing) :
  StronglySorted newer_first l -> StronglySorted newer_first (insert_desc x l).
Proof.
  induction l as [|y l IH]; simpl; intros Hs.
  - repeat constructor.
  - inversion Hs as [|? ? Hl Hall]; subst.
    destruct (p_created_at (pl_project y) <=? p_created_at (pl_project x)) eqn:Hle.
    + apply Z.leb_le in Hle. constructor; [exact Hs|].
      constructor; [exact Hle|].
      eapply Forall_impl; [|exact Hall]. unfold newer_first. intros; lia.
    + apply Z.leb_gt in Hle. constructor; [now apply IH|].
      eapply Permutation_Forall; [symmetry; apply insert_desc_perm|].
      constructor; [unfold newer_first; lia|exact Hall].
Qed.

Lemma order_by_created_desc_sorted (l : list project_listing) :
  StronglySorted newer_first (order_by_created_desc l).
Proof.
  induction l as [|x l IH]; simpl; [constructor|now apply insert_desc_sorted].
Qed.

Lemma filter_perm {A : Type} (f : A -> bool) (l l' : list A) :
  Permutation l l' -> Permutation (filter f l) (filter f l').
Proof.
  induction 1 as [|x l l' _ IH|x y l|l l' l'' _ IH1 _ IH2]; simpl.
  - constructor.
  - destruct (f x); [now constructor|exact IH].
  - destruct (f x), (f y); try reflexivity. apply perm_swap.
  - now transitivity (filter f l').
Qed.

(** Every row of the join is a stored project with the name of the user its
    buyer_id designates. *)
Lemma in_join_buyers (s : store) (row : project_listing) :
  In row (join_buyers s) <->
  In (pl_project row) (projects s) /\
  exists u, In u (users s) /\ u_id u = Some (p_buyer_id (pl_project row)) /\
            pl_buyer_name row = u_name u.
Proof.
  unfold join_buyers. rewrite in_flat_map. split.
  - intros [p [Hp Hrow]]. apply in_map_iff in Hrow.
    destruct Hrow as [u [<- Hu]]. apply filter_In in Hu. destruct Hu as [Hu Hk].
    simpl. split; [exact Hp|]. exists u. repeat split; auto.
    destruct (u_id u); simpl in Hk; [|discriminate].
    apply String.eqb_eq in Hk. now subst.
  - intros [Hp [u [Hu [Hk Hn]]]]. exists (pl_project row). split; [exact Hp|].
    apply in_map_iff. exists u. split.
    + destruct row; simpl in *. now subst.
    + apply filter_In. split; [exact Hu|]. rewrite Hk. simpl. apply String.eqb_refl.
Qed.

Lemma filter_none {A : Type} (f : A -> bool) (l : list A) :
  (forall x, In x l -> f x = false) -> filter f l = [].
Proof.
  induction l as [|x l IH]; simpl; intros H; [reflexivity|].
  rewrite (H x (or_introl eq_refl)). apply IH. intros y Hy. apply H. now right.
Qed.

Lemma run_insert_milestone_frame s i p t a s' :
  run_insert_milestone s i p t a = Returned s' ->
  users s' = users s /\ projects s' = projects s.
Proof.
  intros H. apply run_insert_milestone_returned in H.
  destruct H as (oi & pid & ttl & v & _ & _ & _ & _ & _ & _ & _ & ->).
  split; reflexivity.
Qed.

(** After an accepted create-project request for a buyer that is in
    [users], the listing holds the new project exactly once, with the name of
    that user. *)
Lemma created_project_listed_once
    (w w' : world) (rq : project_body) (u1 u2 u3 b : string) (now : Z)
    (u : user_row) :
  store_ok (db w) ->
  pb_buyer_id rq = TString b ->
  select_user (db w) b = Some u ->
  post_api_projects rq u1 u2 u3 now w = (Returned (mk_response 201 Success), w') ->
  exists i row,
    pb_id rq = TString i /\
    filter (fun l => string_eqb_opt (p_id (pl_project l)) i)
           (select_projects (db w')) = [row] /\
    In (pl_project row) (projects (db w')) /\
    p_buyer_id (pl_project row) = b /\
    p_created_at (pl_project row) = now /\
    pl_buyer_name row = u_name u.
Proof.
  intros Hok Hb Hu H.
  rewrite post_api_projects_run in H.
  destruct (run_insert_project _ _ _ _ _ _ _ _) as [s0|] eqn:E0; [|discriminate H].
  cbv zeta in H.
  destruct (run_insert_milestone s0 _ _ _ _) as [s1|] eqn:E1; [|discriminate H].
  destruct (run_insert_milestone s1 _ _ _ _) as [s2|] eqn:E2; [|discriminate H].
  destruct (run_insert_milestone s2 _ _ _ _) as [s3|] eqn:E3; [|discriminate H].
  inversion H; subst w'; clear H. simpl.
  pose proof (@run_insert_milestone_frame _ _ _ _ _ _ E1) as [U1 P1].
  pose proof (@run_insert_milestone_frame _ _ _ _ _ _ E2) as [U2 P2].
  pose proof (@run_insert_milestone_frame _ _ _ _ _ _ E3) as [U3 P3].
  apply run_insert_milestone_returned in E1.
  destruct E1 as (o1 & pid & t1 & v1 & _ & Hpid & _).
  apply run_insert_project_returned in E0.
  destruct E0 as (oi & buyer & ttl & descr & vlo & vhi & Hi & Hbuyer & _ & _ & _
                  & _ & Hfree & _ & Hs0).
  rewrite Hpid in Hi. simpl in Hi. inversion Hi; subst oi; clear Hi.
  rewrite Hb in Hbuyer. inversion Hbuyer; subst buyer; clear Hbuyer.
  apply find_key_in in Hu. destruct Hu as [Hin Hkey].
  set (P := mk_project (Some pid) b ttl descr vlo vhi (Some "open") now) in *.
  assert (HU : users s3 = users (db w))
    by (rewrite U3, U2, U1, Hs0; reflexivity).
  assert (HP : projects s3 = projects (db w) ++ [P])
    by (rewrite P3, P2, P1, Hs0; reflexivity).
  exists pid, (mk_project_listing P (u_name u)).
  split; [exact Hpid|].
  assert (Hjoin : join_buyers s3 =
                  join_buyers (db w) ++ [mk_project_listing P (u_name u)]).
  { unfold join_buyers. rewrite HU, HP, flat_map_app. simpl.
    rewrite (@filter_key_one _ u_id (users (db w)) u b (ok_users Hok) Hin Hkey).
    reflexivity. }
  split; [|simpl; rewrite HP; repeat split; apply in_or_app; right; now left].
  unfold select_projects.
  assert (Hf : filter (fun l => string_eqb_opt (p_id (pl_project l)) pid)
                 (join_buyers s3) = [mk_project_listing P (u_name u)]).
  { rewrite Hjoin, filter_app, filter_none.
    - simpl. now rewrite String.eqb_refl.
    - intros row Hrow. apply in_join_buyers in Hrow. destruct Hrow as [Hp _].
      destruct (string_eqb_opt (p_id (pl_project row)) pid) eqn:Hid; [|reflexivity].
      exfalso. simpl in Hfree. apply has_key_false in Hfree. apply Hfree.
      apply in_ids. exists (pl_project row). split; [exact Hp|].
      destruct (p_id (pl_project row)); simpl in Hid; [|discriminate].
      apply String.eqb_eq in Hid. now subst. }
  pose proof (filter_perm
                (fun l => string_eqb_opt (p_id (pl_project l)) pid)
                (order_by_created_desc_perm (join_buyers s3))) as Hperm.
  rewrite Hf in Hperm.
  apply Permutation_sym, Permutation_length_1_inv in Hperm. exact Hperm.
Qed.

(** C7: GET /api/projects answers the stored projects that have their buyer
    in [users], each with that user's name as buyer_name, newest first; and
    after a create-project request that was accepted, for a buyer that is in
    [users], the listing holds the new project exactly once, with the
    buyer_name of that user. *)
Theorem projects_listing :
  (forall w : world,
     handle GetProjects w =
       (Returned (mk_response 200 (ProjectList (select_projects (db w)))), w) /\
     StronglySorted newer_first (select_projects (db w)) /\
     (forall row, In row (select_projects (db w)) <->
        In (pl_project row) (projects (db w)) /\
        exists u, In u (users (db w)) /\
                  u_id u = Some (p_buyer_id (pl_project row)) /\
                  pl_buyer_name row = u_name u)) /\
  (forall (w w' : world) (rq : project_body) (u1 u2 u3 b : string) (now : Z)
          (u : user_row),
     store_ok (db w) ->
     pb_buyer_id rq = TString b ->
     select_user (db w) b = Some u ->
     post_api_projects rq u1 u2 u3 now w =
       (Returned (mk_response 201 Success), w') ->
     exists i row,
       pb_id rq = TString i /\
       filter (fun l => string_eqb_opt (p_id (pl_project l)) i)
              (select_projects (db w')) = [row] /\
       In (pl_project row) (projects (db w')) /\
       p_buyer_id (pl_project row) = b /\
       p_created_at (pl_project row) = now /\
       pl_buyer_name row = u_name u).
Proof.
  split.
  - intros w. split; [reflexivity|].
    split; [apply order_by_created_desc_sorted|].
    intros row. rewrite <- in_join_buyers. unfold select_projects. split.
    + apply Permutation_in. apply order_by_created_desc_perm.
    + apply Permutation_in. symmetry. apply order_by_created_desc_perm.
  - intros. eapply created_project_listed_once; eauto.
Qed.

Lemma projects_listing_witness :
  exists row,
    filter (fun l => string_eqb_opt (p_id (pl_project l)) "X")
      (select_projects
         (db (snd (post_api_projects (sample_project (NNumber 1000))
                     "m1" "m2" "m3" 1 (start true 0))))) = [row] /\
    pl_buyer_name row = "Acme Corp HR".
Proof.
  destruct (proj2 projects_listing (start true 0)
              (snd (post_api_projects (sample_project (NNumber 1000))
                      "m1" "m2" "m3" 1 (start true 0)))
              (sample_project (NNumber 1000)) "m1" "m2" "m3" "buyer_1" 1
              (nth 0 seed_users (mk_user None "" "" "" None None))
              (seeded_ok true 0) eq_refl eq_refl eq_refl)
    as (i & row & Hi & Hrow & _ & _ & _ & Hname).
  exists row. inversion Hi; subst i. split; [exact Hrow|exact Hname].
Defined.

(** The newest project comes first. *)
Example listing_newest_first :
  map (fun l => p_id (pl_project l))
    (select_projects
       (db (snd (post_api_projects (sample_project (NNumber 1000))
                   "m1" "m2" "m3" 1 (start true 0))))) =
  [Some "X"; Some "p1"; Some "p2"].
Proof. reflexivity. Qed.

(** ** The chat relay *)

Lemma copies_app (sid : string) (l1 l2 : list event) :
  copies sid (l1 ++ l2) = (copies sid l1 + copies sid l2)%nat.
Proof. unfold copies. now rewrite filter_app, length_app. Qed.

Lemma copies_of_room (sid : string) (data : message_data) (l : list socket) :
  copies sid (map (fun x => Received (socket_id x) data) l) =
  List.length (filter (fun x => String.eqb (socket_id x) sid) l).
Proof.
  unfold copies. induction l as [|x l IH]; simpl; [reflexivity|].
  destruct (String.eqb (socket_id x) sid); simpl; now rewrite IH.
Qed.

(** Among sockets with distinct ids, a socket is met once in the room it is
    in and not at all in a room it is not in. *)
Lemma members_with_id (room : string) (l : list socket) (s : socket) :
  NoDup (map socket_id l) -> In s l ->
  List.length (filter (fun x => String.eqb (socket_id x) (socket_id s))
                 (filter (in_room room) l)) =
  if in_room room s then 1%nat else 0%nat.
Proof.
  induction l as [|x l IH]; simpl; intros Hnd Hin; [contradiction|].
  inversion Hnd as [|? ? Hnotin Hrest]; subst.
  assert (Hother : forall y, In y l -> String.eqb (socket_id y) (socket_id x) = false).
  { intros y Hy. apply String.eqb_neq. intros Heq. apply Hnotin.
    rewrite <- Heq. now apply in_map. }
  destruct Hin as [->|Hin].
  - assert (Hrest0 : filter (fun y => String.eqb (socket_id y) (socket_id s))
                       (filter (in_room room) l) = []).
    { apply filter_none. intros y Hy. apply filter_In in Hy. now apply Hother. }
    destruct (in_room room s); simpl.
    + now rewrite String.eqb_refl, Hrest0.
    + now rewrite Hrest0.
  - assert (Hx : String.eqb (socket_id x) (socket_id s) = false).
    { rewrite String.eqb_sym. now apply Hother. }
    destruct (in_room room x); simpl; [rewrite Hx|]; now apply IH.
Qed.

Lemma on_send_message_accepted (sid : string) (now : Z) (w : world)
    (a b text : string) :
  on_send_message sid (mk_message_data (TString a) (TString b) (TString text)) now w =
  (Returned tt,
   mk_world
     (set_messages (db w)
        (messages (db w) ++ [mk_message (messages_seq (db w) + 1) a b text now])
        (messages_seq (db w) + 1))
     (sockets w)
     (((trace w ++ [Wrote Messages]) ++
       map (fun x => Received (socket_id x)
                       (mk_message_data (TString a) (TString b) (TString text)))
           (filter (in_room b) (sockets w))) ++
      [Received sid (mk_message_data (TString a) (TString b) (TString text))])).
Proof. rewrite on_send_message_run. reflexivity. Qed.

(** C2 (as amended): a message from A to B whose fields are strings is
    stored, and each connected socket receives one packet if it is in the
    room of B, plus one (the echo) if it is the sending socket.  So a socket
    of B's room other than the sender receives exactly one copy; the sender
    receives exactly one when it is not in B's room, whether or not it joined
    the room of A, and two when it is (as when A = B and it joined its own
    room). *)
Theorem message_delivery (w : world) (sid a b text : string) (now : Z) :
  sockets_ok w ->
  let data := mk_message_data (TString a) (TString b) (TString text) in
  let run := on_send_message sid data now w in
  fst run = Returned tt /\
  In (mk_message (messages_seq (db w) + 1) a b text now) (messages (db (snd run))) /\
  (forall s, In s (sockets w) ->
     copies (socket_id s) (emitted w (snd run)) =
     ((if in_room b s then 1 else 0) +
      (if String.eqb sid (socket_id s) then 1 else 0))%nat) /\
  (forall s, In s (sockets w) -> in_room b s = true -> socket_id s <> sid ->
     copies (socket_id s) (emitted w (snd run)) = 1%nat) /\
  (forall s, In s (sockets w) -> socket_id s = sid -> in_room b s = false ->
     copies (socket_id s) (emitted w (snd run)) = 1%nat) /\
  (forall s, In s (sockets w) -> socket_id s = sid -> in_room b s = true ->
     copies (socket_id s) (emitted w (snd run)) = 2%nat).
Proof.
  intros Hok data run.
  assert (Hcount : forall s, In s (sockets w) ->
     copies (socket_id s) (emitted w (snd run)) =
     ((if in_room b s then 1 else 0) +
      (if String.eqb sid (socket_id s) then 1 else 0))%nat).
  { intros s Hin. subst run data. rewrite on_send_message_accepted. simpl.
    erewrite emitted_app; [|simpl; rewrite <- !app_assoc; reflexivity].
    rewrite !copies_app, copies_of_room, (@members_with_id b (sockets w) s Hok Hin).
    unfold copies. simpl. destruct (String.eqb sid (socket_id s)); reflexivity. }
  subst run data. split; [now rewrite on_send_message_accepted|].
  split; [rewrite on_send_message_accepted; simpl; apply in_or_app; right; now left|].
  split; [exact Hcount|]. split; [|split].
  - intros s Hin Hroom Hne. rewrite (Hcount s Hin), Hroom.
    assert (Hs : String.eqb sid (socket_id s) = false)
      by (apply String.eqb_neq; congruence).
    now rewrite Hs.
  - intros s Hin Hs Hroom. rewrite (Hcount s Hin), Hroom, Hs, String.eqb_refl.
    reflexivity.
  - intros s Hin Hs Hroom. rewrite (Hcount s Hin), Hroom, Hs, String.eqb_refl.
    reflexivity.
Qed.

Lemma sample_chat_ok : sockets_ok sample_chat.
Proof.
  unfold sockets_ok. simpl. repeat constructor; simpl; intuition discriminate.
Qed.

Lemma message_delivery_witness :
  copies "s1"
    (emitted sample_chat
       (snd (on_send_message "s2"
               (mk_message_data (TString "bob") (TString "alice") (TString "hi"))
               1 sample_chat))) = 1%nat.
Proof.
  destruct (@message_delivery sample_chat "s2" "bob" "alice" "hi" 1 sample_chat_ok)
    as (_ & _ & _ & Hone & _).
  exact (Hone (mk_socket "s1" ["alice"]) (or_introl eq_refl) eq_refl
           ltac:(discriminate)).
Defined.

(** The claim of C2 as it was stated fails for A = B: the socket that joined
    the room of alice and sends to alice is in the receiver's room and is
    sent two packets, not one. *)
Lemma self_message_arrives_twice :
  let data := mk_message_data (TString "alice") (TString "alice") (TString "hi") in
  let run := on_send_message "s1" data 1 sample_chat in
  In (mk_socket "s1" ["alice"]) (sockets sample_chat) /\
  in_room "alice" (mk_socket "s1" ["alice"]) = true /\
  fst run = Returned tt /\
  copies "s1" (emitted sample_chat (snd run)) = 2%nat.
Proof. cbv zeta. split; [now left|]. repeat split. Qed.

(** C10: in every run of the send_message handler the message is inserted
    before anything is emitted.  Either the insert throws, and then the
    handler throws that error and the world, trace included, is as it was (no
    packet); or it returns, and then the run appended to the trace the write
    to [messages] first and after it only packets that carry the data, while
    the store holds the new row: every packet of the run has the write before
    it. *)
Theorem message_persisted_before_emission
    (w : world) (sid : string) (data : message_data) (now : Z) :
  let run := on_send_message sid data now w in
  (exists e,
     run_insert_message (db w) (md_sender_id data) (md_receiver_id data)
       (md_content data) now = Thrown e /\
     run = (Thrown e, w)) \/
  (exists a b text packets,
     data = mk_message_data (TString a) (TString b) (TString text) /\
     run_insert_message (db w) (md_sender_id data) (md_receiver_id data)
       (md_content data) now = Returned (db (snd run)) /\
     fst run = Returned tt /\
     messages (db (snd run)) =
       messages (db w) ++ [mk_message (messages_seq (db w) + 1) a b text now] /\
     emitted w (snd run) = Wrote Messages :: packets /\
     Forall (fun ev => exists s, ev = Received s data) packets /\
     In (Received sid data) packets /\
     (forall pre ev post,
        emitted w (snd run) = pre ++ ev :: post -> is_packet ev = true ->
        In (Wrote Messages) pre)).
Proof.
  cbv zeta.
  destruct (run_insert_message (db w) (md_sender_id data) (md_receiver_id data)
              (md_content data) now) as [s|e] eqn:Hrun.
  - right. pose proof Hrun as Hret. apply run_insert_message_returned in Hret.
    destruct Hret as (a & b & text & Ha & Hb & Hc & Hs).
    assert (Hdata : data = mk_message_data (TString a) (TString b) (TString text))
      by (destruct data; simpl in *; congruence).
    exists a, b, text.
    exists (map (fun x => Received (socket_id x) data)
              (filter (in_room b) (sockets w)) ++ [Received sid data]).
    assert (Hem : emitted w (snd (on_send_message sid data now w)) =
                  Wrote Messages ::
                  (map (fun x => Received (socket_id x) data)
                     (filter (in_room b) (sockets w)) ++ [Received sid data])).
    { rewrite Hdata at 1. rewrite on_send_message_accepted. simpl.
      apply emitted_app. rewrite <- Hdata, <- !app_assoc. reflexivity. }
    split; [exact Hdata|].
    rewrite Hem. rewrite Hdata at 1 2 3. rewrite on_send_message_accepted. simpl.
    split; [now rewrite <- Hs|]. split; [reflexivity|]. split; [reflexivity|].
    split; [reflexivity|]. split; [|split].
    + apply Forall_app. split.
      * apply Forall_forall. intros ev Hev. apply in_map_iff in Hev.
        destruct Hev as [x [<- _]]. eauto.
      * constructor; [eauto|constructor].
    + apply in_or_app. right. now left.
    + intros pre ev post Hsplit Hpacket.
      destruct pre as [|first pre]; simpl in Hsplit.
      * inversion Hsplit; subst ev. discriminate.
      * inversion Hsplit; subst first. now left.
  - left. exists e. split; [reflexivity|].
    rewrite on_send_message_run, Hrun. reflexivity.
Qed.

(** A message without a receiver is not stored and nothing is emitted. *)
Example message_without_receiver :
  on_send_message "s1" (mk_message_data (TString "alice") TNull (TString "hi"))
    1 sample_chat =
  (Thrown (NotNullFailed Messages "receiver_id"), sample_chat).
Proof. reflexivity. Qed.

(** The socket ids stay distinct. *)
Lemma relay_keeps_sockets_ok (w : world) (sid room : string)
    (data : message_data) (now : Z) :
  sockets_ok w ->
  (~ In sid (map socket_id (sockets w)) -> sockets_ok (snd (on_connection sid w))) /\
  sockets_ok (snd (on_join sid room w)) /\
  sockets_ok (snd (on_send_message sid data now w)) /\
  sockets_ok (snd (on_disconnect sid w)).
Proof.
  unfold sockets_ok. intros Hok. repeat split.
  - intros Hfresh. simpl. rewrite map_app. simpl. apply NoDup_app; auto.
    + repeat constructor. intros [].
    + intros x Hx [<-|[]]. contradiction.
  - simpl. rewrite map_map.
    erewrite map_ext; [exact Hok|].
    intros s. unfold join_room. now destruct (_ && _).
  - rewrite on_send_message_run.
    destruct (run_insert_message _ _ _ _ _); [|exact Hok]. exact Hok.
  - simpl. now apply NoDup_map_filter.
Qed.

(** * Further properties of the server *)

(** ** Round trips through the API *)

Lemma run_insert_bid_returned s i p u a t now s' :
  run_insert_bid s i p u a t now = Returned s' ->
  exists oi pid sid v prop,
    bind_text i = Returned oi /\ p = TString pid /\ u = TString sid /\
    bind_numeric a = Returned v /\ t = TString prop /\ v <> SNull /\
    key_taken (has_bid s) oi = false /\
    fk_holds s (has_project s) pid = true /\
    fk_holds s (has_user s) sid = true /\
    s' = set_bids s (bids s ++ [mk_bid oi pid sid v prop (Some "pending") now]).
Proof.
  unfold run_insert_bid. intros H. split_outcome H.
  apply insert_bid_returned in H.
  destruct H as (pid & sid & prop & -> & -> & -> & Hnn & Hfree & Hfp & Hfu & ->).
  apply bind_text_returned in E0, E1, E3. eauto 20.
Qed.

(** A bid that was accepted is the last row of the bids listed for its
    project, with the name of the seller's row as seller_name; the bids
    listed before are still listed, in the same order. *)
Theorem bid_listed_after_submission
    (w w' : world) (rq : bid_body) (now : Z) (p s : string) (u : user_row) :
  store_ok (db w) ->
  bb_project_id rq = TString p -> bb_seller_id rq = TString s ->
  select_user (db w) s = Some u ->
  post_api_bids rq now w = (Returned (mk_response 201 Success), w') ->
  exists row,
    handle (GetBids p) w' =
      (Returned (mk_response 200 (BidList (select_bids (db w) p ++ [row]))), w') /\
    bl_seller_name row = u_name u /\
    bind_text (bb_id rq) = Returned (b_id (bl_bid row)) /\
    b_project_id (bl_bid row) = p /\ b_seller_id (bl_bid row) = s /\
    bind_numeric (bb_amount rq) = Returned (b_amount (bl_bid row)) /\
    TString (b_proposal (bl_bid row)) = bb_proposal rq /\
    b_status (bl_bid row) = Some "pending" /\
    b_created_at (bl_bid row) = now.
Proof.
  intros Hok Hp Hs Hu H. rewrite post_api_bids_run in H.
  destruct (run_insert_bid _ _ _ _ _ _ _) as [s1|] eqn:E; [|discriminate H].
  inversion H; subst w'; clear H.
  apply run_insert_bid_returned in E.
  destruct E as (oi & pid & sid & v & prop & Hi & Hpid & Hsid & Hv & Hprop & _ & _
                 & _ & _ & ->).
  rewrite Hp in Hpid. inversion Hpid; subst pid.
  rewrite Hs in Hsid. inversion Hsid; subst sid.
  apply find_key_in in Hu. destruct Hu as [Hin Hkey].
  exists (mk_bid_listing (mk_bid oi p s v prop (Some "pending") now) (u_name u)).
  simpl. repeat split; auto.
  unfold get_api_bids. run_handler. simpl. unfold select_bids. simpl.
  rewrite filter_app, flat_map_app. simpl. rewrite String.eqb_refl. simpl.
  rewrite (@filter_key_one _ u_id (users (db w)) u s (ok_users Hok) Hin Hkey).
  reflexivity.
Qed.

Lemma bid_listed_after_submission_witness :
  exists row,
    handle (GetBids "p1")
      (snd (post_api_bids
              (mk_bid_body (TString "b1") (TString "p1") (TString "seller_1")
                 (NNumber 4000) (TString "offer")) 7 (start true 0))) =
    (Returned (mk_response 200 (BidList [row])),
     snd (post_api_bids
            (mk_bid_body (TString "b1") (TString "p1") (TString "seller_1")
               (NNumber 4000) (TString "offer")) 7 (start true 0))) /\
    bl_seller_name row = "Sarah Jenkins".
Proof.
  destruct (@bid_listed_after_submission (start true 0)
              (snd (post_api_bids
                      (mk_bid_body (TString "b1") (TString "p1") (TString "seller_1")
                         (NNumber 4000) (TString "offer")) 7 (start true 0)))
              (mk_bid_body (TString "b1") (TString "p1") (TString "seller_1")
                 (NNumber 4000) (TString "offer")) 7 "p1" "seller_1"
              (nth 1 seed_users (mk_user None "" "" "" None None))
              (seeded_ok true 0) eq_refl eq_refl eq_refl eq_refl)
    as (row & Hget & Hname & _).
  exists row. split; [exact Hget|exact Hname].
Defined.

(** A milestone that was accepted is the last row listed for its project,
    with the status pending; the milestones of the other projects are listed
    as before. *)
Theorem milestone_listed_after_creation
    (w w' : world) (rq : milestone_body) (p : string) :
  mb_project_id rq = TString p ->
  post_api_milestones rq w = (Returned (mk_response 201 Success), w') ->
  (exists row,
     handle (GetMilestones p) w' =
       (Returned (mk_response 200
          (MilestoneList (select_milestones (db w) p ++ [row]))), w') /\
     bind_text (mb_id rq) = Returned (ms_id row) /\
     ms_project_id row = p /\
     TString (ms_title row) = mb_title rq /\
     bind_numeric (mb_amount rq) = Returned (ms_amount row) /\
     ms_amount row <> SNull /\
     ms_status row = Some "pending") /\
  (forall q, q <> p ->
     select_milestones (db w') q = select_milestones (db w) q).
Proof.
  intros Hp H. rewrite post_api_milestones_run in H.
  destruct (run_insert_milestone _ _ _ _ _) as [s1|] eqn:E; [|discriminate H].
  inversion H; subst w'; clear H.
  apply run_insert_milestone_returned in E.
  destruct E as (oi & pid & ttl & v & Hi & Hpid & Ht & Hv & Hnn & _ & _ & ->).
  rewrite Hp in Hpid. inversion Hpid; subst pid. split.
  - exists (mk_milestone oi p ttl v (Some "pending")). simpl.
    repeat split; auto.
    unfold get_api_milestones. run_handler. simpl. unfold select_milestones.
    simpl. rewrite filter_app. simpl. now rewrite String.eqb_refl.
  - intros q Hq. unfold select_milestones. simpl. rewrite filter_app. simpl.
    apply not_eq_sym in Hq. apply String.eqb_neq in Hq. rewrite Hq.
    apply app_nil_r.
Qed.

Lemma milestone_listed_after_creation_witness :
  select_milestones
    (db (snd (post_api_milestones
                (mk_milestone_body (TString "k1") (TString "p1")
                   (TString "Kickoff") (NNumber 100)) (start true 0)))) "p2" = [].
Proof.
  exact (proj2 (@milestone_listed_after_creation (start true 0)
                  (snd (post_api_milestones
                          (mk_milestone_body (TString "k1") (TString "p1")
                             (TString "Kickoff") (NNumber 100)) (start true 0)))
                  (mk_milestone_body (TString "k1") (TString "p1")
                     (TString "Kickoff") (NNumber 100)) "p1" eq_refl eq_refl)
           "p2" ltac:(discriminate)).
Defined.

Lemma find_filter_other {A : Type} (f g : A -> bool) (l : list A) (x : A) :
  find f l = Some x -> g x = true -> find f (filter g l) = Some x.
Proof.
  induction l as [|y l IH]; simpl; [discriminate|].
  destruct (f y) eqn:Hf.
  - intros H Hg. inversion H; subst y. rewrite Hg. simpl. now rewrite Hf.
  - intros H Hg. destruct (g y); simpl; [rewrite Hf|]; now apply IH.
Qed.

Lemma find_app_some {A : Type} (f : A -> bool) (l1 l2 : list A) (x : A) :
  find f l1 = Some x -> find f (l1 ++ l2) = Some x.
Proof.
  induction l1 as [|y l1 IH]; simpl; [discriminate|].
  destruct (f y); [auto|exact IH].
Qed.

Lemma get_api_user_run (id : string) (w : world) :
  get_api_user id w =
  match select_user (db w) id with
  | Some u => (Returned (mk_response 200 (UserRecord u)), w)
  | None => (Returned (mk_response 404 (ErrorText "User not found")), w)
  end.
Proof.
  unfold get_api_user. run_handler. now destruct (select_user (db w) id).
Qed.

(** After an accepted upsert under the id i, GET /api/users/i answers the
    row of the request, field by field; a user stored under another id and
    another email is answered as before. *)
Theorem user_fetched_after_upsert
    (w w' : world) (rq : user_body) (i : string) :
  ub_id rq = TString i ->
  post_api_users rq w = (Returned (mk_response 201 Success), w') ->
  (exists row,
     handle (GetUser i) w' = (Returned (mk_response 200 (UserRecord row)), w') /\
     u_id row = Some i /\
     TString (u_name row) = ub_name rq /\
     TString (u_email row) = ub_email rq /\
     TString (u_role row) = ub_role rq /\
     role_ok (u_role row) = true /\
     bind_text (ub_bio rq) = Returned (u_bio row) /\
     bind_text (ub_avatar rq) = Returned (u_avatar row)) /\
  (forall j uj,
     j <> i -> select_user (db w) j = Some uj ->
     TString (u_email uj) <> ub_email rq ->
     handle (GetUser j) w' = (Returned (mk_response 200 (UserRecord uj)), w')).
Proof.
  intros Hi H. rewrite post_api_users_run in H.
  destruct (run_replace_user _ _ _ _ _ _ _) as [s1|] eqn:E; [|discriminate H].
  inversion H; subst w'; clear H.
  apply run_replace_user_returned in E.
  destruct E as (oi & nm & em & rl & ob & oa & Bi & Hn & He & Hr & Bb & Ba
                 & Hrole & ->).
  rewrite Hi in Bi. simpl in Bi. inversion Bi; subst oi. split.
  - exists (mk_user (Some i) nm em rl ob oa). simpl.
    repeat split; auto.
    rewrite get_api_user_run. cbn [db].
    now rewrite select_user_after_upsert.
  - intros j uj Hj Hsel Hmail.
    cbn [handle]. rewrite get_api_user_run. cbn [db].
    assert (Hfind : select_user
              (set_users (db w)
                 (filter (fun u => negb (replaced_by (Some i) em u)) (users (db w)) ++
                  [mk_user (Some i) nm em rl ob oa])) j = Some uj).
    { unfold select_user. simpl. apply find_app_some.
      apply find_filter_other; [exact Hsel|].
      apply find_key_in in Hsel. destruct Hsel as [_ Hk].
      unfold replaced_by. rewrite Hk. simpl.
      assert (H1 : String.eqb j i = false) by now apply String.eqb_neq.
      assert (H2 : String.eqb (u_email uj) em = false).
      { apply String.eqb_neq. intros Heq. apply Hmail. rewrite Heq. now symmetry. }
      now rewrite H1, H2. }
    now rewrite Hfind.
Qed.

Lemma user_fetched_after_upsert_witness :
  handle (GetUser "seller_1")
    (snd (post_api_users (sample_user "u9" "Nina" "nina@example.com" "seller")
            (start true 0))) =
  (Returned (mk_response 200
     (UserRecord (nth 1 seed_users (mk_user None "" "" "" None None)))),
   snd (post_api_users (sample_user "u9" "Nina" "nina@example.com" "seller")
          (start true 0))).
Proof.
  exact (proj2 (@user_fetched_after_upsert (start true 0)
                  (snd (post_api_users
                          (sample_user "u9" "Nina" "nina@example.com" "seller")
                          (start true 0)))
                  (sample_user "u9" "Nina" "nina@example.com" "seller") "u9"
                  eq_refl eq_refl)
           "seller_1" (nth 1 seed_users (mk_user None "" "" "" None None))
           ltac:(discriminate) eq_refl ltac:(discriminate)).
Defined.

(** ** Who writes what *)

Lemma extends_refl {A : Type} (l : list A) : extends l l.
Proof. exists []. now rewrite app_nil_r. Qed.

Lemma extends_trans {A : Type} (l1 l2 l3 : list A) :
  extends l1 l2 -> extends l2 l3 -> extends l1 l3.
Proof. intros [a ->] [b ->]. exists (a ++ b). now rewrite app_assoc. Qed.

Lemma extends_snoc {A : Type} (l : list A) (x : A) : extends l (l ++ [x]).
Proof. now exists [x]. Qed.

Lemma written_by_api_refl (s : store) : written_by_api s s.
Proof. repeat split; apply extends_refl. Qed.

Lemma written_by_api_trans (s1 s2 s3 : store) :
  written_by_api s1 s2 -> written_by_api s2 s3 -> written_by_api s1 s3.
Proof.
  intros (F1 & M1 & Q1 & P1 & B1 & L1) (F2 & M2 & Q2 & P2 & B2 & L2).
  repeat split; try congruence; eapply extends_trans; eauto.
Qed.

Lemma run_insert_project_writes s i b t d lo hi now s' :
  run_insert_project s i b t d lo hi now = Returned s' -> written_by_api s s'.
Proof.
  intros H. apply run_insert_project_returned in H.
  destruct H as (? & ? & ? & ? & ? & ? & _ & _ & _ & _ & _ & _ & _ & _ & ->).
  repeat split; simpl; try apply extends_refl. apply extends_snoc.
Qed.

Lemma run_insert_milestone_writes s i p t a s' :
  run_insert_milestone s i p t a = Returned s' -> written_by_api s s'.
Proof.
  intros H. apply run_insert_milestone_returned in H.
  destruct H as (? & ? & ? & ? & _ & _ & _ & _ & _ & _ & _ & ->).
  repeat split; simpl; try apply extends_refl. apply extends_snoc.
Qed.

Lemma run_insert_bid_writes s i p u a t now s' :
  run_insert_bid s i p u a t now = Returned s' -> written_by_api s s'.
Proof.
  intros H. apply run_insert_bid_returned in H.
  destruct H as (? & ? & ? & ? & ? & _ & _ & _ & _ & _ & _ & _ & _ & _ & ->).
  repeat split; simpl; try apply extends_refl. apply extends_snoc.
Qed.

Lemma run_replace_user_writes s i n e r b a s' :
  run_replace_user s i n e r b a = Returned s' -> written_by_api s s'.
Proof.
  intros H. apply run_replace_user_returned in H.
  destruct H as (? & ? & ? & ? & ? & ? & _ & _ & _ & _ & _ & _ & _ & ->).
  repeat split; simpl; apply extends_refl.
Qed.

(** What a request appends to the trace holds no packet. *)
Lemma handle_effects (r : request) (w : world) :
  written_by_api (db w) (db (snd (handle r w))) /\
  sockets (snd (handle r w)) = sockets w /\
  exists evs, trace (snd (handle r w)) = trace w ++ evs /\
              Forall (fun ev => is_packet ev = false) evs.
Proof.
  destruct r; cbn [handle].
  - repeat split; try apply extends_refl. exists []. now rewrite app_nil_r.
  - rewrite post_api_projects_run.
    destruct (run_insert_project _ _ _ _ _ _ _ _) as [s0|] eqn:E0.
    2:{ split; [apply written_by_api_refl|]. split; [reflexivity|].
        exists []. now rewrite app_nil_r. }
    apply run_insert_project_writes in E0. cbv zeta.
    destruct (run_insert_milestone s0 _ _ _ _) as [s1|] eqn:E1.
    2:{ split; [exact E0|]. split; [reflexivity|].
        eexists. split; [reflexivity|]. repeat constructor. }
    apply run_insert_milestone_writes in E1.
    pose proof (written_by_api_trans E0 E1) as W1.
    destruct (run_insert_milestone s1 _ _ _ _) as [s2|] eqn:E2.
    2:{ split; [exact W1|]. split; [reflexivity|]. cbn [trace].
        eexists. split; [rewrite <- !app_assoc; reflexivity|]. repeat constructor. }
    apply run_insert_milestone_writes in E2.
    pose proof (written_by_api_trans W1 E2) as W2.
    destruct (run_insert_milestone s2 _ _ _ _) as [s3|] eqn:E3.
    2:{ split; [exact W2|]. split; [reflexivity|]. cbn [trace].
        eexists. split; [rewrite <- !app_assoc; reflexivity|]. repeat constructor. }
    apply run_insert_milestone_writes in E3.
    split; [exact (written_by_api_trans W2 E3)|]. split; [reflexivity|]. cbn [trace].
    eexists. split; [rewrite <- !app_assoc; reflexivity|]. repeat constructor.
  - rewrite get_api_user_run. destruct (select_user (db w) id);
      (split; [apply written_by_api_refl|]; split; [reflexivity|];
       exists []; now rewrite app_nil_r).
  - rewrite post_api_users_run.
    destruct (run_replace_user _ _ _ _ _ _ _) eqn:E.
    + apply run_replace_user_writes in E. split; [exact E|]. split; [reflexivity|].
      eexists. split; [reflexivity|]. repeat constructor.
    + split; [apply written_by_api_refl|]. split; [reflexivity|].
      exists []. now rewrite app_nil_r.
  - repeat split; try apply extends_refl. exists []. now rewrite app_nil_r.
  - rewrite post_api_bids_run.
    destruct (run_insert_bid _ _ _ _ _ _ _) eqn:E.
    + apply run_insert_bid_writes in E. split; [exact E|]. split; [reflexivity|].
      eexists. split; [reflexivity|]. repeat constructor.
    + split; [apply written_by_api_refl|]. split; [reflexivity|].
      exists []. now rewrite app_nil_r.
  - repeat split; try apply extends_refl. exists []. now rewrite app_nil_r.
  - rewrite post_api_milestones_run.
    destruct (run_insert_milestone _ _ _ _ _) eqn:E.
    + apply run_insert_milestone_writes in E. split; [exact E|]. split; [reflexivity|].
      eexists. split; [reflexivity|]. repeat constructor.
    + split; [apply written_by_api_refl|]. split; [reflexivity|].
      exists []. now rewrite app_nil_r.
  - rewrite get_api_matchmaking_run.
    destruct (select_project (db w) id).
    + cbv zeta. destruct reply; (split; [apply written_by_api_refl|];
        split; [reflexivity|]; eexists; split; [reflexivity|]; repeat constructor).
    + split; [apply written_by_api_refl|]. split; [reflexivity|].
      exists []. now rewrite app_nil_r.
Qed.

(** What a relay event appends to the trace holds no gateway call. *)
Lemma relay_effects (e : socket_event) (w : world) :
  written_by_relay (db w) (db (snd (relay e w))) /\
  exists evs, trace (snd (relay e w)) = trace w ++ evs /\
              Forall (fun ev => is_advice_call ev = false) evs.
Proof.
  assert (Hsame : written_by_relay (db w) (db w))
    by (repeat split; apply extends_refl).
  destruct e; cbn [relay]; simpl;
    try (split; [exact Hsame|]; exists []; now rewrite app_nil_r).
  rewrite on_send_message_run.
  destruct (run_insert_message _ _ _ _ _) as [s|] eqn:E.
  - pose proof E as E'. apply run_insert_message_returned in E'.
    destruct E' as (a & b & c & Ha & Hb & Hc & ->). cbv zeta. cbn [snd db trace].
    split; [repeat split; simpl; apply extends_snoc|].
    rewrite Hb. eexists. split; [rewrite <- !app_assoc; reflexivity|].
    constructor; [reflexivity|]. apply Forall_app. split.
    + apply Forall_forall. intros ev Hev. apply in_map_iff in Hev.
      destruct Hev as [x [<- _]]. reflexivity.
    + repeat constructor.
  - split; [exact Hsame|]. exists []. now rewrite app_nil_r.
Qed.

(** *** What the API does not read *)

Ltac same_without_messages :=
  intros; bound_fields;
  repeat match goal with
  | o : option string |- _ => destruct o
  | x : sqlval |- _ => destruct x
  | s : store |- _ => destruct s
  end;
  unfold has_project, has_user, has_bid, has_milestone, fk_holds, set_messages,
    set_projects, set_users, set_bids, set_milestones;
  cbn [obind omap not_null not_null_value key_taken foreign_keys users projects
       bids milestones messages messages_seq];
  try reflexivity;
  repeat match goal with
  | |- context [if ?c then _ else _] => destruct c
  end; reflexivity.

Lemma run_insert_project_without_messages s l q i b t d lo hi now :
  run_insert_project (set_messages s l q) i b t d lo hi now =
  omap (fun s' => set_messages s' l q) (run_insert_project s i b t d lo hi now).
Proof.
  unfold run_insert_project, insert_project. same_without_messages.
Qed.

Lemma run_insert_milestone_without_messages s l q i p t a :
  run_insert_milestone (set_messages s l q) i p t a =
  omap (fun s' => set_messages s' l q) (run_insert_milestone s i p t a).
Proof.
  unfold run_insert_milestone, insert_milestone. same_without_messages.
Qed.

Lemma run_insert_bid_without_messages s l q i p u a t now :
  run_insert_bid (set_messages s l q) i p u a t now =
  omap (fun s' => set_messages s' l q) (run_insert_bid s i p u a t now).
Proof.
  unfold run_insert_bid, insert_bid. same_without_messages.
Qed.

Lemma run_replace_user_without_messages s l q i n e r b a :
  run_replace_user (set_messages s l q) i n e r b a =
  omap (fun s' => set_messages s' l q) (run_replace_user s i n e r b a).
Proof.
  unfold run_replace_user, replace_user. same_without_messages.
Qed.

(** The answer of a request and what it does to its four tables are the
    same whatever [messages], the sockets and the trace hold. *)
Lemma handle_without_messages (r : request) (w : world)
    (l : list message_row) (q : Z) (ss : list socket) (tr : list event) :
  let w2 := mk_world (set_messages (db w) l q) ss tr in
  fst (handle r w2) = fst (handle r w) /\
  db (snd (handle r w2)) = set_messages (db (snd (handle r w))) l q.
Proof.
  cbv zeta. destruct r; cbn [handle].
  - split; reflexivity.
  - rewrite !post_api_projects_run. cbn [db].
    rewrite run_insert_project_without_messages.
    destruct (run_insert_project (db w) _ _ _ _ _ _ _) as [s0|]; cbn [omap];
      [|split; reflexivity].
    cbv zeta. rewrite run_insert_milestone_without_messages.
    destruct (run_insert_milestone s0 _ _ _ _) as [s1|]; cbn [omap];
      [|split; reflexivity].
    rewrite run_insert_milestone_without_messages.
    destruct (run_insert_milestone s1 _ _ _ _) as [s2|]; cbn [omap];
      [|split; reflexivity].
    rewrite run_insert_milestone_without_messages.
    destruct (run_insert_milestone s2 _ _ _ _) as [s3|]; cbn [omap];
      split; reflexivity.
  - rewrite !get_api_user_run. cbn [db].
    change (select_user (set_messages (db w) l q) id) with (select_user (db w) id).
    destruct (select_user (db w) id); split; reflexivity.
  - rewrite !post_api_users_run. cbn [db].
    rewrite run_replace_user_without_messages.
    destruct (run_replace_user (db w) _ _ _ _ _ _); cbn [omap]; split; reflexivity.
  - split; reflexivity.
  - rewrite !post_api_bids_run. cbn [db].
    rewrite run_insert_bid_without_messages.
    destruct (run_insert_bid (db w) _ _ _ _ _ _); cbn [omap]; split; reflexivity.
  - split; reflexivity.
  - rewrite !post_api_milestones_run. cbn [db].
    rewrite run_insert_milestone_without_messages.
    destruct (run_insert_milestone (db w) _ _ _ _); cbn [omap]; split; reflexivity.
  - rewrite !get_api_matchmaking_run. cbn [db].
    change (select_project (set_messages (db w) l q) id)
      with (select_project (db w) id).
    destruct (select_project (db w) id); [destruct reply|]; split; reflexivity.
Qed.

(** The HTTP API and the relay keep to their own tables.  No request writes
    [messages], touches a socket or sends a packet, and none reads them: its
    answer and what it does to the other tables are the same whatever
    [messages], the sockets and the trace hold.  No socket event changes
    [users], [projects], [bids] or [milestones] or calls the gateway; the
    relay only adds rows to [messages]. *)
Theorem api_and_relay_are_separate :
  (forall (r : request) (w : world),
     messages (db (snd (handle r w))) = messages (db w) /\
     messages_seq (db (snd (handle r w))) = messages_seq (db w) /\
     sockets (snd (handle r w)) = sockets w /\
     filter is_packet (emitted w (snd (handle r w))) = []) /\
  (forall (r : request) (w : world) (l : list message_row) (q : Z)
          (ss : list socket) (tr : list event),
     let w2 := mk_world (set_messages (db w) l q) ss tr in
     fst (handle r w2) = fst (handle r w) /\
     db (snd (handle r w2)) = set_messages (db (snd (handle r w))) l q) /\
  (forall (e : socket_event) (w : world),
     users (db (snd (relay e w))) = users (db w) /\
     projects (db (snd (relay e w))) = projects (db w) /\
     bids (db (snd (relay e w))) = bids (db w) /\
     milestones (db (snd (relay e w))) = milestones (db w) /\
     extends (messages (db w)) (messages (db (snd (relay e w)))) /\
     filter is_advice_call (emitted w (snd (relay e w))) = []).
Proof.
  split; [|split].
  - intros r w. destruct (handle_effects r w) as ((_ & M & Q & _) & S & evs & T & F).
    repeat split; auto. rewrite (@emitted_app _ _ evs T).
    apply filter_none. intros x Hx. rewrite Forall_forall in F. auto.
  - exact handle_without_messages.
  - intros e w. destruct (relay_effects e w) as ((_ & U & P & B & L & X) & evs & T & F).
    repeat split; auto. rewrite (@emitted_app _ _ evs T).
    apply filter_none. intros x Hx. rewrite Forall_forall in F. auto.
Qed.

(** ** Start-up *)

#[local] Arguments seed_projects : simpl never.
#[local] Arguments seed_users : simpl never.

Lemma user_conflicts_app (l x : list user_row) (r : user_row) :
  user_conflicts l r = true -> user_conflicts (l ++ x) r = true.
Proof.
  unfold user_conflicts. intros H. apply orb_true_iff in H.
  apply orb_true_iff. destruct H as [H|H].
  - left. destruct (u_id r); simpl in *; [|discriminate].
    rewrite has_key_app, H. reflexivity.
  - right. rewrite existsb_app, H. reflexivity.
Qed.

Lemma insert_or_ignore_user_extends (l : list user_row) (r : user_row) :
  extends l (insert_or_ignore_user l r).
Proof.
  unfold insert_or_ignore_user. destruct (user_conflicts l r);
    [apply extends_refl|apply extends_snoc].
Qed.

Lemma seed_users_extend (rows l : list user_row) :
  extends l (fold_left insert_or_ignore_user rows l).
Proof.
  revert l. induction rows as [|r rows IH]; simpl; intros l; [apply extends_refl|].
  eapply extends_trans; [apply insert_or_ignore_user_extends|apply IH].
Qed.

Lemma seed_users_then_conflict (rows l : list user_row) (r : user_row) :
  In r rows -> user_conflicts (fold_left insert_or_ignore_user rows l) r = true.
Proof.
  revert l. induction rows as [|x rows IH]; simpl; intros l Hin; [contradiction|].
  destruct Hin as [->|Hin]; [|now apply IH].
  destruct (seed_users_extend rows (insert_or_ignore_user l r)) as [added ->].
  apply user_conflicts_app. unfold insert_or_ignore_user.
  destruct (user_conflicts l r) eqn:Hc; [exact Hc|].
  unfold user_conflicts. rewrite existsb_app. simpl.
  rewrite String.eqb_refl. now rewrite !orb_true_r.
Qed.

Lemma seed_users_all_ignored (rows l : list user_row) :
  (forall r, In r rows -> user_conflicts l r = true) ->
  fold_left insert_or_ignore_user rows l = l.
Proof.
  induction rows as [|r rows IH]; simpl; intros H; [reflexivity|].
  unfold insert_or_ignore_user at 2. rewrite (H r (or_introl eq_refl)).
  apply IH. intros x Hx. apply H. now right.
Qed.

Lemma seed_users_keep_unique (rows l : list user_row) :
  keys_unique u_id l -> NoDup (map u_email l) ->
  keys_unique u_id (fold_left insert_or_ignore_user rows l) /\
  NoDup (map u_email (fold_left insert_or_ignore_user rows l)).
Proof.
  revert l. induction rows as [|r rows IH]; simpl; intros l Hk He; [now split|].
  unfold insert_or_ignore_user at 2 4. destruct (user_conflicts l r) eqn:Hc;
    [now apply IH|].
  unfold user_conflicts in Hc. apply orb_false_iff in Hc. destruct Hc as [Hid Hem].
  apply IH.
  - now apply keys_unique_snoc.
  - rewrite map_app. simpl. apply NoDup_app; [exact He|repeat constructor; intros []|].
    intros x Hx [<-|[]]. rewrite <- not_true_iff_false in Hem. apply Hem.
    apply in_map_iff in Hx. destruct Hx as [u [Hu Hin]].
    apply existsb_exists. exists u. split; [exact Hin|]. now apply String.eqb_eq.
Qed.

Lemma insert_or_ignore_project_extends (l : list project_row) (p : project_row) :
  extends l (insert_or_ignore_project l p).
Proof.
  unfold insert_or_ignore_project. destruct (project_conflicts l p);
    [apply extends_refl|apply extends_snoc].
Qed.

Lemma seed_projects_extend (rows l : list project_row) :
  extends l (fold_left insert_or_ignore_project rows l).
Proof.
  revert l. induction rows as [|r rows IH]; simpl; intros l; [apply extends_refl|].
  eapply extends_trans; [apply insert_or_ignore_project_extends|apply IH].
Qed.

Lemma seed_projects_then_present (rows l : list project_row) (p : project_row)
    (k : string) :
  In p rows -> p_id p = Some k ->
  has_key p_id (fold_left insert_or_ignore_project rows l) k = true.
Proof.
  revert l. induction rows as [|x rows IH]; simpl; intros l Hin Hk; [contradiction|].
  destruct Hin as [->|Hin]; [|now apply IH].
  destruct (seed_projects_extend rows (insert_or_ignore_project l p)) as [added ->].
  rewrite has_key_app. apply orb_true_iff. left.
  unfold insert_or_ignore_project, project_conflicts. rewrite Hk. simpl.
  destruct (has_key p_id l k) eqn:Hc; [exact Hc|].
  rewrite has_key_app. simpl. rewrite Hk. simpl. rewrite String.eqb_refl.
  now rewrite !orb_true_r.
Qed.

Lemma seed_projects_all_ignored (rows l : list project_row) :
  (forall p, In p rows -> project_conflicts l p = true) ->
  fold_left insert_or_ignore_project rows l = l.
Proof.
  induction rows as [|r rows IH]; simpl; intros H; [reflexivity|].
  unfold insert_or_ignore_project at 2. rewrite (H r (or_introl eq_refl)).
  apply IH. intros x Hx. apply H. now right.
Qed.

Lemma seed_projects_keep_unique (rows l : list project_row) :
  keys_unique p_id l -> keys_unique p_id (fold_left insert_or_ignore_project rows l).
Proof.
  revert l. induction rows as [|r rows IH]; simpl; intros l Hk; [exact Hk|].
  apply IH. unfold insert_or_ignore_project.
  destruct (project_conflicts l r) eqn:Hc; [exact Hk|].
  now apply keys_unique_snoc.
Qed.

Lemma initialize_run (now : Z) (w : world) :
  initialize now w =
  let s1 := set_users (db w) (fold_left insert_or_ignore_user seed_users (users (db w))) in
  match seed_projects_statement now s1 with
  | Returned s2 =>
      (Returned tt,
       mk_world s2 (sockets w) ((trace w ++ [Wrote Users]) ++ [Wrote Projects]))
  | Thrown e => (Thrown e, mk_world s1 (sockets w) (trace w ++ [Wrote Users]))
  end.
Proof.
  unfold initialize. run_handler. unfold seed_users_statement. cbn [db sockets trace].
  destruct (seed_projects_statement now _); reflexivity.
Qed.

Lemma seed_projects_statement_returned (now : Z) (s s' : store) :
  seed_projects_statement now s = Returned s' ->
  exists added,
    fold_left insert_or_ignore_project (seed_projects now) (projects s) =
      projects s ++ added /\
    s' = set_projects s (projects s ++ added) /\
    (foreign_keys s = true ->
     forall p, In p added -> has_user s (p_buyer_id p) = true).
Proof.
  unfold seed_projects_statement. intros H.
  destruct (seed_projects_extend (seed_projects now) (projects s)) as [added Hadd].
  rewrite Hadd in H. rewrite skipn_app, skipn_all, Nat.sub_diag in H. simpl in H.
  exists added. split; [exact Hadd|].
  destruct (foreign_keys s && _) eqn:Hc; [discriminate|]. inversion H; subst s'.
  split; [reflexivity|]. intros Hon p Hin. rewrite Hon in Hc. simpl in Hc.
  rewrite <- not_true_iff_false in Hc.
  destruct (has_user s (p_buyer_id p)) eqn:Hu; [reflexivity|].
  exfalso. apply Hc. apply existsb_exists. exists p. split; [exact Hin|].
  now rewrite Hu.
Qed.

Lemma has_key_extends {A : Type} (key : A -> option string) (l l' : list A)
    (k : string) :
  extends l l' -> has_key key l k = true -> has_key key l' k = true.
Proof. intros [added ->] H. rewrite has_key_app, H. reflexivity. Qed.

Lemma initialize_preserves_store_ok (now : Z) : preserves store_ok (initialize now).
Proof.
  intros w [Hu He Hp Hb Hm Hr]. rewrite initialize_run. cbv zeta.
  set (us := fold_left insert_or_ignore_user seed_users (users (db w))).
  assert (Hext : extends (users (db w)) us) by apply seed_users_extend.
  destruct (seed_users_keep_unique seed_users Hu He) as [Hu' He'].
  assert (Hok1 : store_ok (set_users (db w) us)).
  { constructor; simpl; auto. intros Hon. destruct (Hr Hon) as (Rp & Rb & Rm).
    unfold references_hold, has_user, has_project in *. simpl.
    split; [|split]; auto.
    - intros p Hin. eapply has_key_extends; eauto.
    - intros b Hin. destruct (Rb b Hin). split; auto.
      eapply has_key_extends; eauto. }
  destruct (seed_projects_statement now (set_users (db w) us)) as [s2|] eqn:E;
    [|exact Hok1].
  apply seed_projects_statement_returned in E.
  destruct E as (added & Hfold & -> & Hfk).
  destruct Hok1 as [Hu1 He1 Hp1 Hb1 Hm1 Hr1].
  cbn [snd db users projects bids milestones foreign_keys set_users set_projects] in *.
  constructor;
    cbn [users projects bids milestones foreign_keys set_users set_projects]; auto.
  - rewrite <- Hfold. now apply seed_projects_keep_unique.
  - intros Hon. destruct (Hr1 Hon) as (Rp & Rb & Rm).
    unfold references_hold, has_user, has_project in *.
    cbn [users projects bids milestones foreign_keys set_users set_projects] in *.
    split; [|split].
    + intros p Hin. apply in_app_or in Hin. destruct Hin as [Hin|Hin]; auto.
    + intros b Hin. destruct (Rb b Hin). split; auto.
      rewrite has_key_app. apply orb_true_iff. now left.
    + intros m Hin. rewrite has_key_app. apply orb_true_iff. left. auto.
Qed.

Lemma initialize_on_empty (fk : bool) (now : Z) :
  initialize now (mk_world (empty_store fk) [] []) =
  (Returned tt, mk_world (seeded fk now) [] [Wrote Users; Wrote Projects]).
Proof. rewrite initialize_run. destruct fk; reflexivity. Qed.

(** Start-up creates the seed rows in an empty file, leaves every row that
    is already stored as it is, and changes nothing when it runs again. *)
Theorem initialize_seeds_once :
  (forall (fk : bool) (now : Z),
     initialize now (mk_world (empty_store fk) [] []) =
     (Returned tt, mk_world (seeded fk now) [] [Wrote Users; Wrote Projects])) /\
  (forall (now : Z) (w : world),
     extends (users (db w)) (users (db (snd (initialize now w)))) /\
     extends (projects (db w)) (projects (db (snd (initialize now w)))) /\
     bids (db (snd (initialize now w))) = bids (db w) /\
     milestones (db (snd (initialize now w))) = milestones (db w) /\
     messages (db (snd (initialize now w))) = messages (db w)) /\
  (forall (t1 t2 : Z) (w : world),
     fst (initialize t1 w) = Returned tt ->
     fst (initialize t2 (snd (initialize t1 w))) = Returned tt /\
     db (snd (initialize t2 (snd (initialize t1 w)))) = db (snd (initialize t1 w))).
Proof.
  split; [|split].
  - exact initialize_on_empty.
  - intros now w. rewrite initialize_run. cbv zeta.
    destruct (seed_projects_statement now _) as [s2|] eqn:E.
    + apply seed_projects_statement_returned in E.
      destruct E as (added & _ & -> & _).
      cbn [snd db users projects bids milestones messages set_users set_projects].
      repeat split; auto; [apply seed_users_extend|now exists added].
    + cbn [snd db users projects bids milestones messages set_users set_projects].
      repeat split; auto; [apply seed_users_extend|apply extends_refl].
  - intros t1 t2 w. rewrite (initialize_run t1 w). cbv zeta.
    destruct (seed_projects_statement t1 _) as [s2|] eqn:E; [|discriminate].
    intros _. cbn [snd fst]. rewrite initialize_run. cbn [db sockets trace]. cbv zeta.
    apply seed_projects_statement_returned in E.
    destruct E as (added & Hfold & -> & _).
    cbn [projects set_users] in Hfold. cbn [users set_projects].
    cbn [users set_users].
    rewrite (@seed_users_all_ignored seed_users
               (fold_left insert_or_ignore_user seed_users (users (db w))));
      [|intros r Hr; now apply seed_users_then_conflict].
    assert (Hsame : seed_projects_statement t2
              (set_users
                 (set_projects
                    (set_users (db w)
                       (fold_left insert_or_ignore_user seed_users (users (db w))))
                    (projects (db w) ++ added))
                 (fold_left insert_or_ignore_user seed_users (users (db w)))) =
            Returned
              (set_projects
                 (set_users (db w)
                    (fold_left insert_or_ignore_user seed_users (users (db w))))
                 (projects (db w) ++ added))).
    { unfold seed_projects_statement. cbn [projects set_users set_projects].
      assert (H1 : has_key p_id (projects (db w) ++ added) "p1" = true).
      { rewrite <- Hfold.
        apply (@seed_projects_then_present (seed_projects t1) (projects (db w))
                 (nth 0 (seed_projects t1) (mk_project None "" "" "" SNull SNull None 0)));
          [now left|reflexivity]. }
      assert (H2 : has_key p_id (projects (db w) ++ added) "p2" = true).
      { rewrite <- Hfold.
        apply (@seed_projects_then_present (seed_projects t1) (projects (db w))
                 (nth 1 (seed_projects t1) (mk_project None "" "" "" SNull SNull None 0)));
          [right; now left|reflexivity]. }
      rewrite seed_projects_all_ignored.
      - rewrite skipn_all. cbn [existsb]. now rewrite andb_false_r.
      - intros p Hin. unfold seed_projects in Hin.
        destruct Hin as [<-|[<-|[]]]; unfold project_conflicts;
          cbn [p_id key_taken]; assumption. }
    change (projects
              (set_users (db w)
                 (fold_left insert_or_ignore_user seed_users (users (db w)))))
      with (projects (db w)).
    rewrite Hsame. split; reflexivity.
Qed.

Lemma initialize_seeds_once_witness :
  db (snd (initialize 9 (snd (initialize 0 (mk_world (empty_store true) [] []))))) =
  seeded true 0.
Proof.
  exact (proj2 (proj2 (proj2 initialize_seeds_once) 0 9
                  (mk_world (empty_store true) [] []) eq_refl)).
Defined.

(** ** Every reachable store *)

Lemma step_http (r : request) (w : world) :
  step (Http r) w = (Returned tt, snd (handle r w)).
Proof.
  cbn [step]. unfold bind, ret.
  destruct (handle_returns r w) as (resp & Hr & _).
  destruct (handle r w) as [o w']. simpl in *. now subst o.
Qed.

Lemma store_ok_same_tables (s s' : store) :
  written_by_relay s s' -> store_ok s -> store_ok s'.
Proof.
  intros (F & U & P & B & L & _) [Hu He Hp Hb Hm Hr].
  constructor; rewrite ?U, ?P, ?B, ?L; auto.
  rewrite F. intros Hon. unfold references_hold, has_user, has_project.
  rewrite U, P, B, L. exact (Hr Hon).
Qed.

Lemma step_preserves_store_ok (i : input) : preserves store_ok (step i).
Proof.
  intros w Hok. destruct i as [r|e].
  - rewrite step_http. now apply handle_preserves_store_ok.
  - cbn [step]. destruct (relay_effects e w) as [Hw _].
    eapply store_ok_same_tables; eauto.
Qed.

Lemma messages_ok_snoc (s : store) (a b c : string) (now : Z) :
  messages_ok s ->
  messages_ok (set_messages s
    (messages s ++ [mk_message (messages_seq s + 1) a b c now])
    (messages_seq s + 1)).
Proof.
  intros [Hs Hb]. split; simpl.
  - rewrite map_app. simpl.
    assert (Hall : Forall (fun x => x < messages_seq s + 1) (map m_id (messages s))).
    { apply Forall_forall. intros x Hx. apply in_map_iff in Hx.
      destruct Hx as [m [<- Hm]]. rewrite Forall_forall in Hb.
      specialize (Hb m Hm). lia. }
    clear Hb. induction (map m_id (messages s)) as [|x l IH]; simpl.
    + repeat constructor.
    + inversion Hs; subst. inversion Hall; subst. constructor; [now apply IH|].
      apply Forall_app. split; [assumption|]. now repeat constructor.
  - apply Forall_app. split.
    + eapply Forall_impl; [|exact Hb]. simpl. intros; lia.
    + repeat constructor. simpl. lia.
Qed.

Lemma step_preserves_messages_ok (i : input) : preserves messages_ok (step i).
Proof.
  intros w Hok. destruct i as [r|e].
  - rewrite step_http. cbn [snd].
    destruct (handle_effects r w) as ((_ & M & Q & _) & _).
    unfold messages_ok. now rewrite M, Q.
  - cbn [step]. destruct e; cbn [relay]; simpl; try exact Hok.
    rewrite on_send_message_run.
    destruct (run_insert_message _ _ _ _ _) as [s|] eqn:E; [|exact Hok].
    apply run_insert_message_returned in E.
    destruct E as (a & b & c & _ & _ & _ & ->). cbv zeta. cbn [snd db].
    now apply messages_ok_snoc.
Qed.

Lemma initialize_keeps_messages (now : Z) (w : world) :
  messages (db (snd (initialize now w))) = messages (db w) /\
  messages_seq (db (snd (initialize now w))) = messages_seq (db w) /\
  foreign_keys (db (snd (initialize now w))) = foreign_keys (db w).
Proof.
  rewrite initialize_run. cbv zeta.
  destruct (seed_projects_statement now _) as [s2|] eqn:E.
  - apply seed_projects_statement_returned in E.
    destruct E as (added & _ & -> & _). repeat split.
  - repeat split.
Qed.

Lemma step_keeps_pragma (i : input) (w : world) :
  foreign_keys (db (snd (step i w))) = foreign_keys (db w).
Proof.
  destruct i as [r|e].
  - rewrite step_http. now destruct (handle_effects r w) as ((F & _) & _).
  - cbn [step]. now destruct (relay_effects e w) as ((F & _) & _).
Qed.

Lemma NoDup_of_increasing (l : list Z) : StronglySorted Z.lt l -> NoDup l.
Proof.
  induction 1 as [|x l _ IH Hall]; constructor; [|exact IH].
  intros Hin. rewrite Forall_forall in Hall. specialize (Hall x Hin). lia.
Qed.

(** In every world the server can reach from an empty file, through inputs
    and restarts, no two rows of a table share a primary key, no two users
    share an email, every project, bid and milestone has its parent rows when
    the foreign keys are enforced, and the ids of the messages are distinct
    and increasing. *)
Theorem reachable_store_ok (fk : bool) (w : world) :
  reachable fk w ->
  foreign_keys (db w) = fk /\
  store_ok (db w) /\
  messages_ok (db w) /\
  NoDup (map m_id (messages (db w))).
Proof.
  intros Hreach.
  assert (H : foreign_keys (db w) = fk /\ store_ok (db w) /\ messages_ok (db w)).
  { induction Hreach as [now|w i _ (F & S & Mk)|w now _ (F & S & Mk)].
    - rewrite initialize_on_empty. cbn [snd db].
      split; [reflexivity|]. split; [apply seeded_ok|].
      split; simpl; constructor.
    - split; [now rewrite step_keeps_pragma|].
      split; [now apply step_preserves_store_ok|now apply step_preserves_messages_ok].
    - destruct (initialize_keeps_messages now (mk_world (db w) [] (trace w)))
        as (M & Q & F').
      split; [now rewrite F'|].
      split; [now apply initialize_preserves_store_ok|].
      unfold messages_ok. now rewrite M, Q. }
  destruct H as (F & S & Mk).
  split; [exact F|]. split; [exact S|]. split; [exact Mk|].
  apply NoDup_of_increasing. apply Mk.
Qed.

Lemma reachable_store_ok_witness :
  store_ok
    (db (snd (step (Http (PostUsers (sample_user "u2" "N" "n@example.com" "seller")))
                (snd (initialize 0 (mk_world (empty_store true) [] [])))))).
Proof.
  exact (proj1 (proj2 (@reachable_store_ok true _
           (reach_step (Http (PostUsers (sample_user "u2" "N" "n@example.com" "seller")))
              (reach_boot true 0))))).
Defined.

Lemma grows_refl (s : store) : grows s s.
Proof. repeat split; apply extends_refl. Qed.

Lemma grows_trans (s1 s2 s3 : store) : grows s1 s2 -> grows s2 s3 -> grows s1 s3.
Proof.
  intros (P1 & B1 & L1 & M1) (P2 & B2 & L2 & M2).
  repeat split; eapply extends_trans; eauto.
Qed.

Lemma step_grows (i : input) (w : world) : grows (db w) (db (snd (step i w))).
Proof.
  destruct i as [r|e].
  - rewrite step_http. cbn [snd].
    destruct (handle_effects r w) as ((_ & M & _ & P & B & L) & _).
    repeat split; auto. rewrite M. apply extends_refl.
  - cbn [step]. destruct (relay_effects e w) as ((_ & _ & P & B & L & M) & _).
    repeat split; auto; rewrite ?P, ?B, ?L; apply extends_refl.
Qed.

Lemma run_inputs_grows (l : list input) (w : world) :
  grows (db w) (db (run_inputs l w)).
Proof.
  revert w. induction l as [|i l IH]; intros w; simpl; [apply grows_refl|].
  pose proof (step_grows i w) as Hs.
  destruct (step i w) as [[u|e] w1]; simpl in Hs; [|exact Hs].
  eapply grows_trans; [exact Hs|apply IH].
Qed.

(** Nothing is ever deleted from or changed in [projects], [bids],
    [milestones] and [messages]: whatever inputs the server handles, each of
    these tables is the table it was with rows added at the end, so a row
    that was stored stays stored. *)
Theorem tables_only_grow (l : list input) (w : world) :
  grows (db w) (db (run_inputs l w)) /\
  (forall p, In p (projects (db w)) -> In p (projects (db (run_inputs l w)))) /\
  (forall b, In b (bids (db w)) -> In b (bids (db (run_inputs l w)))) /\
  (forall m, In m (milestones (db w)) -> In m (milestones (db (run_inputs l w)))) /\
  (forall m, In m (messages (db w)) -> In m (messages (db (run_inputs l w)))).
Proof.
  pose proof (run_inputs_grows l w) as H. split; [exact H|].
  destruct H as ([a ->] & [b ->] & [c ->] & [d ->]).
  repeat split; intros x Hx; apply in_or_app; now left.
Qed.

(** [users] is the one table where a stored row can disappear. *)
Example users_do_not_only_grow :
  exists i w,
    In (nth 1 seed_users (mk_user None "" "" "" None None)) (users (db w)) /\
    ~ In (nth 1 seed_users (mk_user None "" "" "" None None))
         (users (db (run_inputs [i] w))).
Proof.
  exists (Http (PostUsers (sample_user "u2" "N" "sarah@hrconsulting.com" "seller"))),
         (start true 0).
  split; [right; now left|].
  vm_compute. intros [H|[H|[]]]; discriminate.
Qed.

(** ** Refused writes *)

Ltac lacking H :=
  repeat match type of H with
  | _ || _ = true => apply orb_prop in H; destruct H as [H|H]
  end;
  match goal with
  | N : ?a = true -> _ |- _ =>
      match type of H with a = true => rewrite (N H) end
  end;
  repeat match goal with
  | o : option string |- _ => destruct o
  | x : sqlval |- _ => destruct x
  end;
  cbn [obind not_null not_null_value]; eauto.

Lemma run_insert_project_lacking s i b t d lo hi now :
  absent b || absent t || absent d = true ->
  exists col, run_insert_project s i b t d lo hi now =
              Thrown (NotNullFailed Projects col).
Proof.
  intros H. unfold run_insert_project, insert_project. bound_fields. lacking H.
Qed.

Lemma run_replace_user_lacking s i n e r b a :
  absent n || absent e || absent r = true ->
  exists col, run_replace_user s i n e r b a = Thrown (NotNullFailed Users col).
Proof.
  intros H. unfold run_replace_user, replace_user. bound_fields. lacking H.
Qed.

Lemma run_insert_bid_lacking s i p u a t now :
  absent p || absent u || absent_number a || absent t = true ->
  exists col, run_insert_bid s i p u a t now = Thrown (NotNullFailed Bids col).
Proof.
  intros H. unfold run_insert_bid, insert_bid. bound_fields. lacking H.
Qed.

Lemma run_insert_milestone_lacking s i p t a :
  absent p || absent t || absent_number a = true ->
  exists col, run_insert_milestone s i p t a =
              Thrown (NotNullFailed Milestones col).
Proof.
  intros H. unfold run_insert_milestone, insert_milestone. bound_fields. lacking H.
Qed.

(** A write request that lacks a field of a NOT NULL column (it is missing
    from the body or null) is answered 500 with the NOT NULL failure of the
    table it writes, and writes nothing, whatever the other fields hold. *)
Theorem missing_required_field_is_refused (r : request) (w : world) :
  lacks_required_field r = true ->
  exists col,
    handle r w =
    (Returned (mk_response 500 (ErrorMessage (NotNullFailed (table_of r) col))), w).
Proof.
  destruct r as [|rq u1 u2 u3 now| |rq| |rq now| |rq|]; try discriminate;
    intros H; cbn [handle table_of]; cbn [lacks_required_field] in H.
  - rewrite post_api_projects_run.
    destruct (run_insert_project_lacking (db w) (pb_id rq) _ _ _
                (pb_budget_min rq) (pb_budget_max rq) now H) as [col ->]. eauto.
  - rewrite post_api_users_run.
    destruct (run_replace_user_lacking (db w) (ub_id rq) _ _ _
                (ub_bio rq) (ub_avatar rq) H) as [col ->]. eauto.
  - rewrite post_api_bids_run.
    destruct (run_insert_bid_lacking (db w) (bb_id rq) _ _ _ _ now H) as [col ->].
    eauto.
  - rewrite post_api_milestones_run.
    destruct (run_insert_milestone_lacking (db w) (mb_id rq) _ _ _ H) as [col ->].
    eauto.
Qed.

Lemma missing_required_field_is_refused_witness :
  exists col,
    handle (PostUsers (mk_user_body (TString "u2") (TString "N")
                         TUndefined (TString "seller") TUndefined TNull))
      (start true 0) =
    (Returned (mk_response 500 (ErrorMessage (NotNullFailed Users col))),
     start true 0).
Proof.
  exact (@missing_required_field_is_refused
           (PostUsers (mk_user_body (TString "u2") (TString "N")
                         TUndefined (TString "seller") TUndefined TNull))
           (start true 0) eq_refl).
Defined.

(** A field of a column that may be NULL can be left out: a user without id,
    bio and avatar is stored with NULL there. *)
Example user_without_bio_is_stored :
  let run := handle (PostUsers (mk_user_body TUndefined (TString "N")
                       (TString "n@example.com") (TString "seller")
                       TUndefined TUndefined)) (start true 0) in
  fst run = Returned (mk_response 201 Success) /\
  users (db (snd run)) =
    seed_users ++ [mk_user None "N" "n@example.com" "seller" None None].
Proof. split; reflexivity. Qed.

(** POST /api/projects, /api/bids and /api/milestones never store a second
    row under an id that is already in their table: the answer is 500 and the
    world is as it was. *)
Theorem taken_id_is_refused (w : world) (i : string) :
  (forall rq u1 u2 u3 now,
     pb_id rq = TString i -> has_project (db w) i = true ->
     exists e, handle (PostProjects rq u1 u2 u3 now) w =
               (Returned (mk_response 500 (ErrorMessage e)), w)) /\
  (forall rq now,
     bb_id rq = TString i -> has_bid (db w) i = true ->
     exists e, handle (PostBids rq now) w =
               (Returned (mk_response 500 (ErrorMessage e)), w)) /\
  (forall rq,
     mb_id rq = TString i -> has_milestone (db w) i = true ->
     exists e, handle (PostMilestones rq) w =
               (Returned (mk_response 500 (ErrorMessage e)), w)).
Proof.
  split; [|split].
  - intros rq u1 u2 u3 now Hi Htaken. cbn [handle]. rewrite post_api_projects_run.
    destruct (run_insert_project _ _ _ _ _ _ _ _) as [s0|e] eqn:E; [|eauto].
    exfalso. apply run_insert_project_returned in E.
    destruct E as (oi & ? & ? & ? & ? & ? & Bi & _ & _ & _ & _ & _ & Hfree & _).
    rewrite Hi in Bi. inversion Bi; subst oi. simpl in Hfree. congruence.
  - intros rq now Hi Htaken. cbn [handle]. rewrite post_api_bids_run.
    destruct (run_insert_bid _ _ _ _ _ _ _) as [s0|e] eqn:E; [|eauto].
    exfalso. apply run_insert_bid_returned in E.
    destruct E as (oi & ? & ? & ? & ? & Bi & _ & _ & _ & _ & _ & Hfree & _).
    rewrite Hi in Bi. inversion Bi; subst oi. simpl in Hfree. congruence.
  - intros rq Hi Htaken. cbn [handle]. rewrite post_api_milestones_run.
    destruct (run_insert_milestone _ _ _ _ _) as [s0|e] eqn:E; [|eauto].
    exfalso. apply run_insert_milestone_returned in E.
    destruct E as (oi & ? & ? & ? & Bi & _ & _ & _ & _ & Hfree & _).
    rewrite Hi in Bi. inversion Bi; subst oi. simpl in Hfree. congruence.
Qed.

Lemma taken_id_is_refused_witness :
  exists e,
    handle (PostProjects (sample_project (NNumber 10)) "m1" "m2" "m3" 2)
      (snd (post_api_projects (sample_project (NNumber 1000)) "a" "b" "c" 1
              (start true 0))) =
    (Returned (mk_response 500 (ErrorMessage e)),
     snd (post_api_projects (sample_project (NNumber 1000)) "a" "b" "c" 1
            (start true 0))).
Proof.
  exact (proj1 (@taken_id_is_refused
                  (snd (post_api_projects (sample_project (NNumber 1000)) "a" "b" "c" 1
                          (start true 0))) "X")
           (sample_project (NNumber 10)) "m1" "m2" "m3" 2 eq_refl eq_refl).
Defined.

(** ** Upserting twice *)

Lemma filter_all {A : Type} (f : A -> bool) (l : list A) :
  (forall x, In x l -> f x = true) -> filter f l = l.
Proof.
  induction l as [|x l IH]; simpl; intros H; [reflexivity|].
  rewrite (H x (or_introl eq_refl)). f_equal. apply IH. intros y Hy. apply H. now right.
Qed.

Lemma replace_user_again db i n e r b a db' :
  replace_user db i n e r b a = Returned db' ->
  replace_user db' i n e r b a = Returned db'.
Proof.
  intros H. apply replace_user_returned in H.
  destruct H as (nm & em & rl & -> & -> & -> & Hrole & Hdb & _). cbv zeta in Hdb.
  set (kept := filter (fun u => negb (replaced_by i em u)) (users db)) in *.
  set (row := mk_user i nm em rl b a) in *.
  assert (Hrow : replaced_by i em row = true).
  { unfold replaced_by, row. simpl. rewrite String.eqb_refl. apply orb_true_r. }
  assert (Hkept : forall u, In u kept -> replaced_by i em u = false).
  { intros u Hu. apply filter_In in Hu. destruct Hu as [_ Hu].
    now apply negb_true_iff in Hu. }
  assert (Hrem : filter (replaced_by i em) (kept ++ [row]) = [row]).
  { rewrite filter_app, filter_none by exact Hkept. simpl. now rewrite Hrow. }
  assert (Hstay : filter (fun u => negb (replaced_by i em u)) (kept ++ [row]) = kept).
  { rewrite filter_app, filter_all.
    - simpl. rewrite Hrow. simpl. apply app_nil_r.
    - intros u Hu. now rewrite (Hkept u Hu). }
  assert (Horph : forall k, orphaned [row] (kept ++ [row]) k = false).
  { intros k. unfold orphaned. rewrite has_key_app.
    destruct (has_key u_id [row] k); [|reflexivity].
    now rewrite orb_true_r. }
  subst db'. unfold replace_user. simpl. rewrite Hrole. simpl.
  fold row. rewrite Hrem, Hstay.
  assert (H1 : existsb (fun p => orphaned [row] (kept ++ [row]) (p_buyer_id p))
                 (projects db) = false).
  { apply not_true_iff_false. intros H. apply existsb_exists in H.
    destruct H as [p [_ Hp]]. now rewrite Horph in Hp. }
  assert (H2 : existsb (fun x => orphaned [row] (kept ++ [row]) (b_seller_id x))
                 (bids db) = false).
  { apply not_true_iff_false. intros H. apply existsb_exists in H.
    destruct H as [p [_ Hp]]. now rewrite Horph in Hp. }
  rewrite H1, H2, andb_false_r. reflexivity.
Qed.

(** An upsert that was accepted can be sent again: it is accepted again and
    the store is exactly the store after the first one. *)
Theorem upsert_is_idempotent (w : world) (rq : user_body) :
  fst (post_api_users rq w) = Returned (mk_response 201 Success) ->
  fst (post_api_users rq (snd (post_api_users rq w))) =
    Returned (mk_response 201 Success) /\
  db (snd (post_api_users rq (snd (post_api_users rq w)))) =
    db (snd (post_api_users rq w)).
Proof.
  rewrite (post_api_users_run rq w).
  destruct (run_replace_user (db w) _ _ _ _ _ _) as [s|] eqn:E; [|discriminate].
  intros _. cbn [snd fst]. rewrite post_api_users_run. cbn [db].
  assert (Hagain : run_replace_user s (ub_id rq) (ub_name rq) (ub_email rq)
                     (ub_role rq) (ub_bio rq) (ub_avatar rq) = Returned s).
  { unfold run_replace_user in *. split_outcome E. simpl.
    eapply replace_user_again. eassumption. }
  rewrite Hagain. split; reflexivity.
Qed.

Lemma upsert_is_idempotent_witness :
  db (snd (post_api_users (sample_user "buyer_1" "Acme People" "hr@acme.com" "buyer")
             (snd (post_api_users
                     (sample_user "buyer_1" "Acme People" "hr@acme.com" "buyer")
                     (start true 0))))) =
  db (snd (post_api_users (sample_user "buyer_1" "Acme People" "hr@acme.com" "buyer")
             (start true 0))).
Proof.
  exact (proj2 (@upsert_is_idempotent (start true 0)
                  (sample_user "buyer_1" "Acme People" "hr@acme.com" "buyer")
                  eq_refl)).
Defined.

(** ** Listings are complete *)

Lemma join_of_present_buyers (us : list user_row) (ps : list project_row) :
  keys_unique u_id us ->
  (forall p, In p ps -> has_key u_id us (p_buyer_id p) = true) ->
  map pl_project
    (flat_map (fun p =>
       map (fun u => mk_project_listing p (u_name u))
           (filter (fun u => string_eqb_opt (u_id u) (p_buyer_id p)) us)) ps) = ps.
Proof.
  intros Hu. induction ps as [|p ps IH]; simpl; intros H; [reflexivity|].
  destruct (proj1 (has_key_exists u_id us (p_buyer_id p)) (H p (or_introl eq_refl)))
    as [u [Hin Hk]].
  rewrite (@filter_key_one _ u_id us u (p_buyer_id p) Hu Hin Hk). simpl.
  f_equal. apply IH. intros q Hq. apply H. now right.
Qed.

Lemma join_of_present_sellers (us : list user_row) (bs : list bid_row) :
  keys_unique u_id us ->
  (forall b, In b bs -> has_key u_id us (b_seller_id b) = true) ->
  map bl_bid
    (flat_map (fun b =>
       map (fun u => mk_bid_listing b (u_name u))
           (filter (fun u => string_eqb_opt (u_id u) (b_seller_id b)) us)) bs) = bs.
Proof.
  intros Hu. induction bs as [|b bs IH]; simpl; intros H; [reflexivity|].
  destruct (proj1 (has_key_exists u_id us (b_seller_id b)) (H b (or_introl eq_refl)))
    as [u [Hin Hk]].
  rewrite (@filter_key_one _ u_id us u (b_seller_id b) Hu Hin Hk). simpl.
  f_equal. apply IH. intros q Hq. apply H. now right.
Qed.

(** With the foreign keys enforced the two joined listings lose no row and
    repeat none: GET /api/projects answers every stored project exactly once,
    and GET /api/projects/:id/bids answers exactly the bids stored for that
    project, in table order. *)
Theorem listings_are_complete (s : store) :
  store_ok s -> foreign_keys s = true ->
  Permutation (map pl_project (select_projects s)) (projects s) /\
  (forall id,
     map bl_bid (select_bids s id) =
     filter (fun b => String.eqb (b_project_id b) id) (bids s)).
Proof.
  intros Hok Hon. destruct (ok_references Hok Hon) as (Rp & Rb & _). split.
  - unfold select_projects.
    rewrite (Permutation_map pl_project (order_by_created_desc_perm (join_buyers s))).
    unfold join_buyers. rewrite join_of_present_buyers; auto. apply (ok_users Hok).
  - intros id. unfold select_bids. apply join_of_present_sellers.
    + apply (ok_users Hok).
    + intros b Hb. apply filter_In in Hb. destruct Hb as [Hb _].
      now destruct (Rb b Hb).
Qed.

Lemma listings_are_complete_witness :
  Permutation (map pl_project (select_projects (seeded true 0)))
              (projects (seeded true 0)).
Proof.
  exact (proj1 (@listings_are_complete (seeded true 0) (seeded_ok true 0) eq_refl)).
Defined.

(** Without the foreign keys a project whose buyer is missing is stored and
    never listed. *)
Example orphan_project_is_not_listed :
  let run := post_api_projects
               (mk_project_body (TString "X") (TString "nobody") (TString "t")
                  (TString "d") (NNumber 10) (NNumber 20))
               "m1" "m2" "m3" 1 (start false 0) in
  fst run = Returned (mk_response 201 Success) /\
  has_project (db (snd run)) "X" = true /\
  filter (fun l => string_eqb_opt (p_id (pl_project l)) "X")
         (select_projects (db (snd run))) = [].
Proof. repeat split. Qed.

(** ** Matchmaking for a stored project *)

(** For a project that is in the store the gateway is called exactly once,
    with the description of the project and one line "name: bio" for each
    user whose role is seller and for no other user; its text is answered
    under 200, its rejection is caught and answered 500 with its message; the
    store is not written. *)
Theorem matchmaking_for_stored_project
    (w : world) (id : string) (p : project_row) (reply : outcome string) :
  select_project (db w) id = Some p ->
  let run := handle (GetMatchmaking id reply) w in
  db (snd run) = db w /\
  emitted w (snd run) =
    [AskedAdvice (p_description p) (map seller_line (select_sellers (db w)))] /\
  (forall line, In line (map seller_line (select_sellers (db w))) <->
     exists u, In u (users (db w)) /\ u_role u = "seller" /\ line = seller_line u) /\
  fst run =
    Returned (match reply with
              | Returned text => mk_response 200 (Advice text)
              | Thrown e => mk_response 500 (ErrorMessage e)
              end).
Proof.
  intros Hsel. cbv zeta. split; [|split; [|split]].
  - cbn [handle]. rewrite get_api_matchmaking_run, Hsel. now destruct reply.
  - now apply matchmaking_known_project.
  - intros line. rewrite in_map_iff. unfold select_sellers. split.
    + intros [u [<- Hu]]. apply filter_In in Hu. destruct Hu as [Hu Hr].
      apply String.eqb_eq in Hr. eauto.
    + intros [u [Hu [Hr ->]]]. exists u. split; [reflexivity|].
      apply filter_In. split; [exact Hu|]. now apply String.eqb_eq.
  - cbn [handle]. rewrite get_api_matchmaking_run, Hsel. now destruct reply.
Qed.

Lemma matchmaking_for_stored_project_witness :
  fst (handle (GetMatchmaking "p1" (Thrown (GatewayFailed "quota"))) (start true 0)) =
  Returned (mk_response 500 (ErrorMessage (GatewayFailed "quota"))).
Proof.
  exact (proj2 (proj2 (proj2
           (@matchmaking_for_stored_project (start true 0) "p1"
              (nth 0 (seed_projects 0) (mk_project None "" "" "" SNull SNull None 0))
              (Thrown (GatewayFailed "quota")) eq_refl)))).
Defined.

(** ** Joining and leaving a room *)

Lemma delivery_count (w : world) (sid a b text : string) (now : Z) (s : socket) :
  sockets_ok w -> In s (sockets w) ->
  copies (socket_id s)
    (emitted w (snd (on_send_message sid
       (mk_message_data (TString a) (TString b) (TString text)) now w))) =
  ((if in_room b s then 1 else 0) +
   (if String.eqb sid (socket_id s) then 1 else 0))%nat.
Proof.
  intros Hok Hin. rewrite on_send_message_accepted. cbn [snd].
  erewrite emitted_app; [|cbn [trace]; rewrite <- !app_assoc; reflexivity].
  rewrite !copies_app, copies_of_room, (@members_with_id b (sockets w) s Hok Hin).
  unfold copies. simpl. destruct (String.eqb sid (socket_id s)); reflexivity.
Qed.

Lemma in_room_after_join (sid room : string) (s : socket) :
  socket_id s = sid -> in_room room (join_room sid room s) = true.
Proof.
  intros Hs. unfold join_room, in_room. rewrite Hs, String.eqb_refl. simpl.
  destruct (existsb (String.eqb room) (rooms s)) eqn:He; simpl.
  - rewrite He. apply orb_true_r.
  - rewrite String.eqb_refl. apply orb_true_r.
Qed.

Lemma join_room_id (sid room : string) (s : socket) :
  socket_id (join_room sid room s) = socket_id s.
Proof. unfold join_room. now destruct (_ && _). Qed.

Lemma join_room_twice (sid room : string) (s : socket) :
  join_room sid room (join_room sid room s) = join_room sid room s.
Proof.
  unfold join_room at 2 3.
  destruct (String.eqb (socket_id s) sid && negb (existsb (String.eqb room) (rooms s)))
    eqn:Hc.
  - unfold join_room. simpl. rewrite String.eqb_refl. simpl.
    now rewrite andb_false_r.
  - unfold join_room. now rewrite Hc.
Qed.

(** A connected socket that joins a room is sent exactly one packet for each
    message another socket sends to that room; joining the room again changes
    nothing, and the other sockets keep the rooms they had. *)
Theorem join_then_receive
    (w : world) (s : socket) (room sender a text : string) (now : Z) :
  sockets_ok w -> In s (sockets w) -> sender <> socket_id s ->
  let joined := snd (on_join (socket_id s) room w) in
  copies (socket_id s)
    (emitted joined
       (snd (on_send_message sender
               (mk_message_data (TString a) (TString room) (TString text))
               now joined))) = 1%nat /\
  on_join (socket_id s) room joined = (Returned tt, joined) /\
  (forall other, In other (sockets w) -> socket_id other <> socket_id s ->
     In other (sockets joined)).
Proof.
  intros Hok Hin Hne. cbv zeta. split; [|split].
  - assert (Hok' : sockets_ok (snd (on_join (socket_id s) room w))).
    { unfold sockets_ok. simpl. rewrite map_map.
      erewrite map_ext; [exact Hok|]. intros x. apply join_room_id. }
    assert (Hin' : In (join_room (socket_id s) room s)
                      (sockets (snd (on_join (socket_id s) room w))))
      by (simpl; now apply in_map).
    pose proof (@delivery_count _ sender a room text now _ Hok' Hin') as Hc.
    rewrite join_room_id in Hc. rewrite Hc.
    rewrite in_room_after_join by reflexivity.
    apply String.eqb_neq in Hne. now rewrite Hne.
  - unfold on_join. simpl. f_equal. f_equal. rewrite map_map.
    apply map_ext. intros x. apply join_room_twice.
  - intros other Ho Hd. simpl. apply in_map_iff. exists other. split; [|exact Ho].
    unfold join_room. apply String.eqb_neq in Hd. now rewrite Hd.
Qed.

Lemma join_then_receive_witness :
  copies "s2"
    (emitted (snd (on_join "s2" "bob" sample_chat))
       (snd (on_send_message "s1"
               (mk_message_data (TString "alice") (TString "bob") (TString "hi"))
               1 (snd (on_join "s2" "bob" sample_chat))))) = 1%nat.
Proof.
  exact (proj1 (@join_then_receive sample_chat (mk_socket "s2" []) "bob" "s1"
                  "alice" "hi" 1 sample_chat_ok
                  ltac:(right; left; reflexivity) ltac:(discriminate))).
Defined.

(** After a socket disconnects, no message that another socket sends puts a
    packet on it, whatever rooms it had joined and whatever the message. *)
Theorem disconnect_then_nothing
    (w : world) (sid sender : string) (data : message_data) (now : Z) :
  sender <> sid ->
  let left := snd (on_disconnect sid w) in
  copies sid (emitted left (snd (on_send_message sender data now left))) = 0%nat.
Proof.
  intros Hne. cbv zeta. rewrite on_send_message_run.
  destruct (run_insert_message _ _ _ _ _) as [s|] eqn:E.
  - pose proof E as E'. apply run_insert_message_returned in E'.
    destruct E' as (a & b & c & Ha & Hb & Hc & _). cbv zeta. rewrite Hb. cbn [snd].
    erewrite emitted_app; [|cbn [trace]; rewrite <- !app_assoc; reflexivity].
    rewrite !copies_app, copies_of_room. unfold copies. simpl.
    apply String.eqb_neq in Hne. rewrite Hne. simpl.
    rewrite filter_none; [reflexivity|].
    intros x Hx. apply filter_In in Hx. destruct Hx as [Hx _].
    apply filter_In in Hx. destruct Hx as [_ Hx]. now apply negb_true_iff in Hx.
  - cbn [snd]. now rewrite emitted_nothing.
Qed.

Lemma disconnect_then_nothing_witness :
  copies "s1"
    (emitted (snd (on_disconnect "s1" sample_chat))
       (snd (on_send_message "s2"
               (mk_message_data (TString "bob") (TString "alice") (TString "hi"))
               1 (snd (on_disconnect "s1" sample_chat))))) = 0%nat.
Proof.
  exact (@disconnect_then_nothing sample_chat "s1" "s2"
           (mk_message_data (TString "bob") (TString "alice") (TString "hi")) 1
           ltac:(discriminate)).
Defined.

(** ** Accepted projects *)

Lemma post_api_projects_accepts_witness :
  fst (post_api_projects (sample_project (NNumber 1000)) "m1" "m2" "m3" 1
         (start true 0)) = Returned (mk_response 201 Success).
Proof.
  exact (@post_api_projects_accepts (start true 0) (sample_project (NNumber 1000))
           "m1" "m2" "m3" 1 "X" "buyer_1" "X" "A sample project"
           eq_refl eq_refl eq_refl eq_refl ltac:(discriminate)
           eq_refl eq_refl eq_refl eq_refl eq_refl
           ltac:(discriminate) ltac:(discriminate) ltac:(discriminate)).
Defined.

(** The three milestones of an accepted project whose budget_min is an
    integer B of magnitude below 3 * 2^50 never add up to more than B and
    lose at most 2 to the rounding: their total lies between B - 2 and B,
    and it is B exactly when 5 divides B. *)
Theorem milestones_total
    (w w' : world) (rq : project_body) (u1 u2 u3 : string) (now B : Z) :
  ToNumber (pb_budget_min rq) = integer B ->
  Z.abs B < 3 * 2 ^ 50 ->
  post_api_projects rq u1 u2 u3 now w = (Returned (mk_response 201 Success), w') ->
  exists created,
    milestones (db w') = milestones (db w) ++ created /\
    List.length created = 3%nat /\
    B - 2 <= sum_amounts created <= B /\
    (sum_amounts created = B <-> B mod 5 = 0).
Proof.
  intros HB Hsize H.
  destruct (accepted_creation_rows _ _ _ _ _ _ H) as (i & _ & _ & Hrows).
  rewrite HB in Hrows.
  pose proof (@floor_share_of_integer 1 B (or_introl eq_refl) Hsize) as F1.
  pose proof (@floor_share_of_integer 2 B (or_intror eq_refl) Hsize) as F2.
  unfold floor_share in F1, F2. cbn [ToNumber] in F1, F2. inversion F1 as [F1']. inversion F2 as [F2'].
  rewrite F1', F2', Z.mul_1_l in Hrows. clear F1 F2 F1' F2'.
  change (2 ^ 50) with 1125899906842624 in Hsize.
  pose proof (Z.div_mod B 5 ltac:(lia)) as D1.
  pose proof (Z.mod_pos_bound B 5 ltac:(lia)) as R1.
  pose proof (Z.div_mod (2 * B) 5 ltac:(lia)) as D2.
  pose proof (Z.mod_pos_bound (2 * B) 5 ltac:(lia)) as R2.
  rewrite !integer_affinity_of_integer in Hrows
    by (change (2 ^ 63) with 9223372036854775808; lia).
  eexists. split; [exact Hrows|]. split; [reflexivity|].
  unfold sum_amounts. cbn [fold_right ms_amount].
  split; [lia|]. split; intros Heq.
  - lia.
  - assert (HB5 : B = 5 * (B / 5)) by lia.
    assert (2 * B / 5 = 2 * (B / 5)).
    { rewrite HB5 at 1. rewrite Z.mul_assoc, (Z.mul_comm 2 5), <- Z.mul_assoc.
      rewrite Z.mul_comm, Z.div_mul by lia. lia. }
    lia.
Qed.

Lemma milestones_total_witness :
  exists created,
    milestones (db (snd (post_api_projects (sample_project (NNumber 1004))
                           "m1" "m2" "m3" 1 (start true 0)))) = [] ++ created /\
    1002 <= sum_amounts created <= 1004.
Proof.
  destruct (@milestones_total (start true 0)
              (snd (post_api_projects (sample_project (NNumber 1004))
                      "m1" "m2" "m3" 1 (start true 0)))
              (sample_project (NNumber 1004)) "m1" "m2" "m3" 1 1004
              eq_refl eq_refl eq_refl)
    as (created & Hrows & _ & Hb & _).
  exists created. split; [exact Hrows|exact Hb].
Defined.

(** Beyond that magnitude the doubles round up: at 3 * 2^50, which 5 does
    not divide, the total is the budget, and at 8103143796597289 it exceeds
    the budget. *)
Example large_budget_total_exceeds :
  sum_amounts
    (milestones (db (snd (post_api_projects
                            (sample_project (NNumber (3 * 2 ^ 50)))
                            "m1" "m2" "m3" 1 (start true 0))))) =
  3 * 2 ^ 50 /\
  (3 * 2 ^ 50) mod 5 = 2 /\
  sum_amounts
    (milestones (db (snd (post_api_projects
                            (sample_project (NNumber 8103143796597289))
                            "m1" "m2" "m3" 1 (start true 0))))) =
  8103143796597289 + 1.
Proof. repeat split. Qed.

(** A budget_min sent as the string "-5" is multiplied as the number -5 and
    stored in [projects] as the column reads the text. *)
Example numeric_string_budget :
  let run := post_api_projects
               (sample_project (NString "-5" (integer (-5)) (SInteger (-5))))
               "m1" "m2" "m3" 1 (start true 0) in
  fst run = Returned (mk_response 201 Success) /\
  map ms_amount (select_milestones (db (snd run)) "X") =
    [SInteger (-1); SInteger (-2); SInteger (-2)] /\
  map p_budget_min (projects (db (snd run))) =
    [SInteger 5000; SInteger 3000; SInteger (-5)].
Proof. repeat split. Qed.

Lemma tables_only_grow_witness :
  In (nth 0 (seed_projects 0) (mk_project None "" "" "" SNull SNull None 0))
     (projects
        (db (run_inputs
               [Http (PostUsers (sample_user "u2" "N" "sarah@hrconsulting.com" "seller"));
                Socket (Connection "s1");
                Http (PostProjects (sample_project (NNumber 1000)) "m1" "m2" "m3" 1)]
               (start true 0)))).
Proof.
  exact (proj1 (proj2 (tables_only_grow
           [Http (PostUsers (sample_user "u2" "N" "sarah@hrconsulting.com" "seller"));
            Socket (Connection "s1");
            Http (PostProjects (sample_project (NNumber 1000)) "m1" "m2" "m3" 1)]
           (start true 0))) _ (or_introl eq_refl)).
Defined.
